(** * Content repurposing pipeline: a shallow embedding and its properties

    The development follows the Python sources of the repository:

    - [src/text_processor.py]   ([clean_text], [chunk_text], [summarize_chunks])
    - [src/gemini_handler.py]   ([_call_with_retry], [chunk_summarize],
                                 [create_repurposed_content])
    - [templates/prompts.py]    ([TEMPLATES], [get_template])
    - [src/content_fetcher.py]  ([fetch_content] and its helpers)
    - [src/repurposer.py]       ([repurpose], [repurpose_from_text])

    Python strings are lists of Unicode code points.  Effects (calls to the
    generation capability, sleeps, exceptions) are threaded through a small
    state-and-exception monad. *)

From Stdlib Require Import String Ascii.
From Stdlib Require Import List ZArith NArith Arith Lia Bool.
Import ListNotations.

(* [length] is the length of lists throughout, not that of [string]. *)
Abbreviation length := Datatypes.length.

Set Implicit Arguments.

(* ====================================================================== *)
(** * Python strings *)
(* ====================================================================== *)

(** A [str] is a sequence of code points. *)
Definition pystr := list N.

(** Code points of an ASCII literal. *)
Definition py (s : string) : pystr :=
  map N_of_ascii (list_ascii_of_string s).
Arguments py s%_string.

Definition NL : N := 10.      (* newline *)
Definition SP : N := 32.      (* space *)
Definition DQ : N := 34.      (* double quote *)
Definition LBRACE : N := 123. (* opening brace *)
Definition RBRACE : N := 125. (* closing brace *)

Definition pystr_eqb (a b : pystr) : bool :=
  if list_eq_dec N.eq_dec a b then true else false.

(** Truthiness of a string: [if s:] holds for the non-empty ones. *)
Definition truthy (s : pystr) : bool :=
  match s with [] => false | _ :: _ => true end.

(** [Py_UNICODE_ISSPACE]: the code points for which [str.isspace] holds, which
    are also the ones the [re] class [\s] matches on [str] patterns and the
    ones [str.strip()] removes. *)
Definition isspace (c : N) : bool :=
  (((9 <=? c) && (c <=? 13)) || ((28 <=? c) && (c <=? 32))
   || (c =? 133) || (c =? 160) || (c =? 5760)
   || ((8192 <=? c) && (c <=? 8202))
   || (c =? 8232) || (c =? 8233) || (c =? 8239) || (c =? 8287)
   || (c =? 12288))%N.

Fixpoint dropwhile (p : N -> bool) (s : pystr) : pystr :=
  match s with
  | [] => []
  | c :: t => if p c then dropwhile p t else s
  end.

(** [s.lstrip()], [s.rstrip()], [s.strip()] with no argument. *)
Definition lstrip (s : pystr) : pystr := dropwhile isspace s.
Definition rstrip (s : pystr) : pystr := rev (dropwhile isspace (rev s)).
Definition strip (s : pystr) : pystr := rstrip (lstrip s).

(** [sep.join(parts)]. *)
Fixpoint join (sep : pystr) (parts : list pystr) : pystr :=
  match parts with
  | [] => []
  | [p] => p
  | p :: rest => p ++ sep ++ join sep rest
  end.

Fixpoint is_prefix (p s : pystr) : bool :=
  match p, s with
  | [], _ => true
  | _ :: _, [] => false
  | a :: p', b :: s' => (a =? b)%N && is_prefix p' s'
  end.

(** [needle in s] for strings. *)
Fixpoint contains (needle s : pystr) : bool :=
  is_prefix needle s ||
  match s with
  | [] => false
  | _ :: t => contains needle t
  end.

(** [s.split(sep)] for a non-empty [sep]: the pieces between the leftmost
    non-overlapping occurrences.  [skip] counts the characters of a matched
    separator that are still to be passed over, [cur] is the piece read so
    far. *)
Fixpoint str_split_go (sep : pystr) (skip : nat) (cur : pystr) (s : pystr)
  : list pystr :=
  match s with
  | [] => [cur]
  | c :: t =>
      match skip with
      | S k => str_split_go sep k cur t
      | O =>
          if is_prefix sep s
          then cur :: str_split_go sep (length sep - 1) [] t
          else str_split_go sep 0 (cur ++ [c]) t
      end
  end.

Definition str_split (sep : pystr) (s : pystr) : list pystr := str_split_go sep 0 [] s.

(* ====================================================================== *)
(** * The regular expressions of [text_processor.py] *)
(* ====================================================================== *)

(** [re.sub(r'\s+', ' ', text)]: every maximal run of whitespace becomes one
    space.  [in_run] tells that the previous character belonged to a run that
    has already been replaced. *)
Fixpoint sub_ws_go (in_run : bool) (s : pystr) : pystr :=
  match s with
  | [] => []
  | c :: t =>
      if isspace c
      then (if in_run then sub_ws_go true t else SP :: sub_ws_go true t)
      else c :: sub_ws_go false t
  end.

Definition re_sub_whitespace_runs (s : pystr) : pystr := sub_ws_go false s.

(** The tail of a match of [\n\s*\n], after its first newline: [\s*] is
    greedy, so it first tries to take [c] and match the rest, and gives [c]
    back only when that fails and [c] itself can be the closing newline.
    The result is what follows the match. *)
Fixpoint greedy_ws_then_nl (t : pystr) : option pystr :=
  match t with
  | [] => None
  | c :: t' =>
      if isspace c then
        match greedy_ws_then_nl t' with
        | Some rest => Some rest
        | None => if (c =? NL)%N then Some t' else None
        end
      else None
  end.

(** [re.sub(r'\n\s*\n', '\n\n', text)]: leftmost matches, each replaced by
    two newlines, scanning resumed after the match.  The recursion is on a
    suffix of the text; [fuel] bounds the number of steps and the length of
    the text always suffices. *)
Fixpoint sub_blank_go (fuel : nat) (s : pystr) : pystr :=
  match fuel with
  | O => s
  | S fuel' =>
      match s with
      | [] => []
      | c :: t =>
          if (c =? NL)%N then
            match greedy_ws_then_nl t with
            | Some rest => NL :: NL :: sub_blank_go fuel' rest
            | None => c :: sub_blank_go fuel' t
            end
          else c :: sub_blank_go fuel' t
      end
  end.

Definition re_sub_blank_lines (s : pystr) : pystr := sub_blank_go (length s) s.

(** [re.split(r'\n\n+', text)]: the pieces between maximal runs of two or
    more newlines.  [in_sep] tells that the scan is inside such a run. *)
Fixpoint split_blank_go (in_sep : bool) (cur : pystr) (s : pystr)
  : list pystr :=
  match s with
  | [] => [cur]
  | c :: t =>
      if in_sep && (c =? NL)%N then split_blank_go true cur t
      else if (c =? NL)%N && is_prefix [NL] t
           then cur :: split_blank_go true [] t
           else split_blank_go false (cur ++ [c]) t
  end.

Definition re_split_blank_lines (s : pystr) : list pystr :=
  split_blank_go false [] s.

(* ====================================================================== *)
(** * [TextProcessor] *)
(* ====================================================================== *)

Module TextProcessor.

(** [clean_text]: the two substitutions in the order of the source, then
    [strip]. *)
Definition clean_text (text : pystr) : pystr :=
  let text := re_sub_whitespace_runs text in
  let text := re_sub_blank_lines text in
  strip text.

(** The loop state of [chunk_text].  The source keeps the running estimate as
    the float [len(paragraph) / 4]; here it is kept in quarters of a token,
    that is in characters, so that [count / 4 > max_tokens] reads
    [count > 4 * max_tokens].  The two agree as long as the lengths stay below
    2^53, where division by four and the sums are exact. *)
Record chunk_state := ChunkState {
  chunks : list pystr;
  current_chunk : pystr;
  current_token_count : Z
}.

Definition paragraph_tokens (paragraph : pystr) : Z :=
  Z.of_nat (length paragraph).

Definition chunk_step (max_tokens : Z) (st : chunk_state) (paragraph : pystr)
  : chunk_state :=
  if (4 * max_tokens <? current_token_count st + paragraph_tokens paragraph)%Z
     && truthy (current_chunk st)
  then ChunkState (chunks st ++ [strip (current_chunk st)])
                  paragraph
                  (paragraph_tokens paragraph)
  else ChunkState (chunks st)
                  (if truthy (current_chunk st)
                   then current_chunk st ++ [NL; NL] ++ paragraph
                   else paragraph)
                  (current_token_count st + paragraph_tokens paragraph)%Z.

(** The part of [chunk_text] after the split: the [for] loop and the final
    flush of the current chunk. *)
Definition accumulate (max_tokens : Z) (paragraphs : list pystr) : list pystr :=
  let st := fold_left (chunk_step max_tokens) paragraphs (ChunkState [] [] 0%Z) in
  if truthy (current_chunk st)
  then chunks st ++ [strip (current_chunk st)]
  else chunks st.

Definition chunk_text (text : pystr) (max_tokens : Z) : list pystr :=
  let text := clean_text text in
  let paragraphs := re_split_blank_lines text in
  accumulate max_tokens paragraphs.

(** [summarize_chunks]: the length comparison only logs a warning. *)
Definition summarize_chunks (chunks : list pystr) (model_output : list pystr)
  : pystr :=
  join [NL; NL] model_output.

End TextProcessor.


(* ====================================================================== *)
(** * Effects: exceptions, sleeps and the generation capability *)
(* ====================================================================== *)

(** An exception as the handlers of the sources look at it: whether it is a
    [requests.exceptions.RequestException] (the only class a handler singles
    out; every other exception is an [Exception] all the same) and the text of
    [str(e)]. *)
Inductive ExnClass := RequestException | OtherException.

Record Exn := mkExn { exn_class : ExnClass; exn_message : pystr }.

Inductive Outcome (A : Type) : Type :=
| Ret (a : A)
| Raise (e : Exn).
Arguments Raise {A} e.

(** The argument of a [time.sleep]: a fixed number of seconds, or
    [least + random] with the random part drawn from [0, spread]. *)
Inductive Delay :=
| Fixed (seconds : nat)
| Jittered (least : nat) (spread : nat).


(** What a run leaves behind: the sleeps, in order, and the prompts sent to
    the generation capability, in order. *)
Record World := mkWorld { slept : list Delay; sent : list pystr }.

Definition fresh : World := mkWorld [] [].

Definition M (A : Type) : Type := World -> Outcome A * World.

Definition ret {A} (a : A) : M A := fun w => (Ret a, w).

Definition raise {A} (e : Exn) : M A := fun w => (Raise e, w).

Definition bind {A B} (c : M A) (k : A -> M B) : M B :=
  fun w => match c w with
           | (Ret a, w') => k a w'
           | (Raise e, w') => (Raise e, w')
           end.

(** [try: c  except Exception as e: handler e]. *)
Definition try_except {A} (c : M A) (handler : Exn -> M A) : M A :=
  fun w => match c w with
           | (Ret a, w') => (Ret a, w')
           | (Raise e, w') => handler e w'
           end.

Declare Scope monad_scope.
Delimit Scope monad_scope with monad.
Notation "x <- c ;; k" := (bind c (fun x => k))
  (at level 61, c at next level, right associativity) : monad_scope.
Notation "c ;; k" := (bind c (fun _ => k))
  (at level 61, right associativity) : monad_scope.
Local Open Scope monad_scope.

Definition sleep (d : Delay) : M unit :=
  fun w => (Ret tt, mkWorld (slept w ++ [d]) (sent w)).

(** The generation capability ([self.model.generate_content(prompt)] followed
    by [response.text]): what the [i]-th call of a run answers to a prompt,
    a text or an exception. *)
Definition Model := nat -> pystr -> Outcome pystr.

Definition generate_content (model : Model) (prompt : pystr) : M pystr :=
  fun w => (model (length (sent w)) prompt,
            mkWorld (slept w) (sent w ++ [prompt])).

(* ====================================================================== *)
(** * Dictionaries with string keys *)
(* ====================================================================== *)

(** A [dict] keeps its keys in insertion order; assigning to a key that is
    already present keeps its place. *)
Definition dict (V : Type) := list (pystr * V).

Fixpoint dict_get {V} (d : dict V) (k : pystr) : option V :=
  match d with
  | [] => None
  | (k', v) :: rest => if pystr_eqb k' k then Some v else dict_get rest k
  end.

Definition dict_mem {V} (d : dict V) (k : pystr) : bool :=
  match dict_get d k with Some _ => true | None => false end.

Fixpoint dict_set {V} (d : dict V) (k : pystr) (v : V) : dict V :=
  match d with
  | [] => [(k, v)]
  | (k', v') :: rest =>
      if pystr_eqb k' k then (k', v) :: rest else (k', v') :: dict_set rest k v
  end.

Definition dict_keys {V} (d : dict V) : list pystr := map fst d.

(** The keys a dictionary ends with when the keys [l] are assigned in order
    to one that already has the keys [seen]: each new key once, at its first
    occurrence. *)
Fixpoint first_occurrences_from (seen l : list pystr) : list pystr :=
  match l with
  | [] => []
  | k :: rest =>
      if existsb (pystr_eqb k) seen
      then first_occurrences_from seen rest
      else k :: first_occurrences_from (seen ++ [k]) rest
  end.

Definition first_occurrences (l : list pystr) : list pystr :=
  first_occurrences_from [] l.

(* ====================================================================== *)
(** * [str.format] *)
(* ====================================================================== *)

(** The result of [template.format] with keyword arguments: the rendered text, or some
    exception ([KeyError], [IndexError], [ValueError]: the callers catch
    [Exception] and only log it). *)
Inductive FormatResult :=
| Formatted (s : pystr)
| FormatRaises.

Definition fmap_format (f : pystr -> pystr) (r : FormatResult) : FormatResult :=
  match r with Formatted s => Formatted (f s) | FormatRaises => FormatRaises end.

(** Characters that make a replacement field more than a plain name: a nested
    brace, a conversion, a format specification, an attribute or an index. *)
Definition field_special (c : N) : bool :=
  ((c =? LBRACE) || (c =? 33) || (c =? 58) || (c =? 46) || (c =? 91)
   || (c =? 93))%N.

Inductive format_state :=
| Literal
| Field (name : pystr).

Section Format.

(** Fields with conversions, specifications, attributes or indices are left
    to the interpreter: [format_complex rest kwargs] is what Python makes of
    the template from the opening brace of such a field on. *)
Variable format_complex : pystr -> dict pystr -> FormatResult.
Variable kwargs : dict pystr.

(** The scanner of [str.format]: doubled braces are literal braces, a lone
    closing brace or an unclosed field is a [ValueError], [{name}] is replaced
    by [kwargs[name]] and raises when the name is missing. *)
Fixpoint format_go (st : format_state) (s : pystr) : FormatResult :=
  match s with
  | [] => match st with Literal => Formatted [] | Field _ => FormatRaises end
  | c :: t =>
      match st with
      | Literal =>
          if (c =? LBRACE)%N then
            match t with
            | c' :: t' =>
                if (c' =? LBRACE)%N
                then fmap_format (cons LBRACE) (format_go Literal t')
                else format_go (Field []) t
            | [] => FormatRaises
            end
          else if (c =? RBRACE)%N then
            match t with
            | c' :: t' =>
                if (c' =? RBRACE)%N
                then fmap_format (cons RBRACE) (format_go Literal t')
                else FormatRaises
            | [] => FormatRaises
            end
          else fmap_format (cons c) (format_go Literal t)
      | Field name =>
          if (c =? RBRACE)%N then
            match dict_get kwargs name with
            | Some v => fmap_format (app v) (format_go Literal t)
            | None => FormatRaises
            end
          else if field_special c
               then format_complex (LBRACE :: name ++ s) kwargs
               else format_go (Field (name ++ [c])) t
      end
  end.

Definition str_format (template : pystr) : FormatResult :=
  format_go Literal template.

End Format.

(* ====================================================================== *)
(** * [templates/prompts.py] *)
(* ====================================================================== *)

Module Prompts.

(** The lines of a triple-quoted literal, each closed by its newline. *)
Definition unlines (ls : list pystr) : pystr :=
  concat (map (fun l => l ++ [NL]) ls).

Definition CHUNK_SUMMARIZATION_TEMPLATE : pystr :=
  NL :: unlines
  [ py "You are processing a section of an article titled " ++ [DQ] ++ py "{title}" ++ [DQ] ++ py ". ";
    py "Summarize this section while preserving all key information, facts, and insights.";
    py "Keep the most important quotes and statistics intact.";
    py "Maintain the tone and style of the original content.";
    [];
    py "SECTION:";
    py "{chunk}";
    [];
    py "SUMMARIZED SECTION:" ].

Definition LINKEDIN_POST_TEMPLATE : pystr :=
  NL :: unlines
  [ py "Create a LinkedIn post based on this article titled " ++ [DQ] ++ py "{title}" ++ [DQ] ++ py ".";
    py "Include:";
    py "1. A compelling hook that grabs attention in the first line";
    py "2. Structured/numbered key insights from the article (enough detail to be understandable and compelling)";
    py "3. A thought-provoking question or call-to-action at the end";
    py "4. 1-5 relevant hashtags";
    [];
    py "Format with appropriate line breaks and emojis where relevant.";
    py "Keep under 3,000 characters and make it feel professional but conversational.";
    [];
    py "ARTICLE CONTENT:";
    py "{content}";
    [];
    py "LINKEDIN POST:" ].

Definition TWITTER_THREAD_TEMPLATE : pystr :=
  NL :: unlines
  [ py "Create a Twitter thread (generally between 5-7 tweets) based on this article titled " ++ [DQ] ++ py "{title}" ++ [DQ] ++ py ".";
    py "First tweet should have a powerful hook that makes people want to read the thread.";
    py "Each subsequent tweet should cover a key point with engaging language.";
    py "Final tweet should include a thought-provoking question or call-to-action.";
    py "Include 2-5 relevant hashtags in the final tweet.";
    py "Each tweet should be concise but still have enough information to be compelling, maintain the balance.";
    py "Number each tweet (1/7, 2/7, etc.) to make it clear it's a thread.";
    [];
    py "ARTICLE CONTENT:";
    py "{content}";
    [];
    py "TWITTER THREAD:" ].

Definition EMAIL_NEWSLETTER_TEMPLATE : pystr :=
  NL :: unlines
  [ py "Create an email newsletter based on this article titled " ++ [DQ] ++ py "{title}" ++ [DQ] ++ py ".";
    py "Include:";
    py "1. An engaging subject line (marked with " ++ [DQ] ++ py "SUBJECT:" ++ [DQ] ++ py ")";
    py "2. A personal-feeling introduction that hooks the reader";
    py "3. 3-5 key insights (can be more depending on the content) from the article with brief explanations";
    py "4. Bullet points for easy scanning";
    py "5. A practical takeaway or application for the reader";
    py "6. A clear call-to-action";
    [];
    py "Format it professionally with appropriate sections and make it conversational.";
    py "Use subheadings where appropriate.";
    [];
    py "ARTICLE CONTENT:";
    py "{content}";
    [];
    py "EMAIL NEWSLETTER:" ].

Definition THOUGHT_LEADERSHIP_TEMPLATE : pystr :=
  NL :: unlines
  [ py "Create 3 thought leadership comments that could be used on social media or forums";
    py "based on this article titled " ++ [DQ] ++ py "{title}" ++ [DQ] ++ py ".";
    [];
    py "Each comment should:";
    py "1. Show expertise and unique insight";
    py "2. Reference the article content but add new perspective or extend the ideas";
    py "3. Be 2-3 paragraphs long";
    py "4. End with an open-ended question to encourage discussion";
    py "5. Be written in a professional but conversational tone";
    [];
    py "Label each comment as " ++ [DQ] ++ py "COMMENT 1:" ++ [DQ] ++ py ", " ++ [DQ] ++ py "COMMENT 2:" ++ [DQ] ++ py ", and " ++ [DQ] ++ py "COMMENT 3:" ++ [DQ];
    [];
    py "ARTICLE CONTENT:";
    py "{content}";
    [];
    py "THOUGHT LEADERSHIP COMMENTS:" ].

Definition TEMPLATES : dict pystr :=
  [ (py "chunk_summarization", CHUNK_SUMMARIZATION_TEMPLATE);
    (py "linkedin", LINKEDIN_POST_TEMPLATE);
    (py "twitter", TWITTER_THREAD_TEMPLATE);
    (py "email", EMAIL_NEWSLETTER_TEMPLATE);
    (py "thought_leadership", THOUGHT_LEADERSHIP_TEMPLATE) ].

(** [TEMPLATES.get(template_type, "")]. *)
Definition get_template (template_type : pystr) : pystr :=
  match dict_get TEMPLATES template_type with
  | Some t => t
  | None => []
  end.

End Prompts.

(* ====================================================================== *)
(** * [GeminiHandler] *)
(* ====================================================================== *)

Module GeminiHandler.
Import Prompts.

(** The lines of the f-string literals of [gemini_handler.py]: every line,
    the closing one included, carries the twelve spaces of the source's
    indentation. *)
Definition indent : pystr := repeat SP 12.

Definition indented_lines (ls : list pystr) : pystr :=
  concat (map (fun l => indent ++ l ++ [NL]) ls) ++ indent.

Definition important_prefix : pystr :=
  py "!IMPORTANT INSTRUCTIONS (if above instructions are conflicting, prioritize these): ".

(** The conditional expression inside the fallback f-strings. *)
Definition important_instructions (custom_instruction : pystr) : pystr :=
  if truthy custom_instruction
  then important_prefix ++ custom_instruction
  else [].

Definition chunk_fallback_prompt (chunk original_title : pystr) : pystr :=
  NL :: indented_lines
  [ py "Summarize the following chunk of content from an article titled " ++ [DQ] ++ original_title ++ [DQ] ++ py ".";
    py "Preserve key information, quotes, statistics, and unique insights.";
    py "Maintain the original tone and style.";
    [];
    py "CHUNK:";
    chunk;
    [];
    py "SUMMARY:" ].

Definition fallback_linkedin (condensed_content original_title custom_instruction : pystr)
  : pystr :=
  NL :: indented_lines
  [ py "Create a LinkedIn post based on this article titled " ++ [DQ] ++ original_title ++ [DQ] ++ py ".";
    py "Include a compelling hook, 3-4 key insights, and a thought-provoking question or call-to-action.";
    py "Format with appropriate line breaks and emojis where relevant.";
    py "Keep under 3,000 characters and make it feel professional but conversational.";
    [];
    important_instructions custom_instruction;
    [];
    py "ARTICLE CONTENT:";
    condensed_content;
    [];
    py "LINKEDIN POST:" ].

Definition fallback_twitter (condensed_content original_title custom_instruction : pystr)
  : pystr :=
  NL :: indented_lines
  [ py "Create a Twitter thread (5-7 tweets) based on this article titled " ++ [DQ] ++ original_title ++ [DQ] ++ py ".";
    py "First tweet should have a powerful hook.";
    py "Each subsequent tweet should cover a key point with engaging language.";
    py "Final tweet should include a thought-provoking question or call-to-action.";
    py "Include relevant hashtags in the final tweet.";
    py "Each tweet should be under 280 characters.";
    [];
    important_instructions custom_instruction;
    [];
    py "ARTICLE CONTENT:";
    condensed_content;
    [];
    py "TWITTER THREAD:" ].

Definition fallback_email (condensed_content original_title custom_instruction : pystr)
  : pystr :=
  NL :: indented_lines
  [ py "Create an email newsletter based on this article titled " ++ [DQ] ++ original_title ++ [DQ] ++ py ".";
    py "Include:";
    py "1. An engaging subject line";
    py "2. A personal-feeling introduction";
    py "3. 3-5 key insights from the article with brief explanations";
    py "4. A practical takeaway or application for the reader";
    py "5. A call-to-action";
    [];
    py "Format it professionally with appropriate sections and make it conversational.";
    [];
    important_instructions custom_instruction;
    [];
    py "ARTICLE CONTENT:";
    condensed_content;
    [];
    py "EMAIL NEWSLETTER:" ].

Definition fallback_thought_leadership (condensed_content original_title custom_instruction : pystr)
  : pystr :=
  NL :: indented_lines
  [ py "Create 3 thought leadership comments that could be used on social media or forums";
    py "based on this article titled " ++ [DQ] ++ original_title ++ [DQ] ++ py ".";
    [];
    py "Each comment should:";
    py "1. Show expertise and unique insight";
    py "2. Reference the article content but add new perspective";
    py "3. Be 2-3 paragraphs long";
    py "4. End with an open-ended question to encourage discussion";
    [];
    important_instructions custom_instruction;
    [];
    py "ARTICLE CONTENT:";
    condensed_content;
    [];
    py "THOUGHT LEADERSHIP COMMENTS:" ].

Definition fallback_prompts
  (condensed_content original_title custom_instruction : pystr) : dict pystr :=
  [ (py "linkedin",
     fallback_linkedin condensed_content original_title custom_instruction);
    (py "twitter",
     fallback_twitter condensed_content original_title custom_instruction);
    (py "email",
     fallback_email condensed_content original_title custom_instruction);
    (py "thought_leadership",
     fallback_thought_leadership condensed_content original_title
                                 custom_instruction) ].

Definition ARTICLE_CONTENT : pystr := py "ARTICLE CONTENT:".

(** The rate-limit test of the handler: ["429" in str(e)]. *)
Definition rate_limited (e : Exn) : bool := contains (py "429") (exn_message e).

Section Handler.

Variable model : Model.
Variable format_complex : pystr -> dict pystr -> FormatResult.

(** The [while] loop of [_call_with_retry], entered with [retries] retries
    already made.  [max_retries] counts retries and [base_delay] seconds, so
    both are natural numbers.  Each iteration either returns, raises, or
    increments [retries] under the test [retries < max_retries]; the loop is
    therefore never left through its condition and [S max_retries] iterations
    are enough.  The two branches that return the empty text stand for the
    fall through the [while] (Python's [None]); [retry_loop_from_model] shows
    that they are not taken. *)
Fixpoint retry_loop (fuel : nat) (prompt : pystr)
                    (max_retries base_delay retries : nat) : M pystr :=
  match fuel with
  | O => ret []
  | S fuel' =>
      if retries <=? max_retries then
        try_except
          (generate_content model prompt)
          (fun e =>
             if rate_limited e && (retries <? max_retries)
             then sleep (Jittered (base_delay ^ retries) 1) ;;
                  retry_loop fuel' prompt max_retries base_delay (S retries)
             else raise e)
      else ret []
  end.

Definition _call_with_retry (prompt : pystr) (max_retries base_delay : nat)
  : M pystr :=
  retry_loop (S max_retries) prompt max_retries base_delay 0.

(** The defaults of the signature: [max_retries=5, base_delay=2]. *)
Definition default_max_retries : nat := 5.
Definition default_base_delay : nat := 2.

Definition chunk_summarize (chunk original_title : pystr) : M pystr :=
  let prompt :=
    match str_format format_complex
            [(py "title", original_title); (py "chunk", chunk)]
            (get_template (py "chunk_summarization")) with
    | Formatted p => p
    | FormatRaises => chunk_fallback_prompt chunk original_title
    end in
  try_except
    (_call_with_retry prompt default_max_retries default_base_delay)
    (fun _ => ret chunk).

(** The insertion of the custom instruction into the template. *)
Definition splice_instruction (template custom_instruction : pystr) : pystr :=
  if truthy custom_instruction then
    let template_parts := str_split ARTICLE_CONTENT template in
    if 1 <? length template_parts then
      nth 0 template_parts [] ++ [NL] ++ important_prefix ++ custom_instruction
        ++ [NL; NL] ++ ARTICLE_CONTENT ++ nth 1 template_parts []
    else template ++ [NL; NL] ++ custom_instruction
  else template.

(** What the first [try] block of [create_repurposed_content] leaves: a
    prompt to send, or the early [return] of the invalid-type message. *)
Inductive PromptChoice :=
| Prompt (prompt : pystr)
| InvalidType (message : pystr).

Definition invalid_content_type (content_type : pystr) : pystr :=
  py "Invalid content type: " ++ content_type.

Definition error_generating (content_type : pystr) : pystr :=
  py "Error generating " ++ content_type
     ++ py " content. Please try again later.".

Definition build_prompt
  (content_type condensed_content original_title custom_instruction : pystr)
  : PromptChoice :=
  let fallback :=
    fallback_prompts condensed_content original_title custom_instruction in
  let template :=
    splice_instruction (get_template content_type) custom_instruction in
  match str_format format_complex
          [(py "title", original_title); (py "content", condensed_content)]
          template with
  | Formatted prompt =>
      if negb (truthy prompt) && dict_mem fallback content_type
      then match dict_get fallback content_type with
           | Some p => Prompt p
           | None => Prompt prompt
           end
      else Prompt prompt
  | FormatRaises =>
      match dict_get fallback content_type with
      | Some p => Prompt p
      | None => InvalidType (invalid_content_type content_type)
      end
  end.

Definition create_repurposed_content
  (content_type condensed_content original_title custom_instruction : pystr)
  : M pystr :=
  match build_prompt content_type condensed_content original_title
                     custom_instruction with
  | InvalidType message => ret message
  | Prompt prompt =>
      try_except
        (_call_with_retry prompt default_max_retries default_base_delay)
        (fun _ => ret (error_generating content_type))
  end.

End Handler.

End GeminiHandler.

(* ====================================================================== *)
(** * [ContentFetcher] *)
(* ====================================================================== *)

Module ContentFetcher.

Local Open Scope monad_scope.

(** [{"title": ..., "content": ...}]. *)
Record FetchResult := mkFetchResult { title : pystr; content : pystr }.

Definition empty_result : FetchResult := mkFetchResult [] [].

Record Response := mkResponse { status_code : Z; text : pystr }.

(** [soup.title]: no [title] tag, or a tag whose [.string] is a text or
    [None] (a [title] element with no single text child). *)
Inductive TitleTag :=
| NoTitle
| TitleOf (string_ : option pystr).

(** The request headers that vary; the other entries of the dictionary are
    constants. *)
Record Headers := mkHeaders { header_user_agent : pystr;
                              header_referer : option pystr }.

(** The libraries the fetcher calls, each call a value or an exception.
    - [trafilatura_fetch_url], [trafilatura_extract]: the two [trafilatura]
      functions, which give a text or [None];
    - [soup_title]: [BeautifulSoup(html, 'html.parser').title];
    - [soup_main_text]: the container, paragraph-density and body heuristics
      of [extract_content_from_html] on the parsed document, up to the text
      they select (before [strip]);
    - [user_agent]: [None] when [UserAgent()] failed in [__init__], otherwise
      what [self.user_agent.random] gives at each attempt;
    - [random_choice]: [random.choice] on a non-empty list;
    - [urlparse]: [urllib.parse.urlparse], giving scheme and netloc;
    - [requests_get]: [requests.get] at each attempt;
    - [cloudscraper_get]: [cloudscraper.create_scraper(...).get]. *)
Record Web := mkWeb {
  trafilatura_fetch_url : pystr -> Outcome (option pystr);
  trafilatura_extract : pystr -> Outcome (option pystr);
  soup_title : pystr -> Outcome TitleTag;
  soup_main_text : pystr -> Outcome pystr;
  user_agent : option (nat -> Outcome pystr);
  random_choice : list pystr -> pystr;
  urlparse : pystr -> Outcome (pystr * pystr);
  requests_get : nat -> pystr -> Headers -> Outcome Response;
  cloudscraper_get : pystr -> Outcome Response
}.

Definition obind {A B} (o : Outcome A) (k : A -> Outcome B) : Outcome B :=
  match o with Ret a => k a | Raise e => Raise e end.

(** Truthiness of a value that is a text or [None]. *)
Definition truthy_opt (o : option pystr) : bool :=
  match o with Some s => truthy s | None => false end.

Definition is_request_exception (e : Exn) : bool :=
  match exn_class e with RequestException => true | OtherException => false end.

(** [try: c  except RequestException as e: handler e]: any other exception
    goes through. *)
Definition try_except_request {A} (c : M A) (handler : Exn -> M A) : M A :=
  fun w => match c w with
           | (Ret a, w') => (Ret a, w')
           | (Raise e, w') =>
               if is_request_exception e then handler e w' else (Raise e, w')
           end.

Definition lift {A} (o : Outcome A) : M A := fun w => (o, w).

Definition attribute_error : Exn :=
  mkExn OtherException (py "'NoneType' object has no attribute 'strip'").

(** [title = soup.title.string if soup.title else ""] followed by
    [title.strip()]. *)
Definition title_strip (t : TitleTag) : Outcome pystr :=
  match t with
  | NoTitle => Ret (strip [])
  | TitleOf (Some s) => Ret (strip s)
  | TitleOf None => Raise attribute_error
  end.

Definition fallback_user_agents : list pystr :=
  [ py "Mozilla/5.0 (Windows NT 10.0; Win64; x64) AppleWebKit/537.36 (KHTML, like Gecko) Chrome/121.0.0.0 Safari/537.36";
    py "Mozilla/5.0 (Macintosh; Intel Mac OS X 10_15_7) AppleWebKit/605.1.15 (KHTML, like Gecko) Version/16.5 Safari/605.1.15";
    py "Mozilla/5.0 (X11; Linux x86_64) AppleWebKit/537.36 (KHTML, like Gecko) Chrome/119.0.0.0 Safari/537.36";
    py "Mozilla/5.0 (Windows NT 10.0; Win64; x64; rv:112.0) Gecko/20100101 Firefox/121.0" ].

Section Fetcher.

Variable web : Web.

Definition get_random_headers (url : pystr) (attempt : nat) : Outcome Headers :=
  obind (match user_agent web with
         | Some random => random attempt
         | None => Ret (random_choice web fallback_user_agents)
         end)
    (fun agent =>
       if truthy url then
         obind (urlparse web url)
           (fun parsed_url =>
              let potential_referers :=
                [ fst parsed_url ++ py "://" ++ snd parsed_url;
                  py "https://www.google.com/";
                  py "https://www.bing.com/";
                  py "https://duckduckgo.com/" ] in
              Ret (mkHeaders agent
                             (Some (random_choice web potential_referers))))
       else Ret (mkHeaders agent None)).

(** One iteration of the loop of [fetch_with_regular_requests]: [Some text]
    when it returns, [None] when the loop goes on. *)
Definition regular_attempt (url : pystr) (attempt : nat) : M (option pystr) :=
  try_except_request
    ((if 0 <? attempt then sleep (Jittered 2 3) else ret tt) ;;
     headers <- lift (get_random_headers url attempt) ;;
     response <- lift (requests_get web attempt url headers) ;;
     if (status_code response =? 200)%Z
     then ret (Some (text response))
     else ret None)
    (fun _ => ret None).

(** [for attempt in range(max_retries)], from [attempt] on with [remaining]
    iterations to go. *)
Fixpoint regular_attempts (remaining attempt : nat) (url : pystr)
  : M (option pystr) :=
  match remaining with
  | O => ret None
  | S remaining' =>
      r <- regular_attempt url attempt ;;
      match r with
      | Some text => ret (Some text)
      | None => regular_attempts remaining' (S attempt) url
      end
  end.

Definition fetch_with_regular_requests (url : pystr) (max_retries : nat)
  : M (option pystr) :=
  regular_attempts max_retries 0 url.

Definition fetch_with_cloudscraper (url : pystr) : option pystr :=
  match cloudscraper_get web url with
  | Ret response =>
      if (status_code response =? 200)%Z then Some (text response) else None
  | Raise _ => None
  end.

(** The body of a [try] that runs the extractor on [html] and, when it gives
    a non-empty text, builds the result with the title of the page: [Ret None]
    when the [if result:] fails. *)
Definition extract_with_trafilatura (html : pystr)
  : Outcome (option FetchResult) :=
  obind (trafilatura_extract web html)
    (fun result =>
       match result with
       | Some r =>
           if truthy r then
             obind (soup_title web html)
               (fun tag =>
                  obind (title_strip tag)
                    (fun t => Ret (Some (mkFetchResult t (strip r)))))
           else Ret None
       | None => Ret None
       end).

Definition extract_with_soup (html : pystr) : Outcome FetchResult :=
  obind (soup_title web html)
    (fun tag =>
       obind (soup_main_text web html)
         (fun c =>
            obind (title_strip tag)
              (fun t => Ret (mkFetchResult t (strip c))))).

Definition extract_content_from_html (html_content url : pystr) : FetchResult :=
  if negb (truthy html_content) then empty_result
  else
    match extract_with_trafilatura html_content with
    | Ret (Some result) => result
    | _ =>
        match extract_with_soup html_content with
        | Ret result => result
        | Raise _ => empty_result
        end
    end.

(** Method 1 of [fetch_content]: [Some result] when it returns, [None] when
    control reaches Method 2, an exception included. *)
Definition direct_extraction (url : pystr) : option FetchResult :=
  match trafilatura_fetch_url web url with
  | Ret (Some downloaded) =>
      if truthy downloaded then
        match extract_with_trafilatura downloaded with
        | Ret (Some result) => Some result
        | _ => None
        end
      else None
  | _ => None
  end.

(** Methods 2 and 3 share their second half: extract from the page when one
    was fetched and keep the result when its content is not empty. *)
Definition extract_fetched (html_content : option pystr) (url : pystr)
  : option FetchResult :=
  match html_content with
  | Some html =>
      if truthy html then
        let result := extract_content_from_html html url in
        if truthy (content result) then Some result else None
      else None
  | None => None
  end.

Definition fetch_content (url : pystr) : M FetchResult :=
  match direct_extraction url with
  | Some result => ret result
  | None =>
      html_content <- fetch_with_regular_requests url 3 ;;
      match extract_fetched html_content url with
      | Some result => ret result
      | None =>
          match extract_fetched (fetch_with_cloudscraper url) url with
          | Some result => ret result
          | None => ret empty_result
          end
      end
  end.

End Fetcher.

End ContentFetcher.

(* ====================================================================== *)
(** * [ContentRepurposer] *)
(* ====================================================================== *)

Module ContentRepurposer.
Import TextProcessor GeminiHandler ContentFetcher.

Local Open Scope monad_scope.

Definition fetch_failure : dict pystr :=
  [ (py "error", py "Failed to fetch content from URL") ].

(** The default of [chunk_text]: [max_tokens=4000]. *)
Definition default_max_tokens : Z := 4000.

Section Repurposer.

Variable web : Web.
Variable model : Model.
Variable format_complex : pystr -> dict pystr -> FormatResult.

(** [for i, chunk in enumerate(chunks)] of both entry points, from index [i]
    on: [n] is [len(chunks)] and [summarized_chunks] the summaries so far. *)
Fixpoint summarize_loop (n i : nat) (rest : list pystr) (original_title : pystr)
                        (delay_between_calls : nat)
                        (summarized_chunks : list pystr) : M (list pystr) :=
  match rest with
  | [] => ret summarized_chunks
  | chunk :: rest' =>
      summary <- chunk_summarize model format_complex chunk original_title ;;
      (if i <? n - 1 then sleep (Fixed delay_between_calls) else ret tt) ;;
      summarize_loop n (S i) rest' original_title delay_between_calls
                     (summarized_chunks ++ [summary])
  end.

(** The summarising steps: the loop, then [summarize_chunks]. *)
Definition condense (chunks : list pystr) (original_title : pystr)
                    (delay_between_calls : nat) : M pystr :=
  summarized_chunks <-
    summarize_loop (length chunks) 0 chunks original_title
                   delay_between_calls [] ;;
  ret (summarize_chunks chunks summarized_chunks).

(** [for i, content_type in enumerate(content_types)], from index [i] on. *)
Fixpoint generate_loop (n i : nat) (rest : list pystr)
                       (condensed_content original_title : pystr)
                       (delay_between_calls : nat)
                       (custom_instructions : dict pystr)
                       (results : dict pystr) : M (dict pystr) :=
  match rest with
  | [] => ret results
  | content_type :: rest' =>
      let custom_instruction :=
        match dict_get custom_instructions content_type with
        | Some c => c
        | None => []
        end in
      repurposed <-
        create_repurposed_content model format_complex content_type
          condensed_content original_title custom_instruction ;;
      let results := dict_set results content_type repurposed in
      (if i <? n - 1 then sleep (Fixed delay_between_calls) else ret tt) ;;
      generate_loop n (S i) rest' condensed_content original_title
                    delay_between_calls custom_instructions results
  end.

Definition or_empty_dict (custom_instructions : option (dict pystr))
  : dict pystr :=
  match custom_instructions with Some d => d | None => [] end.

Definition repurpose_from_text
  (title content : pystr) (content_types : list pystr)
  (delay_between_calls : nat) (custom_instructions : option (dict pystr))
  : M (dict pystr) :=
  let custom_instructions := or_empty_dict custom_instructions in
  let chunks := chunk_text content default_max_tokens in
  condensed_content <- condense chunks title delay_between_calls ;;
  generate_loop (length content_types) 0 content_types condensed_content
                title delay_between_calls custom_instructions [].

Definition repurpose
  (url : pystr) (content_types : list pystr)
  (delay_between_calls : nat) (custom_instructions : option (dict pystr))
  : M (dict pystr) :=
  let custom_instructions := or_empty_dict custom_instructions in
  content_data <- fetch_content web url ;;
  if negb (truthy (ContentFetcher.content content_data))
  then ret fetch_failure
  else
    let chunks :=
      chunk_text (ContentFetcher.content content_data) default_max_tokens in
    condensed_content <-
      condense chunks (ContentFetcher.title content_data)
               delay_between_calls ;;
    generate_loop (length content_types) 0 content_types condensed_content
                  (ContentFetcher.title content_data) delay_between_calls
                  custom_instructions [].

End Repurposer.

End ContentRepurposer.

(* ====================================================================== *)
(** * Construction of the handler and of the repurposer *)
(* ====================================================================== *)

Module Construction.
Import GeminiHandler ContentFetcher.

(** [ValueError("No Gemini API key provided")]. *)
Definition no_api_key : Exn :=
  mkExn OtherException (py "No Gemini API key provided").

Section Init.

(** The surroundings of [GeminiHandler.__init__]:
    - [getenv]: [os.getenv("GEMINI_API_KEY")], a text or [None];
    - [genai_setup]: [genai.configure(api_key=...)] followed by
      [genai.GenerativeModel(...)], which return or raise. *)
Variable getenv : option pystr.
Variable genai_setup : pystr -> Outcome unit.

(** [GeminiHandler.__init__], up to the key it stores in [self.api_key]. *)
Definition gemini_handler_init (api_key : option pystr) : Outcome pystr :=
  let self_api_key := if truthy_opt api_key then api_key else getenv in
  match self_api_key with
  | Some key =>
      if negb (truthy key) then Raise no_api_key
      else obind (genai_setup key) (fun _ => Ret key)
  | None => Raise no_api_key
  end.

(** [ContentRepurposer.__init__]: the fetcher and the processor are built
    without an exception ([ContentFetcher.__init__] catches its own), then
    the handler. *)
Definition content_repurposer_init (api_key : option pystr) : Outcome pystr :=
  gemini_handler_init api_key.

End Init.

End Construction.

(* ====================================================================== *)
(** * The command line: [main.py] *)
(* ====================================================================== *)

Module Main.
Import GeminiHandler ContentFetcher ContentRepurposer Construction.

Local Open Scope monad_scope.




Section Cli.

Variable web : Web.
Variable model : Model.
Variable format_complex : pystr -> dict pystr -> FormatResult.
Variable getenv : option pystr.
Variable genai_setup : pystr -> Outcome unit.
(** [str.upper]. *)
Variable upper : pystr -> pystr.





End Cli.

End Main.

(* ====================================================================== *)
(** * The web interface: [api/index.py] *)
(* ====================================================================== *)

Module Index.
Import GeminiHandler ContentFetcher ContentRepurposer Construction.

Local Open Scope monad_scope.

(** The argument of [is_valid_api_key]: [None], a text, or another object
    with its truth value. *)
Inductive PyValue :=
| PyNone
| PyStr (s : pystr)
| PyOther (truth : bool).

(** The class [[A-Za-z0-9_-]]. *)
Definition key_char (c : N) : bool :=
  ((65 <=? c) && (c <=? 90) || (97 <=? c) && (c <=? 122)
   || (48 <=? c) && (c <=? 57) || (c =? 95) || (c =? 45))%N.

(** [[A-Za-z0-9_-]{n}] at the start of [s]: what is left of [s] when it
    matches. *)
Fixpoint class_times (n : nat) (s : pystr) : option pystr :=
  match n with
  | O => Some s
  | S n' =>
      match s with
      | c :: rest => if key_char c then class_times n' rest else None
      | [] => None
      end
  end.

(** [$] without the multi-line flag: at the end of the text, or before a
    newline that ends it. *)
Definition at_dollar (rest : pystr) : bool :=
  match rest with
  | [] => true
  | [c] => (c =? NL)%N
  | _ => false
  end.

(** [bool(re.match(pattern, api_key))] for the pattern of the source, a
    start anchor, 39 times the class, and [$]. *)
Definition matches_key_pattern (api_key : pystr) : bool :=
  match class_times 39 api_key with
  | Some rest => at_dollar rest
  | None => false
  end.

Definition is_valid_api_key (api_key : PyValue) : bool :=
  match api_key with
  | PyStr s => if negb (truthy s) then false else matches_key_pattern s
  | PyNone => false
  | PyOther _ => false
  end.

(** What the widgets of the page hold when the script runs. *)
Record Widgets := mkWidgets {
  input_method : pystr;
  url_input : pystr;
  title_input : pystr;
  content_input : pystr;
  linkedin : bool;
  twitter : bool;
  email : bool;
  thought_leadership : bool;
  linkedin_instructions : pystr;
  twitter_instructions : pystr;
  email_instructions : pystr;
  thought_leadership_instructions : pystr;
  delay_seconds : nat
}.

Section Page.

Variable f : Widgets.

Definition url : pystr :=
  if pystr_eqb (input_method f) (py "URL") then url_input f else [].

Definition article_title : pystr :=
  if pystr_eqb (input_method f) (py "URL") then [] else title_input f.

Definition pasted_content : pystr :=
  if pystr_eqb (input_method f) (py "URL") then [] else content_input f.

(** The dictionary of custom instructions: one entry for each ticked box,
    assigned in the order of the page. *)
Definition custom_instructions : dict pystr :=
  let d := [] in
  let d := if linkedin f
           then dict_set d (py "linkedin") (linkedin_instructions f) else d in
  let d := if twitter f
           then dict_set d (py "twitter") (twitter_instructions f) else d in
  let d := if email f
           then dict_set d (py "email") (email_instructions f) else d in
  let d := if thought_leadership f
           then dict_set d (py "thought_leadership")
                         (thought_leadership_instructions f) else d in
  d.

Definition selected_types : list pystr :=
  let l := [] in
  let l := if linkedin f then l ++ [py "linkedin"] else l in
  let l := if twitter f then l ++ [py "twitter"] else l in
  let l := if email f then l ++ [py "email"] else l in
  let l := if thought_leadership f then l ++ [py "thought_leadership"]
           else l in
  l.

(** Truthiness of a list. *)
Definition nonempty {A} (l : list A) : bool :=
  match l with [] => false | _ :: _ => true end.

Definition button_disabled : bool :=
  (pystr_eqb (input_method f) (py "URL") && negb (truthy url))
  || (pystr_eqb (input_method f) (py "Paste Content")
      && (negb (truthy pasted_content) || negb (truthy article_title)))
  || negb (nonempty selected_types).

(** The chain of checks under the button: the message of the error shown,
    or [None] when the last branch, which does the work, is taken. *)
Definition validation_error : option pystr :=
  if pystr_eqb (input_method f) (py "URL") && negb (truthy url)
  then Some (py "Please enter a URL")
  else if pystr_eqb (input_method f) (py "Paste Content")
          && negb (truthy pasted_content)
  then Some (py "Please paste article content")
  else if pystr_eqb (input_method f) (py "Paste Content")
          && negb (truthy article_title)
  then Some (py "Please enter an article title")
  else if negb (nonempty selected_types)
  then Some (py "Please select at least one content type")
  else None.

End Page.

(** The advice shown under an error, chosen on [str(e)]. *)
Inductive Guidance :=
| RateLimits
| ApiKeyError
| UnknownError.

Definition error_guidance (message : pystr) : Guidance :=
  if contains (py "429") message then RateLimits
  else if contains (py "403") message || contains (py "401") message
  then ApiKeyError
  else UnknownError.

(** What the work under the button ends with when it returns: the
    access-denied error, the tabs, each with its content type and its text,
    or the message of a caught exception with the advice. *)
Inductive Screen :=
| AccessDenied
| Tabs (shown : list (pystr * pystr))
| ErrorShown (message : pystr) (guidance : Guidance).

(** The calls that draw on the page, each of which returns or raises:
    - [draw_start]: the status and progress placeholders made before the
      [try], with the first message;
    - [draw_progress]: [progress_text.text] and [progress_bar.progress] with
      a percentage and a message;
    - [draw_access_denied]: the [st.error] before the [return];
    - [draw_done]: the two [empty] calls and [status_container.success];
    - [draw_tabs]: [st.tabs] for the selected types;
    - [draw_tab_header]: entering tab number [i] and its heading;
    - [draw_tab_body]: the text of tab number [i] as markdown, in the text
      area and in the download button;
    - [draw_error]: in the handler, the status error, the progress text and
      the [st.error] of the advice. *)
Record Page := mkPage {
  draw_start : Outcome unit;
  draw_progress : nat -> pystr -> Outcome unit;
  draw_access_denied : Outcome unit;
  draw_done : Outcome unit;
  draw_tabs : list pystr -> Outcome unit;
  draw_tab_header : nat -> pystr -> Outcome unit;
  draw_tab_body : nat -> pystr -> pystr -> Outcome unit;
  draw_error : pystr -> Guidance -> Outcome unit
}.

Definition QUOTE : N := 39.

(** The [KeyError] of [results[key]] for a key made of letters and
    underscores, as the keys of the page are: [str(e)] is the key between
    single quotes. *)
Definition key_error (key : pystr) : Exn :=
  mkExn OtherException ([QUOTE] ++ key ++ [QUOTE]).

(** [results[content_type]]. *)
Definition lookup (results : dict pystr) (content_type : pystr)
  : Outcome pystr :=
  match dict_get results content_type with
  | Some text => Ret text
  | None => Raise (key_error content_type)
  end.

Section Process.

Variable page : Page.
(** The network as the fetch of the page finds it, and as the fetch inside
    [repurpose] finds it afterwards. *)
Variable first_fetch second_fetch : Web.
Variable model : Model.
Variable format_complex : pystr -> dict pystr -> FormatResult.
Variable getenv : option pystr.
Variable genai_setup : pystr -> Outcome unit.

(** [for i, content_type in enumerate(selected_types)], from index [i] on:
    the tabs filled so far, with their texts. *)
Fixpoint show_tabs (results : dict pystr) (i : nat) (rest : list pystr)
                   (shown : list (pystr * pystr))
  : Outcome (list (pystr * pystr)) :=
  match rest with
  | [] => Ret shown
  | content_type :: rest' =>
      obind (draw_tab_header page i content_type)
        (fun _ =>
           obind (lookup results content_type)
             (fun text =>
                obind (draw_tab_body page i content_type text)
                  (fun _ =>
                     show_tabs results (S i) rest'
                               (shown ++ [(content_type, text)]))))
  end.

(** The [try] block up to the results: [None] stands for the [return] after
    the access-denied error. *)
Definition obtain_results (f : Widgets) (api_key : pystr)
  : M (option (dict pystr)) :=
  _ <- lift (content_repurposer_init getenv genai_setup (Some api_key)) ;;
  if pystr_eqb (input_method f) (py "URL") then
    lift (draw_progress page 10
            (py "Fetching and analyzing content from URL...")) ;;
    content_data <- fetch_content first_fetch (url f) ;;
    if negb (truthy (content content_data)) then
      lift (draw_access_denied page) ;;
      ret None
    else
      lift (draw_progress page 20 (py "Processing content...")) ;;
      results <- repurpose second_fetch model format_complex (url f)
                           (selected_types f) (delay_seconds f)
                           (Some (custom_instructions f)) ;;
      ret (Some results)
  else
    lift (draw_progress page 10 (py "Processing pasted content...")) ;;
    results <- repurpose_from_text model format_complex (article_title f)
                                   (pasted_content f) (selected_types f)
                                   (delay_seconds f)
                                   (Some (custom_instructions f)) ;;
    ret (Some results).

(** The [try] block. *)
Definition attempt (f : Widgets) (api_key : pystr) : M Screen :=
  obtained <- obtain_results f api_key ;;
  match obtained with
  | None => ret AccessDenied
  | Some results =>
      lift (draw_progress page 100
              (py "All content generated successfully!")) ;;
      sleep (Fixed 1) ;;
      lift (draw_done page) ;;
      lift (draw_tabs page (selected_types f)) ;;
      shown <- lift (show_tabs results 0 (selected_types f) []) ;;
      ret (Tabs shown)
  end.

(** The handler of the [try] block. *)
Definition handler (e : Exn) : M Screen :=
  lift (draw_error page (exn_message e) (error_guidance (exn_message e))) ;;
  ret (ErrorShown (exn_message e) (error_guidance (exn_message e))).

(** The last branch under the button. *)
Definition process (f : Widgets) (api_key : pystr) : M Screen :=
  lift (draw_start page) ;;
  try_except (attempt f api_key) handler.

End Process.

End Index.

(* ====================================================================== *)
(** * Vocabulary of the statements *)
(* ====================================================================== *)

Module Vocabulary.
Import Prompts GeminiHandler ContentFetcher.

(** The world after one more prompt has been sent, and after one more
    backoff sleep at retry number [retries]. *)
Definition after_call (prompt : pystr) (w : World) : World :=
  mkWorld (slept w) (sent w ++ [prompt]).

Definition after_sleep (base_delay retries : nat) (w : World) : World :=
  mkWorld (slept w ++ [Jittered (base_delay ^ retries) 1]) (sent w).

Definition is_brace (c : N) : bool := ((c =? LBRACE) || (c =? RBRACE))%N.

(** A text with no brace in it. *)
Definition plain (s : pystr) : bool := forallb (fun c => negb (is_brace c)) s.

(** The LinkedIn template cut at its two fields and its content marker: what
    comes before [{title}], what stands between it and [ARTICLE CONTENT:],
    and what follows [{content}]. *)
Definition linkedin_head : pystr := firstn 54 LINKEDIN_POST_TEMPLATE.
Definition linkedin_rules : pystr := firstn 406 (skipn 61 LINKEDIN_POST_TEMPLATE).
Definition linkedin_tail : pystr := skipn 493 LINKEDIN_POST_TEMPLATE.

(** The template with a custom instruction spliced in. *)
Definition linkedin_spliced (custom_instruction : pystr) : pystr :=
  (linkedin_head ++ py "{title}" ++ linkedin_rules)
    ++ [NL] ++ important_prefix ++ custom_instruction
    ++ [NL; NL] ++ ARTICLE_CONTENT
    ++ ([NL] ++ py "{content}" ++ linkedin_tail).

(** The prompt it renders to when the instruction has no brace: the
    instruction after the directive prefix, before the content block. *)
Definition linkedin_prompt (title content custom_instruction : pystr) : pystr :=
  linkedin_head ++ title
    ++ (linkedin_rules ++ [NL] ++ important_prefix ++ custom_instruction
          ++ [NL; NL] ++ ARTICLE_CONTENT ++ [NL])
    ++ content ++ linkedin_tail.

(** Building the headers and sending the request raise nothing but
    [RequestException]s. *)
Definition only_request_exceptions (web : Web) (url : pystr) : Prop :=
  (forall attempt e, get_random_headers web url attempt = Raise e ->
                     is_request_exception e = true)
  /\ (forall attempt h e, requests_get web attempt url h = Raise e ->
                          is_request_exception e = true).

(** What a chunk contributes to the condensed document: an answer of the
    capability, or the chunk itself when the call ended in an exception. *)
Definition summary_of (model : Model) (chunk r : pystr) : Prop :=
  (exists i p, model i p = Ret r)
  \/ (r = chunk /\ exists i p e, model i p = Raise e).

(** The custom instruction [repurpose] passes for a content type. *)
Definition custom_for (custom_instructions : dict pystr) (content_type : pystr)
  : pystr :=
  match dict_get custom_instructions content_type with
  | Some c => c
  | None => []
  end.

(** What a content type maps to in the result: the invalid-type message when
    no prompt could be built, and otherwise the answer of the capability to
    the prompt of this type or, when a call for this prompt ended in an
    exception, the error marker of the type. *)
Definition artifact_of (model : Model)
           (format_complex : pystr -> dict pystr -> FormatResult)
           (condensed title : pystr) (custom : dict pystr)
           (content_type v : pystr) : Prop :=
  match build_prompt format_complex content_type condensed title
                     (custom_for custom content_type) with
  | InvalidType message => v = message
  | Prompt prompt =>
      (exists i, model i prompt = Ret v)
      \/ (v = error_generating content_type
          /\ exists i e, model i prompt = Raise e)
  end.

End Vocabulary.

(* ====================================================================== *)
(** * Vocabulary of the further statements *)
(* ====================================================================== *)

Module ExtraVocabulary.
Import TextProcessor Prompts GeminiHandler ContentFetcher Vocabulary Index.

(** The text does not start with whitespace. *)
Definition head_not_space (s : pystr) : bool :=
  match s with
  | [] => true
  | c :: _ => negb (isspace c)
  end.

(** Every whitespace character of the text is a space that no whitespace
    follows; it may end the text. *)
Fixpoint single_spaced (s : pystr) : bool :=
  match s with
  | [] => true
  | c :: t =>
      (if isspace c then (c =? SP)%N && head_not_space t else true)
      && single_spaced t
  end.

(** Every whitespace character of the text is a space followed by a
    character that is not whitespace. *)
Fixpoint spaces_inside (s : pystr) : bool :=
  match s with
  | [] => true
  | c :: t =>
      (if isspace c
       then (c =? SP)%N && match t with
                           | [] => false
                           | d :: _ => negb (isspace d)
                           end
       else true)
      && spaces_inside t
  end.

(** A normalised text: words separated by single spaces, with no whitespace
    at either end. *)
Definition normalized (s : pystr) : bool :=
  head_not_space s && spaces_inside s.

(** The characters of a text that are not whitespace, in order. *)
Definition visible_chars (s : pystr) : pystr :=
  filter (fun c => negb (isspace c)) s.

(** The estimate the loop of [chunk_text] keeps for a group of paragraphs,
    in quarters of a token: the sum of their lengths. *)
Definition total_chars (g : list pystr) : Z :=
  fold_right (fun p n => (paragraph_tokens p + n)%Z) 0%Z g.

Definition is_nil {A} (l : list A) : bool :=
  match l with [] => true | _ :: _ => false end.

(** The groups of paragraphs the loop of [chunk_text] forms, read as lists
    of paragraphs: [cur] is the group being filled. *)
Fixpoint groups_from (max_tokens : Z) (cur ps : list pystr)
  : list (list pystr) :=
  match ps with
  | [] => if is_nil cur then [] else [cur]
  | p :: rest =>
      if (4 * max_tokens <? total_chars cur + paragraph_tokens p)%Z
         && negb (is_nil cur)
      then cur :: groups_from max_tokens [p] rest
      else groups_from max_tokens (cur ++ [p]) rest
  end.

(** No group was closed early: each group together with the first paragraph
    of the next one would exceed the budget. *)
Fixpoint cut_late (max_tokens : Z) (groups : list (list pystr)) : Prop :=
  match groups with
  | g1 :: rest =>
      match rest with
      | g2 :: _ =>
          (4 * max_tokens < total_chars g1 + paragraph_tokens (hd [] g2))%Z
          /\ cut_late max_tokens rest
      | [] => True
      end
  | [] => True
  end.

(** The flush that ends [chunk_text], on the state the loop leaves. *)
Definition finalize (st : chunk_state) : list pystr :=
  if truthy (current_chunk st)
  then chunks st ++ [strip (current_chunk st)]
  else chunks st.

(** A paragraph as the loop expects it: not empty, with no whitespace at
    either end. *)
Definition tidy (p : pystr) : Prop := p <> [] /\ strip p = p.

(** ** Templates and prompts *)

Definition TITLE_FIELD : pystr := py "{title}".
Definition CONTENT_FIELD : pystr := py "{content}".
Definition CHUNK_FIELD : pystr := py "{chunk}".

(** A field name the scanner of [format] reads as a plain name. *)
Definition name_chars (name : pystr) : bool :=
  forallb (fun c => negb ((c =? RBRACE)%N || field_special c)) name.

(** What stands before the first occurrence of [field] in a template, and
    what stands between it and the next one (or the end). *)
Definition before_field (field tpl : pystr) : pystr :=
  nth 0 (str_split field tpl) [].
Definition after_field (field tpl : pystr) : pystr :=
  nth 1 (str_split field tpl) [].

(** A template cut at its title field, its [ARTICLE CONTENT:] marker and
    its second field. *)
Definition tpl_head (tpl : pystr) : pystr := before_field TITLE_FIELD tpl.
Definition tpl_body (second tpl : pystr) : pystr :=
  before_field second (after_field TITLE_FIELD tpl).
Definition tpl_tail (second tpl : pystr) : pystr :=
  after_field second (after_field TITLE_FIELD tpl).
Definition tpl_rules (tpl : pystr) : pystr :=
  before_field ARTICLE_CONTENT (tpl_body CONTENT_FIELD tpl).
Definition tpl_gap (tpl : pystr) : pystr :=
  after_field ARTICLE_CONTENT (tpl_body CONTENT_FIELD tpl).

(** The template with [title] in place of its title field and [value] in
    place of its second field, both put in as they are. *)
Definition rendered (second tpl title value : pystr) : pystr :=
  tpl_head tpl ++ title ++ tpl_body second tpl ++ value ++ tpl_tail second tpl.

(** The same for a generation template, with the directive and the custom
    instruction placed before the [ARTICLE CONTENT:] marker. *)
Definition rendered_with_instruction
  (tpl title content custom_instruction : pystr) : pystr :=
  tpl_head tpl ++ title
    ++ tpl_rules tpl ++ [NL] ++ important_prefix ++ custom_instruction
    ++ [NL; NL] ++ ARTICLE_CONTENT ++ tpl_gap tpl
    ++ content ++ tpl_tail CONTENT_FIELD tpl.

(** The content types the handler has a fallback prompt for. *)
Definition generation_types : list pystr :=
  [ py "linkedin"; py "twitter"; py "email"; py "thought_leadership" ].

(** What the proofs use of a generation template: its shape, with text free
    of braces around the two fields, and its cut at the content marker. *)
Definition generation_template (tpl : pystr) : Prop :=
  tpl = tpl_head tpl ++ TITLE_FIELD ++ tpl_body CONTENT_FIELD tpl
          ++ CONTENT_FIELD ++ tpl_tail CONTENT_FIELD tpl
  /\ str_split ARTICLE_CONTENT tpl
     = [ tpl_head tpl ++ TITLE_FIELD ++ tpl_rules tpl;
         tpl_gap tpl ++ CONTENT_FIELD ++ tpl_tail CONTENT_FIELD tpl ]
  /\ plain (tpl_head tpl) = true
  /\ plain (tpl_body CONTENT_FIELD tpl) = true
  /\ plain (tpl_rules tpl) = true
  /\ plain (tpl_gap tpl) = true
  /\ plain (tpl_tail CONTENT_FIELD tpl) = true
  /\ truthy (tpl_head tpl) = true.

(** A custom instruction whose first brace is a closing one standing
    alone: [before] has no brace and [after] does not start with a closing
    brace. *)
Definition lone_closing_brace (before after : pystr) : Prop :=
  plain before = true
  /\ match after with
     | [] => True
     | c :: _ => c <> RBRACE
     end.

(** ** Fetching *)




(** The world after the pause that precedes every attempt but the first. *)
Definition paused (attempt : nat) (w : World) : World :=
  if 0 <? attempt then mkWorld (slept w ++ [Jittered 2 3]) (sent w) else w.

(** The pauses between the attempts of [fetch_with_regular_requests]. *)
Definition pauses (n : nat) : list Delay := repeat (Jittered 2 3) n.

(** Both fields of a result are free of whitespace at their ends. *)
Definition stripped_result (r : FetchResult) : Prop :=
  strip (title r) = title r /\ strip (content r) = content r.

(** ** Orchestration *)

Definition is_fixed (d : Delay) : bool :=
  match d with Fixed _ => true | Jittered _ _ => false end.

(** The sleeps that are delays between calls, as opposed to backoffs and
    fetch pauses. *)
Definition inter_call_sleeps (l : list Delay) : list Delay :=
  filter is_fixed l.

(** The prompt that summarises the one chunk of a text. *)
Definition summary_prompt (title content : pystr) : pystr :=
  rendered CHUNK_FIELD CHUNK_SUMMARIZATION_TEMPLATE title (clean_text content).

(** ** The generating loop as the capability sees it *)

(** One generation that starts at call number [i] of the run: [k] calls
    answered with the rate-limit signal, each followed by a retry, then call
    [i + k] decides.  The entry is its answer, or the error marker of the
    type when it raised; a raise with the signal decides only when the five
    retries are used up. *)
Definition decides (model : Model) (i : nat) (prompt content_type : pystr)
                   (k : nat) (v : pystr) : Prop :=
  k <= 5
  /\ (forall j, j < k ->
      exists e, model (i + j) prompt = Raise e /\ rate_limited e = true)
  /\ match model (i + k) prompt with
     | Ret text => v = text
     | Raise e =>
         v = py "Error generating " ++ content_type
               ++ py " content. Please try again later."
         /\ (k < 5 -> rate_limited e = false)
     end.

(** The generations of a list of content types, in order, from call number
    [i] to call number [i']: [choice] gives the prompt of a type or its
    invalid-type message, a prompt is sent until a call decides, and a type
    without a prompt costs no call.  [entries] are the types with what was
    assigned to each. *)
Inductive generations (model : Model) (choice : pystr -> PromptChoice)
  : nat -> list pystr -> list (pystr * pystr) -> nat -> Prop :=
| generations_done (i : nat) : generations model choice i [] [] i
| generations_call (i : nat) (content_type : pystr) (rest : list pystr)
                   (prompt : pystr) (k : nat) (v : pystr)
                   (entries : list (pystr * pystr)) (i' : nat) :
    choice content_type = Prompt prompt ->
    decides model i prompt content_type k v ->
    generations model choice (i + S k) rest entries i' ->
    generations model choice i (content_type :: rest)
                ((content_type, v) :: entries) i'
| generations_invalid (i : nat) (content_type : pystr) (rest : list pystr)
                      (message : pystr)
                      (entries : list (pystr * pystr)) (i' : nat) :
    choice content_type = InvalidType message ->
    generations model choice i rest entries i' ->
    generations model choice i (content_type :: rest)
                ((content_type, message) :: entries) i'.

(** The dictionary that assigning the entries in order gives. *)
Definition assign_all (entries : list (pystr * pystr)) (results : dict pystr)
  : dict pystr :=
  fold_left (fun d entry => dict_set d (fst entry) (snd entry)) entries results.

(** The prompt of a generation type: its template with the title and the
    content put in, and with the directive and the custom instruction
    before the content marker when there is an instruction. *)
Definition generation_prompt (content_type title condensed instruction : pystr)
  : pystr :=
  if truthy instruction
  then rendered_with_instruction (get_template content_type) title condensed
                                 instruction
  else rendered CONTENT_FIELD (get_template content_type) title condensed.

(** What the generating loop leaves for the requested types, between call
    number [i] and call number [i']: one entry for each requested type in the
    order of the request, assigned in that order (so the keys are the types
    at their first occurrence, and the entries themselves when no type is
    asked for twice), each entry decided by the calls made for its own
    prompt.  For [linkedin], [twitter], [email] and [thought_leadership] a
    prompt is always sent, never an empty one, and with an instruction free
    of braces it is the prompt of the type. *)
Definition every_type_kept
  (model : Model) (condensed title : pystr) (custom : dict pystr)
  (content_types : list pystr) (i : nat) (entries : list (pystr * pystr))
  (i' : nat) : Prop :=
  map fst entries = content_types
  /\ dict_keys (assign_all entries []) = first_occurrences content_types
  /\ (NoDup content_types -> assign_all entries [] = entries)
  /\ (forall ct, In ct content_types ->
      exists v, dict_get (assign_all entries []) ct = Some v
                /\ In (ct, v) entries)
  /\ exists choice,
       generations model choice i content_types entries i'
       /\ forall ct, In ct generation_types ->
          exists prompt,
            choice ct = Prompt prompt /\ prompt <> []
            /\ (plain (custom_for custom ct) = true ->
                prompt = generation_prompt ct title condensed
                                           (custom_for custom ct)).

(** ** The page *)

(** A drawing call of the page raises [e]. *)
Definition drawing_raises (page : Page) (e : Exn) : Prop :=
  draw_start page = Raise e
  \/ (exists percent message, draw_progress page percent message = Raise e)
  \/ draw_access_denied page = Raise e
  \/ draw_done page = Raise e
  \/ (exists types, draw_tabs page types = Raise e)
  \/ (exists i content_type, draw_tab_header page i content_type = Raise e)
  \/ (exists i content_type text,
        draw_tab_body page i content_type text = Raise e)
  \/ (exists message guidance, draw_error page message guidance = Raise e).

(** No drawing call of the page raises. *)
Definition never_raises (page : Page) : Prop :=
  draw_start page = Ret tt
  /\ (forall percent message, draw_progress page percent message = Ret tt)
  /\ draw_access_denied page = Ret tt
  /\ draw_done page = Ret tt
  /\ (forall types, draw_tabs page types = Ret tt)
  /\ (forall i content_type, draw_tab_header page i content_type = Ret tt)
  /\ (forall i content_type text,
        draw_tab_body page i content_type text = Ret tt)
  /\ (forall message guidance, draw_error page message guidance = Ret tt).

End ExtraVocabulary.

(* ====================================================================== *)
(** * Scenarios *)
(* ====================================================================== *)

(** Concrete inputs and capabilities used to exercise the definitions. *)
Module Scenarios.
Import GeminiHandler ContentFetcher.

(** The two paragraphs [aaaa] and [bbbb] with a blank line between them. *)
Definition two_paragraphs : pystr := py "aaaa" ++ [NL; NL] ++ py "bbbb".


Definition too_many_requests : Exn :=
  mkExn OtherException (py "429 Resource has been exhausted (e.g. check quota).").

Definition invalid_api_key : Exn :=
  mkExn OtherException (py "400 API key not valid. Please pass a valid API key.").

(** A capability that answers [response] to every prompt. *)
Definition always_answers (response : pystr) : Model := fun _ _ => Ret response.

(** A capability that raises [e] at every call. *)
Definition always_raises (e : Exn) : Model := fun _ _ => Raise e.

(** An interpreter whose complex replacement fields all raise; the scenarios
    below never reach one. *)
Definition no_complex_fields : pystr -> dict pystr -> FormatResult :=
  fun _ _ => FormatRaises.

Definition connection_error : Exn :=
  mkExn RequestException (py "Connection refused").

(** A network on which every strategy fails: nothing is downloaded, every
    request is refused. *)
Definition offline : Web :=
  mkWeb (fun _ => Ret None)
        (fun _ => Ret None)
        (fun _ => Ret NoTitle)
        (fun _ => Ret [])
        None
        (fun l => hd [] l)
        (fun _ => Ret (py "https", py "example.com"))
        (fun _ _ _ => Raise connection_error)
        (fun _ => Raise connection_error).

(** The same network with the URL parser of the standard library, as far as
    the URL made of http:// and an opening bracket goes: [urlparse] rejects
    the unbalanced bracket with
    [ValueError("Invalid IPv6 URL")]. *)
Definition invalid_ipv6_url : Exn :=
  mkExn OtherException (py "Invalid IPv6 URL").

Definition offline_strict_urls : Web :=
  mkWeb (fun _ => Ret None)
        (fun _ => Ret None)
        (fun _ => Ret NoTitle)
        (fun _ => Ret [])
        None
        (fun l => hd [] l)
        (fun url => if pystr_eqb url (py "http://[")
                    then Raise invalid_ipv6_url
                    else Ret (py "https", py "example.com"))
        (fun _ _ _ => Raise connection_error)
        (fun _ => Raise connection_error).

(** A page that the direct extraction reads at once. *)
Definition one_article : Web :=
  mkWeb (fun _ => Ret (Some (py "<html>...</html>")))
        (fun _ => Ret (Some (py "An article about tea.")))
        (fun _ => Ret (TitleOf (Some (py "Tea"))))
        (fun _ => Ret [])
        None
        (fun l => hd [] l)
        (fun _ => Ret (py "https", py "example.com"))
        (fun _ _ _ => Raise connection_error)
        (fun _ => Raise connection_error).

(** A capability that is rate-limited on every prompt that mentions
    LinkedIn and answers the others. *)
Definition no_linkedin_quota : Model :=
  fun _ prompt =>
    if contains (py "LinkedIn") prompt
    then Raise too_many_requests
    else Ret (py "generated text").

(** The sleeps of [n] successive retries. *)
Definition backoffs (base_delay n : nat) : list Delay :=
  map (fun k => Jittered (base_delay ^ k) 1) (seq 0 n).

End Scenarios.

(* ====================================================================== *)
(** * Further scenarios *)
(* ====================================================================== *)

Module ExtraScenarios.
Import GeminiHandler ContentFetcher Scenarios Index.

(** A site that refuses the first request with status 403 and serves the
    page at the second; nothing is downloaded by the direct strategy. *)
Definition blocked_once : Web :=
  mkWeb (fun _ => Ret None)
        (fun _ => Ret (Some (py "Some article text")))
        (fun _ => Ret (TitleOf (Some (py " News "))))
        (fun _ => Ret [])
        None
        (fun l => hd [] l)
        (fun _ => Ret (py "https", py "example.com"))
        (fun attempt _ _ =>
           if attempt =? 0 then Ret (mkResponse 403 [])
           else Ret (mkResponse 200 (py "<html>page</html>")))
        (fun _ => Raise connection_error).

Definition example_url : pystr := py "https://example.com/a".

(** A blank text: spaces and a newline. *)
Definition blank_text : pystr := [SP; SP; NL; SP].

(** A text in the format of a key, and a library that accepts every key. *)
Definition well_formed_key : pystr :=
  py "key_0123456789-ABCDEFGHIJKLMNOPQRSTUVWX".

Definition setup_accepts : pystr -> Outcome unit := fun _ => Ret tt.

(** The page with a pasted article, two boxes ticked and an instruction for
    the newsletter. *)
Definition paste_page : Widgets :=
  mkWidgets (py "Paste Content") [] (py "Tea") (py "An article about tea.")
            true false true false
            [] [] (py "be brief") [] 3.

(** The page with a URL and two boxes ticked. *)
Definition url_page : Widgets :=
  mkWidgets (py "URL") (py "https://example.com/tea") [] []
            true true false false
            [] [] [] [] 3.

(** A page on which every drawing call returns. *)
Definition quiet_page : Page :=
  mkPage (Ret tt) (fun _ _ => Ret tt) (Ret tt) (Ret tt) (fun _ => Ret tt)
         (fun _ _ => Ret tt) (fun _ _ _ => Ret tt) (fun _ _ => Ret tt).

(** A page that refuses a second text area with the text of the first. *)
Definition duplicate_widget : Exn :=
  mkExn OtherException (py "There are multiple identical st.text_area widgets").

Definition strict_page : Page :=
  mkPage (Ret tt) (fun _ _ => Ret tt) (Ret tt) (Ret tt) (fun _ => Ret tt)
         (fun _ _ => Ret tt)
         (fun i _ _ => if 0 <? i then Raise duplicate_widget else Ret tt)
         (fun _ _ => Ret tt).


End ExtraScenarios.
(* ====================================================================== *)
(** * Facts about the string operations *)
(* ====================================================================== *)

Unset Implicit Arguments.

Section StringFacts.

Lemma pystr_eqb_eq (a b : pystr) : pystr_eqb a b = true <-> a = b.
Proof.
  unfold pystr_eqb. destruct (list_eq_dec N.eq_dec a b); split; congruence.
Qed.

Lemma pystr_eqb_refl (a : pystr) : pystr_eqb a a = true.
Proof. now apply pystr_eqb_eq. Qed.

Lemma dropwhile_In (p : N -> bool) (s : pystr) (c : N) :
  In c (dropwhile p s) -> In c s.
Proof.
  induction s as [|a s IH]; simpl; [tauto|].
  destruct (p a); simpl; tauto.
Qed.

Lemma dropwhile_fixed (p : N -> bool) (s : pystr) :
  match s with [] => True | c :: _ => p c = false end ->
  dropwhile p s = s.
Proof. destruct s as [|c s]; simpl; [reflexivity|]. now intros ->. Qed.

Lemma dropwhile_head (p : N -> bool) (s : pystr) :
  match dropwhile p s with [] => True | c :: _ => p c = false end.
Proof.
  induction s as [|a s IH]; simpl; [exact I|].
  destruct (p a) eqn:E; [exact IH|exact E].
Qed.

(** What is left of [s] after dropping a prefix still ends as [s] ends. *)
Lemma dropwhile_suffix (p : N -> bool) (s : pystr) :
  exists pre, s = pre ++ dropwhile p s.
Proof.
  induction s as [|a s [pre IH]]; simpl.
  - now exists [].
  - destruct (p a).
    + exists (a :: pre). simpl. now f_equal.
    + now exists [].
Qed.

Lemma strip_In (s : pystr) (c : N) : In c (strip s) -> In c s.
Proof.
  unfold strip, rstrip, lstrip. intros H.
  apply in_rev in H. apply dropwhile_In in H. apply in_rev in H.
  now apply dropwhile_In in H.
Qed.

(** A string already stripped on the left stays so after [rstrip]. *)
Lemma rstrip_head (s : pystr) :
  match s with [] => True | c :: _ => isspace c = false end ->
  match rstrip s with [] => True | c :: _ => isspace c = false end.
Proof.
  unfold rstrip. intros Hs.
  destruct (dropwhile_suffix isspace (rev s)) as [pre Hpre].
  remember (dropwhile isspace (rev s)) as d eqn:Hd.
  assert (Hrev : s = rev d ++ rev pre).
  { rewrite <- rev_app_distr, <- Hpre. now rewrite rev_involutive. }
  destruct (rev d) as [|c r] eqn:Er; [exact I|].
  rewrite Hrev in Hs. exact Hs.
Qed.

Lemma rstrip_idem (s : pystr) : rstrip (rstrip s) = rstrip s.
Proof.
  unfold rstrip. rewrite rev_involutive.
  rewrite (dropwhile_fixed isspace (dropwhile isspace (rev s))); [reflexivity|].
  apply dropwhile_head.
Qed.

Lemma strip_idem (s : pystr) : strip (strip s) = strip s.
Proof.
  unfold strip at 1. unfold lstrip at 1.
  rewrite dropwhile_fixed.
  - unfold strip. apply rstrip_idem.
  - unfold strip. apply rstrip_head. apply dropwhile_head.
Qed.

Lemma sub_ws_go_chars (in_run : bool) (s : pystr) (c : N) :
  In c (sub_ws_go in_run s) -> c = SP \/ isspace c = false.
Proof.
  revert in_run. induction s as [|a s IH]; intros in_run; simpl; [tauto|].
  destruct (isspace a) eqn:Ea.
  - destruct in_run; simpl.
    + apply IH.
    + intros [<-|H]; [now left|now apply IH in H].
  - simpl. intros [<-|H]; [now right|now apply IH in H].
Qed.

(** After [re.sub(r'\s+', ' ', text)] no newline is left. *)
Lemma re_sub_whitespace_runs_no_NL (s : pystr) :
  ~ In NL (re_sub_whitespace_runs s).
Proof.
  intros H. apply sub_ws_go_chars in H. destruct H as [H|H]; discriminate H.
Qed.

Lemma sub_blank_go_no_NL (fuel : nat) (s : pystr) :
  ~ In NL s -> sub_blank_go fuel s = s.
Proof.
  revert s. induction fuel as [|fuel IH]; intros s Hs; simpl; [reflexivity|].
  destruct s as [|c t]; [reflexivity|].
  destruct (N.eqb_spec c NL) as [->|Hc].
  - exfalso. apply Hs. now left.
  - f_equal. apply IH. intros H. apply Hs. now right.
Qed.

Lemma split_blank_go_no_NL (cur s : pystr) :
  ~ In NL s -> split_blank_go false cur s = [cur ++ s].
Proof.
  revert cur. induction s as [|c t IH]; intros cur Hs; simpl.
  - now rewrite app_nil_r.
  - destruct (N.eqb_spec c NL) as [->|Hc].
    + exfalso. apply Hs. now left.
    + simpl. rewrite IH.
      * now rewrite <- app_assoc.
      * intros H. apply Hs. now right.
Qed.

End StringFacts.

(* ====================================================================== *)
(** * Properties of [TextProcessor] *)
(* ====================================================================== *)

Module TextProcessorFacts.
Import TextProcessor.

(** The cleaned text never contains a newline: the first substitution of
    [clean_text] has already turned every newline into a space. *)
Lemma clean_text_no_NL (text : pystr) : ~ In NL (clean_text text).
Proof.
  unfold clean_text. intros H. apply strip_In in H.
  unfold re_sub_blank_lines in H.
  rewrite sub_blank_go_no_NL in H by apply re_sub_whitespace_runs_no_NL.
  now apply re_sub_whitespace_runs_no_NL in H.
Qed.

Lemma clean_text_stripped (text : pystr) :
  strip (clean_text text) = clean_text text.
Proof. unfold clean_text. apply strip_idem. Qed.

(** So the paragraph split of [chunk_text] always sees one paragraph. *)
Lemma paragraphs_of_clean_text (text : pystr) :
  re_split_blank_lines (clean_text text) = [clean_text text].
Proof.
  unfold re_split_blank_lines.
  now rewrite split_blank_go_no_NL by apply clean_text_no_NL.
Qed.

Lemma accumulate_single (max_tokens : Z) (p : pystr) :
  accumulate max_tokens [p] = if truthy p then [strip p] else [].
Proof.
  unfold accumulate. simpl. unfold chunk_step. simpl.
  rewrite andb_false_r. simpl. reflexivity.
Qed.

Lemma chunk_text_shape (text : pystr) (max_tokens : Z) :
  chunk_text text max_tokens =
  if truthy (clean_text text) then [clean_text text] else [].
Proof.
  unfold chunk_text. rewrite paragraphs_of_clean_text, accumulate_single.
  now rewrite clean_text_stripped.
Qed.

End TextProcessorFacts.

Module ChunkingClaims.
Import TextProcessor TextProcessorFacts Scenarios.

(** C1.  The source text [aaaa\n\nbbbb] has two paragraphs separated by a
    blank line, each estimated at one token, so with [max_tokens = 1] their
    combined estimate exceeds the budget.  [chunk_text] nevertheless returns
    the single chunk [aaaa bbbb]: [clean_text] has replaced the blank line by
    a space before the paragraph split, and the greedy accumulation that
    follows (which does separate the two paragraphs when it is given them)
    sees one paragraph only. *)
Theorem chunk_text_merges_paragraphs :
  re_split_blank_lines two_paragraphs = [py "aaaa"; py "bbbb"]
  /\ (4 * 1 < paragraph_tokens (py "aaaa") + paragraph_tokens (py "bbbb"))%Z
  /\ accumulate 1 [py "aaaa"; py "bbbb"] = [py "aaaa"; py "bbbb"]
  /\ clean_text two_paragraphs = py "aaaa bbbb"
  /\ chunk_text two_paragraphs 1 = [py "aaaa bbbb"].
Proof. repeat split; vm_compute; reflexivity. Qed.

(** C2.  For every text and every [max_tokens], [chunk_text] returns at most
    one chunk: the empty list when the cleaned text is empty and the
    singleton list of the cleaned text otherwise, the paragraph split of a
    cleaned text always giving a single paragraph. *)
Theorem chunk_text_at_most_one_chunk (text : pystr) (max_tokens : Z) :
  chunk_text text max_tokens
  = match clean_text text with
    | [] => []
    | _ :: _ => [clean_text text]
    end
  /\ (length (chunk_text text max_tokens) <= 1)%nat
  /\ re_split_blank_lines (clean_text text) = [clean_text text].
Proof.
  rewrite chunk_text_shape, paragraphs_of_clean_text.
  destruct (clean_text text) as [|c s]; simpl; repeat split; lia.
Qed.

(** C10.  For every text, the chunks of [chunk_text] joined in order with the
    blank-line separator give back the cleaned text, and so does their plain
    concatenation: nothing is lost, repeated or reordered. *)
Theorem chunk_text_reconstructs_clean_text (text : pystr) (max_tokens : Z) :
  join [NL; NL] (chunk_text text max_tokens) = clean_text text
  /\ concat (chunk_text text max_tokens) = clean_text text.
Proof.
  rewrite chunk_text_shape.
  destruct (clean_text text) as [|c s]; simpl; split;
    rewrite ?app_nil_r; reflexivity.
Qed.

End ChunkingClaims.

(* ====================================================================== *)
(** * Properties of [GeminiHandler._call_with_retry] *)
(* ====================================================================== *)

Module RetryFacts.
Import GeminiHandler Scenarios Vocabulary.

Local Open Scope monad_scope.

Section Loop.

Variable model : Model.
Variables (prompt : pystr) (max_retries base_delay : nat).

(** One iteration of the loop, spelled out. *)
Lemma retry_loop_step (fuel retries : nat) (w : World) :
  retry_loop model (S fuel) prompt max_retries base_delay retries w =
  if retries <=? max_retries then
    match model (length (sent w)) prompt with
    | Ret text => (Ret text, after_call prompt w)
    | Raise e =>
        if rate_limited e && (retries <? max_retries)
        then retry_loop model fuel prompt max_retries base_delay (S retries)
                        (after_sleep base_delay retries (after_call prompt w))
        else (Raise e, after_call prompt w)
    end
  else (Ret [], w).
Proof.
  simpl. destruct (retries <=? max_retries); [|reflexivity].
  unfold try_except, generate_content.
  destruct (model (length (sent w)) prompt) as [text|e]; [reflexivity|].
  destruct (rate_limited e && (retries <? max_retries)); reflexivity.
Qed.

(** The loop returns only what the capability answered and raises only what
    it raised: the branches standing for the fall through the [while] are
    never taken when the loop is entered with [retries <= max_retries] and
    the fuel [_call_with_retry] gives it. *)
Lemma retry_loop_from_model (fuel retries : nat) (w : World) :
  retries <= max_retries -> max_retries - retries < fuel ->
  match retry_loop model fuel prompt max_retries base_delay retries w with
  | (Ret text, w') =>
      exists i, model i prompt = Ret text /\ sent w' <> []
  | (Raise e, w') =>
      exists i, model i prompt = Raise e /\ sent w' <> []
  end.
Proof.
  revert retries w. induction fuel as [|fuel IH]; intros retries w Hle Hfuel.
  - lia.
  - rewrite retry_loop_step.
    destruct (Nat.leb_spec retries max_retries) as [_|Hgt]; [|lia].
    destruct (model (length (sent w)) prompt) as [text|e] eqn:Em.
    + exists (length (sent w)). split; [exact Em|].
      simpl. now destruct (sent w).
    + destruct (rate_limited e && (retries <? max_retries)) eqn:Et.
      * apply andb_true_iff in Et. destruct Et as [_ Hlt].
        apply Nat.ltb_lt in Hlt. apply IH; lia.
      * exists (length (sent w)). split; [exact Em|].
        simpl. now destruct (sent w).
Qed.

End Loop.





End RetryFacts.

Module RetryClaims.
Import GeminiHandler Scenarios RetryFacts.



End RetryClaims.

(* ====================================================================== *)
(** * Properties of [str.format] and of the prompts *)
(* ====================================================================== *)

Module PromptFacts.
Import Prompts GeminiHandler Scenarios Vocabulary.

Lemma plain_app (a b : pystr) : plain (a ++ b) = plain a && plain b.
Proof. apply forallb_app. Qed.

Lemma fmap_format_compose (f g : pystr -> pystr) (r : FormatResult) :
  fmap_format f (fmap_format g r) = fmap_format (fun s => f (g s)) r.
Proof. now destruct r. Qed.

Section FormatFacts.

Variable format_complex : pystr -> dict pystr -> FormatResult.
Variable kwargs : dict pystr.

Let fmt := format_go format_complex kwargs Literal.

(** Brace-free text is copied as it is. *)
Lemma format_go_plain (s rest : pystr) :
  plain s = true ->
  fmt (s ++ rest) = fmap_format (app s) (fmt rest).
Proof.
  unfold fmt. induction s as [|c s IH]; intros Hs.
  - simpl. now destruct (format_go format_complex kwargs Literal rest).
  - simpl in Hs. apply andb_true_iff in Hs. destruct Hs as [Hc Hs].
    unfold is_brace in Hc. apply negb_true_iff, orb_false_iff in Hc.
    destruct Hc as [Hl Hr].
    simpl. rewrite Hl, Hr, (IH Hs), fmap_format_compose. reflexivity.
Qed.

(** Reading a field name made of ordinary characters. *)
Lemma format_go_field_name (name more rest : pystr) :
  forallb (fun c => negb ((c =? RBRACE)%N || field_special c)) more = true ->
  format_go format_complex kwargs (Field name) (more ++ RBRACE :: rest) =
  match dict_get kwargs (name ++ more) with
  | Some v => fmap_format (app v) (fmt rest)
  | None => FormatRaises
  end.
Proof.
  revert name. induction more as [|c more IH]; intros name Hm.
  - simpl. now rewrite app_nil_r.
  - simpl in Hm. apply andb_true_iff in Hm. destruct Hm as [Hc Hm].
    apply negb_true_iff, orb_false_iff in Hc. destruct Hc as [Hr Hs].
    simpl. rewrite Hr, Hs, (IH _ Hm), <- app_assoc. reflexivity.
Qed.

(** A replacement field [{name}] whose name is a key of the arguments. *)
Lemma format_go_known_field (name rest v : pystr) :
  name <> [] ->
  forallb (fun c => negb ((c =? RBRACE)%N || field_special c)) name = true ->
  dict_get kwargs name = Some v ->
  fmt (LBRACE :: name ++ RBRACE :: rest) = fmap_format (app v) (fmt rest).
Proof.
  intros Hne Hname Hget. unfold fmt.
  destruct name as [|c name]; [congruence|].
  assert (Hc : (c =? LBRACE)%N = false).
  { simpl in Hname. apply andb_true_iff in Hname. destruct Hname as [Hc _].
    apply negb_true_iff, orb_false_iff in Hc. destruct Hc as [_ Hs].
    unfold field_special in Hs. repeat (apply orb_false_iff in Hs; destruct Hs as [Hs _]).
    exact Hs. }
  assert (Henter :
    format_go format_complex kwargs Literal
              (LBRACE :: (c :: name) ++ RBRACE :: rest)
    = format_go format_complex kwargs (Field [])
                ((c :: name) ++ RBRACE :: rest)).
  { simpl. rewrite Hc. reflexivity. }
  rewrite Henter, (format_go_field_name [] (c :: name) rest Hname).
  simpl app. rewrite Hget. reflexivity.
Qed.

End FormatFacts.

Lemma linkedin_template_parts :
  LINKEDIN_POST_TEMPLATE =
  linkedin_head ++ py "{title}" ++ linkedin_rules ++ ARTICLE_CONTENT
    ++ [NL] ++ py "{content}" ++ linkedin_tail.
Proof. vm_compute. reflexivity. Qed.

End PromptFacts.

(* ====================================================================== *)
(** * Properties of [GeminiHandler]: prompts and isolation of failures *)
(* ====================================================================== *)

Module HandlerFacts.
Import Prompts GeminiHandler Scenarios Vocabulary PromptFacts RetryFacts.

Lemma truthy_app_l (a b : pystr) : truthy a = true -> truthy (a ++ b) = true.
Proof. destruct a; simpl; congruence. Qed.

Lemma truthy_nonempty (s : pystr) : s <> [] -> truthy s = true.
Proof. destruct s; simpl; congruence. Qed.

Lemma get_template_linkedin :
  get_template (py "linkedin") = LINKEDIN_POST_TEMPLATE.
Proof. vm_compute. reflexivity. Qed.

Lemma split_linkedin :
  str_split ARTICLE_CONTENT LINKEDIN_POST_TEMPLATE =
  [ linkedin_head ++ py "{title}" ++ linkedin_rules;
    [NL] ++ py "{content}" ++ linkedin_tail ].
Proof. vm_compute. reflexivity. Qed.

Lemma splice_linkedin (custom_instruction : pystr) :
  custom_instruction <> [] ->
  splice_instruction LINKEDIN_POST_TEMPLATE custom_instruction =
  linkedin_spliced custom_instruction.
Proof.
  intros H. unfold splice_instruction.
  rewrite (truthy_nonempty _ H), split_linkedin. reflexivity.
Qed.

Section Handler.

Variable model : Model.
Variable format_complex : pystr -> dict pystr -> FormatResult.

Lemma format_linkedin (title content custom_instruction : pystr) :
  plain custom_instruction = true ->
  str_format format_complex
             [(py "title", title); (py "content", content)]
             (linkedin_spliced custom_instruction)
  = Formatted (linkedin_prompt title content custom_instruction).
Proof.
  intros Hci. unfold str_format, linkedin_spliced.
  set (kw := [(py "title", title); (py "content", content)]).
  set (mid := linkedin_rules ++ [NL] ++ important_prefix ++ custom_instruction
                ++ [NL; NL] ++ ARTICLE_CONTENT ++ [NL]).
  assert (Hshape :
    (linkedin_head ++ py "{title}" ++ linkedin_rules)
      ++ [NL] ++ important_prefix ++ custom_instruction
      ++ [NL; NL] ++ ARTICLE_CONTENT
      ++ ([NL] ++ py "{content}" ++ linkedin_tail)
    = linkedin_head
        ++ (LBRACE :: py "title"
              ++ RBRACE :: (mid ++ (LBRACE :: py "content"
                                      ++ RBRACE :: (linkedin_tail ++ []))))).
  { unfold mid. rewrite app_nil_r.
    change (py "{title}") with ((LBRACE :: py "title") ++ [RBRACE]).
    change (py "{content}") with ((LBRACE :: py "content") ++ [RBRACE]).
    repeat rewrite <- app_assoc. reflexivity. }
  rewrite Hshape.
  assert (Hmid : plain mid = true).
  { unfold mid. repeat rewrite plain_app. rewrite Hci. reflexivity. }
  rewrite format_go_plain by reflexivity.
  rewrite (@format_go_known_field format_complex kw (py "title") _ title)
    by (first [discriminate | reflexivity]).
  rewrite (format_go_plain format_complex kw mid _ Hmid).
  rewrite (@format_go_known_field format_complex kw (py "content") _ content)
    by (first [discriminate | reflexivity]).
  rewrite format_go_plain by reflexivity.
  cbn [format_go fmap_format].
  unfold linkedin_prompt. fold mid. rewrite app_nil_r. reflexivity.
Qed.

(** With a non-empty custom instruction that has no brace, the LinkedIn
    prompt carries the instruction after the directive prefix and before the
    [ARTICLE CONTENT:] block. *)
Lemma build_prompt_linkedin (title content custom_instruction : pystr) :
  custom_instruction <> [] ->
  plain custom_instruction = true ->
  build_prompt format_complex (py "linkedin") content title custom_instruction
  = Prompt (linkedin_prompt title content custom_instruction).
Proof.
  intros Hne Hplain. unfold build_prompt.
  rewrite get_template_linkedin, (splice_linkedin _ Hne),
    (@format_linkedin title content custom_instruction Hplain).
  assert (Ht : truthy (linkedin_prompt title content custom_instruction) = true).
  { unfold linkedin_prompt. apply truthy_app_l. reflexivity. }
  rewrite Ht. reflexivity.
Qed.

(** A content type that is not a key of [TEMPLATES] has no fallback prompt
    either. *)
Lemma unknown_type_no_fallback (content_type c t ci : pystr) :
  dict_get TEMPLATES content_type = None ->
  dict_get (fallback_prompts c t ci) content_type = None.
Proof.
  unfold TEMPLATES, fallback_prompts. cbn [dict_get].
  destruct (pystr_eqb (py "chunk_summarization") content_type); [discriminate|].
  destruct (pystr_eqb (py "linkedin") content_type); [discriminate|].
  destruct (pystr_eqb (py "twitter") content_type); [discriminate|].
  destruct (pystr_eqb (py "email") content_type); [discriminate|].
  destruct (pystr_eqb (py "thought_leadership") content_type); [discriminate|].
  reflexivity.
Qed.

(** For such a type and no custom instruction the prompt is the empty text:
    [get_template] answers [""] and nothing raises. *)
Lemma unknown_type_empty_prompt (content_type c t : pystr) :
  dict_get TEMPLATES content_type = None ->
  build_prompt format_complex content_type c t [] = Prompt [].
Proof.
  intros H. unfold build_prompt, get_template, dict_mem.
  rewrite H, (@unknown_type_no_fallback content_type c t [] H). reflexivity.
Qed.

(** [_call_with_retry] hands back what the capability gave. *)
Lemma call_with_retry_outcome (prompt : pystr) (max_retries base_delay : nat)
      (w : World) :
  match _call_with_retry model prompt max_retries base_delay w with
  | (Ret text, _) => exists i, model i prompt = Ret text
  | (Raise e, _) => exists i, model i prompt = Raise e
  end.
Proof.
  unfold _call_with_retry.
  pose proof (@retry_loop_from_model model prompt max_retries base_delay
                (S max_retries) 0 w ltac:(lia) ltac:(lia)) as H.
  destruct (retry_loop model (S max_retries) prompt max_retries base_delay 0 w)
    as [[text|e] w']; destruct H as [i [Hi _]]; now exists i.
Qed.

(** [create_repurposed_content] always returns: the invalid-type message,
    the answer of the capability to the prompt, or the error marker of the
    type when the call ended in an exception. *)
Lemma create_repurposed_content_returns
      (content_type c t ci : pystr) (w : World) :
  exists v w',
    create_repurposed_content model format_complex content_type c t ci w
    = (Ret v, w')
    /\ match build_prompt format_complex content_type c t ci with
       | InvalidType message => v = message
       | Prompt prompt =>
           (exists i, model i prompt = Ret v)
           \/ (v = error_generating content_type
               /\ exists i e, model i prompt = Raise e)
       end.
Proof.
  unfold create_repurposed_content.
  destruct (build_prompt format_complex content_type c t ci) as [prompt|message].
  - unfold try_except.
    pose proof (call_with_retry_outcome prompt default_max_retries
                  default_base_delay w) as H.
    destruct (_call_with_retry model prompt default_max_retries
                default_base_delay w) as [[text|e] w'].
    + exists text, w'. split; [reflexivity|]. now left.
    + exists (error_generating content_type), w'. split; [reflexivity|].
      right. split; [reflexivity|]. destruct H as [i Hi]. now exists i, e.
  - exists message, w. split; reflexivity.
Qed.

(** [chunk_summarize] always returns: the answer of the capability, or the
    chunk itself when the call ended in an exception. *)
Lemma chunk_summarize_returns (chunk title : pystr) (w : World) :
  exists s w',
    chunk_summarize model format_complex chunk title w = (Ret s, w')
    /\ ((exists i p, model i p = Ret s)
        \/ (s = chunk /\ exists i p e, model i p = Raise e)).
Proof.
  unfold chunk_summarize.
  set (prompt := match str_format _ _ _ with
                 | Formatted p => p
                 | FormatRaises => _
                 end).
  unfold try_except.
  pose proof (call_with_retry_outcome prompt default_max_retries
                default_base_delay w) as H.
  destruct (_call_with_retry model prompt default_max_retries
              default_base_delay w) as [[text|e] w'].
  - exists text, w'. split; [reflexivity|]. left.
    destruct H as [i Hi]. now exists i, prompt.
  - exists chunk, w'. split; [reflexivity|]. right. split; [reflexivity|].
    destruct H as [i Hi]. now exists i, prompt, e.
Qed.

End Handler.

End HandlerFacts.

Module HandlerClaims.
Import Prompts GeminiHandler Scenarios Vocabulary PromptFacts HandlerFacts.

(** C4.  The content type [blog] is not a key of [TEMPLATES], yet with no
    custom instruction [create_repurposed_content] does not return the
    invalid-type message: [get_template] answers the empty text without
    raising, so the empty prompt is sent to the generation capability and
    its answer is returned. *)
Theorem unknown_type_is_generated
  (format_complex : pystr -> dict pystr -> FormatResult) :
  dict_get TEMPLATES (py "blog") = None
  /\ build_prompt format_complex (py "blog") (py "C") (py "T") [] = Prompt []
  /\ create_repurposed_content (always_answers (py "a post")) format_complex
       (py "blog") (py "C") (py "T") [] fresh
     = (Ret (py "a post"), mkWorld [] [[]])
  /\ py "a post" <> invalid_content_type (py "blog").
Proof.
  repeat split; try (vm_compute; reflexivity). discriminate.
Qed.

(** C9.  With the custom instruction [{title}] the LinkedIn prompt does not
    contain the instruction text: the instruction is spliced into the
    template before [format] runs, so its braces are read as a replacement
    field and the title [T] stands in its place before the
    [ARTICLE CONTENT:] block. *)
Theorem instruction_with_field_is_rewritten
  (format_complex : pystr -> dict pystr -> FormatResult) :
  exists prompt,
    build_prompt format_complex (py "linkedin") (py "C") (py "T")
                 (py "{title}") = Prompt prompt
    /\ contains (py "{title}") prompt = false
    /\ contains (important_prefix ++ py "T" ++ [NL; NL] ++ ARTICLE_CONTENT)
                prompt = true.
Proof.
  eexists. split; [vm_compute; reflexivity|].
  split; vm_compute; reflexivity.
Qed.

End HandlerClaims.

(* ====================================================================== *)
(** * Properties of [ContentFetcher] *)
(* ====================================================================== *)

Module FetcherFacts.
Import ContentFetcher Scenarios Vocabulary.

Local Open Scope monad_scope.

Section Fetcher.

Variable web : Web.

(** An attempt returns unless the headers or the request raise something
    that is not a [RequestException]; it sends no prompt. *)
Lemma regular_attempt_cases (url : pystr) (attempt : nat) (w : World) :
  (exists r w', regular_attempt web url attempt w = (Ret r, w')
                /\ sent w' = sent w)
  \/ (exists e w', regular_attempt web url attempt w = (Raise e, w')
                   /\ sent w' = sent w
                   /\ is_request_exception e = false
                   /\ (get_random_headers web url attempt = Raise e
                       \/ exists h, requests_get web attempt url h = Raise e)).
Proof.
  unfold regular_attempt, try_except_request, bind, lift, ret, sleep.
  destruct (0 <? attempt); simpl;
    (destruct (get_random_headers web url attempt) as [h|e] eqn:Eh; simpl;
     [ destruct (requests_get web attempt url h) as [resp|e] eqn:Er; simpl;
       [ destruct (status_code resp =? 200)%Z; simpl; left;
         do 2 eexists; split; reflexivity
       | destruct (is_request_exception e) eqn:Ee;
         [ left; do 2 eexists; split; reflexivity
         | right; exists e; eexists; repeat split; eauto ] ]
     | destruct (is_request_exception e) eqn:Ee;
       [ left; do 2 eexists; split; reflexivity
       | right; exists e; eexists; repeat split; eauto ] ]).
Qed.

Lemma regular_attempts_return (url : pystr) (remaining attempt : nat)
      (w : World) :
  only_request_exceptions web url ->
  exists r w', regular_attempts web remaining attempt url w = (Ret r, w')
               /\ sent w' = sent w.
Proof.
  intros [Hh Hr]. revert attempt w.
  induction remaining as [|remaining IH]; intros attempt w.
  - exists None, w. split; reflexivity.
  - simpl. unfold bind.
    destruct (regular_attempt_cases url attempt w)
      as [(r & w1 & E & Hs)|(e & w1 & E & _ & He & [Hc|[h Hc]])].
    + rewrite E. destruct r as [text|].
      * exists (Some text), w1. split; [reflexivity|exact Hs].
      * destruct (IH (S attempt) w1) as (r & w2 & E2 & Hs2).
        exists r, w2. split; [exact E2|congruence].
    + apply Hh in Hc. congruence.
    + apply Hr in Hc. congruence.
Qed.

(** As long as building the headers and sending the request raise nothing
    but [RequestException]s, [fetch_content] returns a result, and it sends
    no prompt to the generation capability. *)
Lemma fetch_content_returns (url : pystr) (w : World) :
  only_request_exceptions web url ->
  exists r w', fetch_content web url w = (Ret r, w') /\ sent w' = sent w.
Proof.
  intros H. unfold fetch_content.
  destruct (direct_extraction web url) as [result|].
  - exists result, w. split; reflexivity.
  - unfold bind, fetch_with_regular_requests.
    destruct (regular_attempts_return url 3 0 w H) as (r & w1 & E & Hs).
    rewrite E.
    destruct (extract_fetched web r url) as [result|].
    + exists result, w1. split; [reflexivity|exact Hs].
    + destruct (extract_fetched web (fetch_with_cloudscraper web url) url)
        as [result|].
      * exists result, w1. split; [reflexivity|exact Hs].
      * exists empty_result, w1. split; [reflexivity|exact Hs].
Qed.

Lemma regular_attempts_sent (url : pystr) (remaining attempt : nat)
      (w : World) :
  sent (snd (regular_attempts web remaining attempt url w)) = sent w.
Proof.
  revert attempt w. induction remaining as [|remaining IH]; intros attempt w.
  - reflexivity.
  - simpl. unfold bind.
    destruct (regular_attempt_cases url attempt w)
      as [(r & w1 & E & Hs)|(e & w1 & E & Hs & _)].
    + rewrite E. destruct r as [text|]; simpl; [exact Hs|].
      rewrite IH. exact Hs.
    + rewrite E. exact Hs.
Qed.

(** Fetching never calls the generation capability. *)
Lemma fetch_content_sent (url : pystr) (w : World) :
  sent (snd (fetch_content web url w)) = sent w.
Proof.
  unfold fetch_content.
  destruct (direct_extraction web url) as [result|]; [reflexivity|].
  unfold bind, fetch_with_regular_requests.
  pose proof (regular_attempts_sent url 3 0 w) as Hs.
  destruct (regular_attempts web 3 0 url w) as [[r|e] w1]; simpl in Hs.
  - destruct (extract_fetched web r url); [exact Hs|].
    destruct (extract_fetched web (fetch_with_cloudscraper web url) url);
      exact Hs.
  - exact Hs.
Qed.

End Fetcher.

End FetcherFacts.

Module FetcherClaims.
Import ContentFetcher Scenarios FetcherFacts.

(** C5.  On the URL made of [http://] and an opening bracket, with nothing
    downloaded by the direct strategy, [fetch_content] raises: in the second
    strategy [get_random_headers] parses the URL for the referer, [urlparse]
    raises [ValueError], and [fetch_with_regular_requests] catches
    [RequestException] only, unlike the first and third strategies which
    catch every exception.  The error of the second strategy reaches the
    caller, with no result returned. *)
Theorem fetch_content_lets_value_error_through :
  get_random_headers offline_strict_urls (py "http://[") 0
  = Raise invalid_ipv6_url
  /\ is_request_exception invalid_ipv6_url = false
  /\ fetch_content offline_strict_urls (py "http://[") fresh
     = (Raise invalid_ipv6_url, fresh).
Proof. repeat split; vm_compute; reflexivity. Qed.

End FetcherClaims.

(* ====================================================================== *)
(** * Properties of dictionaries and of [join] *)
(* ====================================================================== *)

Section DictFacts.

Variable V : Type.

Lemma pystr_eqb_sym (a b : pystr) : pystr_eqb a b = pystr_eqb b a.
Proof.
  destruct (pystr_eqb a b) eqn:E1, (pystr_eqb b a) eqn:E2; try reflexivity.
  - apply pystr_eqb_eq in E1. subst. rewrite pystr_eqb_refl in E2. discriminate.
  - apply pystr_eqb_eq in E2. subst. rewrite pystr_eqb_refl in E1. discriminate.
Qed.

Lemma pystr_eqb_neq (a b : pystr) : a <> b -> pystr_eqb a b = false.
Proof.
  intros H. destruct (pystr_eqb a b) eqn:E; [|reflexivity].
  apply pystr_eqb_eq in E. contradiction.
Qed.

Lemma dict_get_set_same (d : dict V) (k : pystr) (v : V) :
  dict_get (dict_set d k v) k = Some v.
Proof.
  induction d as [|[k' v'] d IH]; simpl.
  - now rewrite pystr_eqb_refl.
  - destruct (pystr_eqb k' k) eqn:E; simpl; rewrite E; [reflexivity|exact IH].
Qed.

Lemma dict_get_set_other (d : dict V) (k k0 : pystr) (v : V) :
  k0 <> k -> dict_get (dict_set d k v) k0 = dict_get d k0.
Proof.
  intros Hne. induction d as [|[k' v'] d IH]; simpl.
  - now rewrite (pystr_eqb_neq k k0) by congruence.
  - destruct (pystr_eqb k' k) eqn:E; simpl.
    + apply pystr_eqb_eq in E. subst k'.
      now rewrite (pystr_eqb_neq k k0) by congruence.
    + destruct (pystr_eqb k' k0); [reflexivity|exact IH].
Qed.

Lemma dict_keys_set (d : dict V) (k : pystr) (v : V) :
  dict_keys (dict_set d k v) =
  if existsb (pystr_eqb k) (dict_keys d) then dict_keys d
  else dict_keys d ++ [k].
Proof.
  unfold dict_keys. induction d as [|[k' v'] d IH]; simpl; [reflexivity|].
  rewrite (pystr_eqb_sym k k').
  destruct (pystr_eqb k' k) eqn:E; simpl; [reflexivity|].
  rewrite IH.
  now destruct (existsb (pystr_eqb k) (map fst d)).
Qed.

End DictFacts.

Lemma existsb_pystr_false (k : pystr) (l : list pystr) :
  ~ In k l -> existsb (pystr_eqb k) l = false.
Proof.
  induction l as [|a l IH]; simpl; intros H; [reflexivity|].
  rewrite pystr_eqb_neq by (intros ->; apply H; now left).
  apply IH. intros Hin. apply H. now right.
Qed.

(** A list without repetition is its own list of first occurrences. *)
Lemma first_occurrences_from_NoDup (l seen : list pystr) :
  NoDup l -> (forall k, In k l -> ~ In k seen) ->
  first_occurrences_from seen l = l.
Proof.
  revert seen. induction l as [|k l IH]; intros seen Hnd Hseen; simpl.
  - reflexivity.
  - inversion Hnd as [|? ? Hk Hl]; subst.
    rewrite existsb_pystr_false by (apply Hseen; now left).
    f_equal. apply IH; [exact Hl|].
    intros k' Hk' Hin. apply in_app_or in Hin. destruct Hin as [Hin|[<-|[]]].
    + apply (Hseen k'); [now right|exact Hin].
    + contradiction.
Qed.

Lemma first_occurrences_NoDup (l : list pystr) :
  NoDup l -> first_occurrences l = l.
Proof. intros H. apply first_occurrences_from_NoDup; [exact H|]. intros k _ []. Qed.

Lemma join_two_or_more (sep : pystr) (parts : list pystr) :
  sep <> [] -> 2 <= length parts -> join sep parts <> [].
Proof.
  intros Hsep Hlen.
  destruct parts as [|a [|b rest]]; simpl in Hlen; try lia.
  change (join sep (a :: b :: rest)) with (a ++ sep ++ join sep (b :: rest)).
  intros H. apply app_eq_nil in H. destruct H as [_ H].
  apply app_eq_nil in H. destruct H as [H _]. contradiction.
Qed.

Lemma join_head_nonempty (sep a : pystr) (rest : list pystr) :
  a <> [] -> join sep (a :: rest) <> [].
Proof.
  intros Ha H. destruct rest as [|b rest]; simpl in H; [contradiction|].
  apply app_eq_nil in H. destruct H as [H _]. contradiction.
Qed.

(* ====================================================================== *)
(** * Properties of [ContentRepurposer] *)
(* ====================================================================== *)

Module RepurposerFacts.
Import TextProcessor GeminiHandler ContentFetcher ContentRepurposer.
Import Scenarios Vocabulary HandlerFacts FetcherFacts.

Local Open Scope monad_scope.

Lemma bind_ret {A B} (c : M A) (k : A -> M B) (w w1 : World) (a : A) :
  c w = (Ret a, w1) -> bind c k w = k a w1.
Proof. unfold bind. now intros ->. Qed.

Section Repurposer.

Variable web : Web.
Variable model : Model.
Variable format_complex : pystr -> dict pystr -> FormatResult.

Lemma summarize_loop_spec (rest : list pystr) :
  forall (n i : nat) (title : pystr) (delay : nat) (acc : list pystr)
         (w : World),
  exists results w',
    summarize_loop model format_complex n i rest title delay acc w
    = (Ret (acc ++ results), w')
    /\ Forall2 (summary_of model) rest results.
Proof.
  induction rest as [|chunk rest IH]; intros n i title delay acc w.
  - exists [], w. simpl. rewrite app_nil_r. split; [reflexivity|constructor].
  - simpl.
    destruct (chunk_summarize_returns model format_complex chunk title w)
      as (s & w1 & E & Hs).
    rewrite (bind_ret _ _ _ _ _ E).
    assert (Hsleep : exists w2,
      (if i <? n - 1 then sleep (Fixed delay) else ret tt) w1 = (Ret tt, w2)).
    { destruct (i <? n - 1); eexists; reflexivity. }
    destruct Hsleep as [w2 E2]. rewrite (bind_ret _ _ _ _ _ E2).
    destruct (IH n (S i) title delay (acc ++ [s]) w2) as (results & w' & E3 & HF).
    exists (s :: results), w'. split.
    + rewrite E3. rewrite <- app_assoc. reflexivity.
    + constructor; assumption.
Qed.

Lemma condense_spec (chunks : list pystr) (title : pystr) (delay : nat)
      (w : World) :
  exists results w',
    condense model format_complex chunks title delay w
    = (Ret (join [NL; NL] results), w')
    /\ Forall2 (summary_of model) chunks results.
Proof.
  unfold condense.
  destruct (summarize_loop_spec chunks (length chunks) 0 title delay [] w)
    as (results & w' & E & HF).
  exists results, w'. split; [|exact HF].
  rewrite (bind_ret _ _ _ _ _ E). reflexivity.
Qed.

(** When every call raises, every chunk stands for itself. *)
Lemma summaries_when_all_fail (chunks results : list pystr) :
  (forall i p, exists e, model i p = Raise e) ->
  Forall2 (summary_of model) chunks results -> results = chunks.
Proof.
  intros Hfail HF. induction HF as [|c r cs rs [(i & p & Hr)|[-> _]] _ IH].
  - reflexivity.
  - destruct (Hfail i p) as [e He]. congruence.
  - now rewrite IH.
Qed.

Lemma summaries_nonempty (chunks results : list pystr) :
  Forall (fun c => c <> []) chunks ->
  (forall i p, model i p <> Ret []) ->
  Forall2 (summary_of model) chunks results ->
  Forall (fun r => r <> []) results.
Proof.
  intros Hc Hm HF. induction HF as [|c r cs rs Hs _ IH].
  - constructor.
  - inversion Hc as [|? ? Hc1 Hc2]; subst. constructor; [|now apply IH].
    destruct Hs as [(i & p & Hr)|[-> _]]; [|exact Hc1].
    intros ->. exact (Hm i p Hr).
Qed.

Lemma generate_loop_spec (condensed title : pystr) (delay : nat)
      (custom : dict pystr) (rest : list pystr) :
  forall (n i : nat) (results : dict pystr) (w : World),
  exists results' w',
    generate_loop model format_complex n i rest condensed title delay custom
                  results w
    = (Ret results', w')
    /\ dict_keys results'
       = dict_keys results ++ first_occurrences_from (dict_keys results) rest
    /\ (forall ct, In ct rest ->
        exists v, dict_get results' ct = Some v
                  /\ artifact_of model format_complex condensed title custom ct v)
    /\ (forall ct, ~ In ct rest -> dict_get results' ct = dict_get results ct).
Proof.
  induction rest as [|ct rest IH]; intros n i results w.
  - exists results, w. simpl. rewrite app_nil_r.
    split; [reflexivity|]. split; [reflexivity|].
    split; [intros ? []|reflexivity].
  - cbn [generate_loop].
    destruct (create_repurposed_content_returns model format_complex ct
                condensed title (custom_for custom ct) w)
      as (v & w1 & E & Hv).
    fold (custom_for custom ct). rewrite (bind_ret _ _ _ _ _ E).
    assert (Hsleep : exists w2,
      (if i <? n - 1 then sleep (Fixed delay) else ret tt) w1 = (Ret tt, w2)).
    { destruct (i <? n - 1); eexists; reflexivity. }
    destruct Hsleep as [w2 E2]. rewrite (bind_ret _ _ _ _ _ E2).
    destruct (IH n (S i) (dict_set results ct v) w2)
      as (results' & w' & E3 & Hkeys & Hin & Hout).
    exists results', w'. split; [exact E3|]. split; [|split].
    + rewrite Hkeys, dict_keys_set. simpl.
      destruct (existsb (pystr_eqb ct) (dict_keys results)); [reflexivity|].
      now rewrite <- app_assoc.
    + intros ct' Hct'.
      destruct (in_dec (list_eq_dec N.eq_dec) ct' rest) as [Hr|Hr].
      * exact (Hin ct' Hr).
      * destruct Hct' as [<-|Hct']; [|contradiction].
        exists v. split; [|exact Hv].
        rewrite (Hout ct Hr). apply dict_get_set_same.
    + intros ct' Hct'. rewrite Hout.
      * apply dict_get_set_other. intros ->. apply Hct'. now left.
      * intros H. apply Hct'. now right.
Qed.

End Repurposer.

End RepurposerFacts.

Module RepurposerClaims.
Import TextProcessor GeminiHandler ContentFetcher ContentRepurposer.
Import Scenarios Vocabulary HandlerFacts FetcherFacts RepurposerFacts.

(** C6.  When [fetch_content] returns a result whose content is empty,
    [repurpose] returns the mapping whose only entry is the key [error],
    without raising, and leaves the world as the fetch left it: no prompt was
    sent to the generation capability, for summarising or for generating,
    and no further sleep took place. *)
Theorem repurpose_reports_fetch_failure
  (web : Web) (model : Model)
  (format_complex : pystr -> dict pystr -> FormatResult)
  (url : pystr) (content_types : list pystr) (delay_between_calls : nat)
  (custom_instructions : option (dict pystr))
  (w w1 : World) (content_data : FetchResult) :
  fetch_content web url w = (Ret content_data, w1) ->
  content content_data = [] ->
  repurpose web model format_complex url content_types delay_between_calls
            custom_instructions w
  = (Ret fetch_failure, w1)
  /\ dict_keys fetch_failure = [py "error"]
  /\ sent w1 = sent w.
Proof.
  intros Hfetch Hempty. split; [|split].
  - unfold repurpose. rewrite (bind_ret _ _ _ _ _ Hfetch).
    rewrite Hempty. reflexivity.
  - reflexivity.
  - pose proof (fetch_content_sent web url w) as H.
    rewrite Hfetch in H. exact H.
Qed.

(** With every strategy failing, [linkedin] and [twitter] requested. *)
Lemma repurpose_reports_fetch_failure_witness :
  repurpose offline (always_answers (py "unused")) no_complex_fields
            (py "https://example.com/a") [py "linkedin"; py "twitter"] 2 None
            fresh
  = (Ret fetch_failure, mkWorld [Jittered 2 3; Jittered 2 3] []).
Proof.
  apply (repurpose_reports_fetch_failure offline
           (always_answers (py "unused")) no_complex_fields
           (py "https://example.com/a") [py "linkedin"; py "twitter"] 2 None
           fresh (mkWorld [Jittered 2 3; Jittered 2 3] []) empty_result).
  - vm_compute. reflexivity.
  - reflexivity.
Defined.

(** The scenario of the specification: the quota is exhausted for the
    LinkedIn prompt only, and both keys come back, one with the error marker
    and one with the generated text. *)
Example linkedin_fails_twitter_succeeds :
  fst (repurpose_from_text no_linkedin_quota no_complex_fields
         (py "Tea") (py "An article about tea.")
         [py "linkedin"; py "twitter"] 2 None fresh)
  = Ret [ (py "linkedin", error_generating (py "linkedin"));
          (py "twitter", py "generated text") ].
Proof. vm_compute. reflexivity. Qed.

(** C8, as amended.  For every non-empty list of non-empty chunks the
    summarising steps return a document: the per-chunk results joined in
    chunk order with a blank line, where each result is an answer of the
    capability or, when the call for the chunk ended in an exception, the
    chunk itself.  When every call fails the results are the chunks.  The
    document is non-empty whenever there are two chunks or more, or the
    capability never answers with the empty text. *)
Theorem condense_keeps_failed_chunks
  (model : Model) (format_complex : pystr -> dict pystr -> FormatResult)
  (chunks : list pystr) (title : pystr) (delay_between_calls : nat)
  (w : World) :
  chunks <> [] ->
  Forall (fun chunk => chunk <> []) chunks ->
  exists results w',
    condense model format_complex chunks title delay_between_calls w
    = (Ret (join [NL; NL] results), w')
    /\ Forall2 (summary_of model) chunks results
    /\ ((forall i p, exists e, model i p = Raise e) ->
        results = chunks /\ join [NL; NL] results <> [])
    /\ (2 <= length chunks \/ (forall i p, model i p <> Ret []) ->
        join [NL; NL] results <> []).
Proof.
  intros Hne Hall.
  destruct (condense_spec model format_complex chunks title
              delay_between_calls w) as (results & w' & E & HF).
  exists results, w'. split; [exact E|]. split; [exact HF|].
  assert (Hnonempty : (forall i p, model i p <> Ret []) ->
                      join [NL; NL] results <> []).
  { intros Hm.
    pose proof (summaries_nonempty model chunks results Hall Hm HF) as Hr.
    destruct HF as [|c r cs rs _ _]; [congruence|].
    inversion Hr; subst. now apply join_head_nonempty. }
  split.
  - intros Hfail. split.
    + exact (summaries_when_all_fail model chunks results Hfail HF).
    + apply Hnonempty. intros i p H.
      destruct (Hfail i p) as [e He]. congruence.
  - intros [Hlen|Hm]; [|exact (Hnonempty Hm)].
    apply join_two_or_more; [discriminate|].
    rewrite <- (Forall2_length HF). exact Hlen.
Qed.

(** Two chunks and an invalid key: the document is the two chunks. *)
Lemma condense_keeps_failed_chunks_witness :
  exists results w',
    condense (always_raises invalid_api_key) no_complex_fields
             [py "first chunk"; py "second chunk"] (py "Tea") 2 fresh
    = (Ret (join [NL; NL] results), w')
    /\ results = [py "first chunk"; py "second chunk"].
Proof.
  destruct (condense_keeps_failed_chunks (always_raises invalid_api_key)
              no_complex_fields [py "first chunk"; py "second chunk"]
              (py "Tea") 2 fresh)
    as (results & w' & E & _ & Hfail & _).
  - discriminate.
  - repeat constructor; discriminate.
  - exists results, w'. split; [exact E|].
    apply Hfail. intros i p. exists invalid_api_key. reflexivity.
Defined.

(** C8, as stated, fails: with one non-empty chunk and a capability that
    answers the empty text, the condensed document is empty. *)
Lemma condense_can_be_empty :
  [py "a chunk"] <> []
  /\ Forall (fun chunk => chunk <> []) [py "a chunk"]
  /\ fst (condense (always_answers []) no_complex_fields [py "a chunk"]
                   (py "Tea") 2 fresh)
     = Ret [].
Proof.
  split; [discriminate|]. split; [repeat constructor; discriminate|].
  vm_compute. reflexivity.
Qed.

End RepurposerClaims.

(* ====================================================================== *)
(** * Further properties of [TextProcessor.clean_text] *)
(* ====================================================================== *)

Module CleaningFacts.
Import TextProcessor TextProcessorFacts ExtraVocabulary.

Lemma dropwhile_snoc (p : N -> bool) (l : pystr) (c : N) :
  dropwhile p (l ++ [c]) =
  if forallb p l then (if p c then [] else [c]) else dropwhile p l ++ [c].
Proof.
  induction l as [|a l IH]; simpl; [reflexivity|].
  destruct (p a); simpl; [exact IH|reflexivity].
Qed.

Lemma forallb_rev (p : N -> bool) (l : pystr) :
  forallb p (rev l) = forallb p l.
Proof.
  induction l as [|a l IH]; simpl; [reflexivity|].
  rewrite forallb_app, IH. simpl. rewrite andb_true_r. apply andb_comm.
Qed.

(** [rstrip], read from the left. *)
Lemma rstrip_cons (c : N) (t : pystr) :
  rstrip (c :: t) =
  if forallb isspace t then (if isspace c then [] else [c])
  else c :: rstrip t.
Proof.
  unfold rstrip. simpl. rewrite dropwhile_snoc, forallb_rev.
  destruct (forallb isspace t).
  - now destruct (isspace c).
  - rewrite rev_app_distr. reflexivity.
Qed.

Lemma rstrip_all_space (t : pystr) : forallb isspace t = true -> rstrip t = [].
Proof.
  induction t as [|c t IH]; intros H; [reflexivity|].
  simpl in H. apply andb_true_iff in H. destruct H as [Hc Ht].
  rewrite rstrip_cons, Ht, Hc. reflexivity.
Qed.

(** When something other than whitespace is left, [rstrip] keeps the head. *)
Lemma rstrip_keeps_head (t : pystr) :
  forallb isspace t = false ->
  match t, rstrip t with
  | c :: _, d :: _ => c = d
  | _, _ => False
  end.
Proof.
  destruct t as [|c t]; intros H; [discriminate|].
  rewrite rstrip_cons. destruct (forallb isspace t) eqn:Et.
  - simpl in H. rewrite Et, andb_true_r in H. now rewrite H.
  - reflexivity.
Qed.

Lemma sub_ws_go_single_spaced (t : pystr) :
  forall in_run,
    single_spaced (sub_ws_go in_run t) = true
    /\ (in_run = true -> head_not_space (sub_ws_go in_run t) = true).
Proof.
  induction t as [|c t IH]; intros in_run; simpl; [now split|].
  destruct (isspace c) eqn:Ec.
  - destruct in_run.
    + apply IH.
    + destruct (IH true) as [Hs Hh]. split; [|discriminate].
      simpl. rewrite (Hh eq_refl), Hs. reflexivity.
  - destruct (IH false) as [Hs _]. simpl. rewrite Ec, Hs. now split.
Qed.

Lemma single_spaced_dropwhile (s : pystr) :
  single_spaced s = true -> single_spaced (dropwhile isspace s) = true.
Proof.
  induction s as [|c s IH]; intros H; [reflexivity|].
  simpl. destruct (isspace c) eqn:Ec; [|exact H].
  apply IH. simpl in H. apply andb_true_iff in H. tauto.
Qed.

Lemma single_spaced_all_space (t : pystr) :
  single_spaced t = true -> forallb isspace t = true ->
  t = [] \/ t = [SP].
Proof.
  destruct t as [|c t]; intros Hs Ha; [now left|right].
  simpl in Hs, Ha. apply andb_true_iff in Ha. destruct Ha as [Hc Ht].
  rewrite Hc in Hs. apply andb_true_iff in Hs. destruct Hs as [Hs _].
  apply andb_true_iff in Hs. destruct Hs as [Hsp Hh].
  apply N.eqb_eq in Hsp. subst c.
  destruct t as [|d t]; [reflexivity|].
  simpl in Hh, Ht. apply andb_true_iff in Ht. destruct Ht as [Hd _].
  rewrite Hd in Hh. discriminate.
Qed.

(** After [rstrip], a space that closed the text is gone. *)
Lemma rstrip_spaces_inside (t : pystr) :
  single_spaced t = true -> spaces_inside (rstrip t) = true.
Proof.
  induction t as [|c t IH]; intros Hs; [reflexivity|].
  pose proof Hs as Hs0.
  simpl in Hs. apply andb_true_iff in Hs. destruct Hs as [Hc Ht].
  rewrite rstrip_cons. destruct (forallb isspace t) eqn:Ea.
  - destruct (isspace c) eqn:Ec; simpl; [reflexivity|].
    rewrite Ec. reflexivity.
  - simpl. rewrite (IH Ht), andb_true_r.
    destruct (isspace c) eqn:Ec; [|reflexivity].
    apply andb_true_iff in Hc. destruct Hc as [Hsp Hh].
    rewrite Hsp. simpl.
    pose proof (rstrip_keeps_head t Ea) as Hk.
    destruct t as [|d t]; [contradiction|].
    destruct (rstrip (d :: t)) as [|d' r]; [contradiction|].
    subst d'. exact Hh.
Qed.

Lemma clean_text_unfold (text : pystr) :
  clean_text text = strip (re_sub_whitespace_runs text).
Proof.
  unfold clean_text, re_sub_blank_lines.
  now rewrite sub_blank_go_no_NL by apply re_sub_whitespace_runs_no_NL.
Qed.

Lemma clean_text_is_normalized (text : pystr) :
  normalized (clean_text text) = true.
Proof.
  rewrite clean_text_unfold. unfold normalized, strip, lstrip.
  apply andb_true_iff. split.
  - pose proof (rstrip_head (dropwhile isspace (re_sub_whitespace_runs text))
                  (dropwhile_head isspace _)) as H.
    destruct (rstrip _) as [|c r]; [reflexivity|]. simpl. now rewrite H.
  - apply rstrip_spaces_inside, single_spaced_dropwhile.
    apply (sub_ws_go_single_spaced text false).
Qed.

Lemma spaces_inside_single_spaced (s : pystr) :
  spaces_inside s = true -> single_spaced s = true.
Proof.
  induction s as [|c s IH]; intros H; [reflexivity|].
  simpl in H. apply andb_true_iff in H. destruct H as [Hc Hs].
  simpl. rewrite (IH Hs), andb_true_r.
  destruct (isspace c); [|reflexivity].
  apply andb_true_iff in Hc. destruct Hc as [Hsp Hn]. rewrite Hsp.
  destruct s as [|d s]; [discriminate|exact Hn].
Qed.

Lemma sub_ws_go_after_run (s : pystr) :
  head_not_space s = true -> sub_ws_go true s = sub_ws_go false s.
Proof.
  destruct s as [|c s]; intros H; [reflexivity|].
  simpl in H. apply negb_true_iff in H. simpl. now rewrite H.
Qed.

Lemma sub_ws_go_fixed (s : pystr) :
  single_spaced s = true -> sub_ws_go false s = s.
Proof.
  induction s as [|c s IH]; intros H; [reflexivity|].
  simpl in H. apply andb_true_iff in H. destruct H as [Hc Hs].
  simpl. destruct (isspace c).
  - apply andb_true_iff in Hc. destruct Hc as [Hsp Hh].
    apply N.eqb_eq in Hsp. subst c.
    rewrite (sub_ws_go_after_run s Hh), (IH Hs). reflexivity.
  - now rewrite (IH Hs).
Qed.

Lemma spaces_inside_not_all_space (s : pystr) :
  spaces_inside s = true -> forallb isspace s = true -> s = [].
Proof.
  induction s as [|c s IH]; intros Hs Ha; [reflexivity|].
  simpl in Hs, Ha. apply andb_true_iff in Ha. destruct Ha as [Hc Ht].
  apply andb_true_iff in Hs. destruct Hs as [Hn Hs].
  rewrite Hc in Hn. apply andb_true_iff in Hn. destruct Hn as [_ Hn].
  rewrite (IH Hs Ht) in Hn. discriminate.
Qed.

Lemma rstrip_fixed (s : pystr) : spaces_inside s = true -> rstrip s = s.
Proof.
  induction s as [|c s IH]; intros H; [reflexivity|].
  pose proof H as H0.
  simpl in H. apply andb_true_iff in H. destruct H as [Hc Hs].
  rewrite rstrip_cons. destruct (forallb isspace s) eqn:Ea.
  - pose proof (spaces_inside_not_all_space s Hs Ea) as ->.
    destruct (isspace c); [|reflexivity].
    apply andb_true_iff in Hc. destruct Hc as [_ Hc]. discriminate.
  - now rewrite (IH Hs).
Qed.

Lemma normalized_fixed (s : pystr) : normalized s = true -> clean_text s = s.
Proof.
  intros H. unfold normalized in H. apply andb_true_iff in H.
  destruct H as [Hh Hs].
  rewrite clean_text_unfold. unfold re_sub_whitespace_runs.
  rewrite (sub_ws_go_fixed s (spaces_inside_single_spaced s Hs)).
  unfold strip, lstrip. rewrite dropwhile_fixed.
  - now apply rstrip_fixed.
  - destruct s as [|c s]; [exact I|]. simpl in Hh.
    now apply negb_true_iff in Hh.
Qed.

Lemma visible_chars_sub_ws_go (in_run : bool) (s : pystr) :
  visible_chars (sub_ws_go in_run s) = visible_chars s.
Proof.
  revert in_run. induction s as [|c s IH]; intros in_run; [reflexivity|].
  simpl. destruct (isspace c) eqn:Ec.
  - destruct in_run; simpl; rewrite ?Ec; simpl; apply IH.
  - simpl. rewrite Ec. simpl. now rewrite IH.
Qed.

Lemma visible_chars_dropwhile (s : pystr) :
  visible_chars (dropwhile isspace s) = visible_chars s.
Proof.
  induction s as [|c s IH]; [reflexivity|].
  simpl. destruct (isspace c) eqn:Ec; simpl; [exact IH|].
  now rewrite Ec.
Qed.

Lemma visible_chars_strip (s : pystr) :
  visible_chars (strip s) = visible_chars s.
Proof.
  unfold strip, rstrip, lstrip, visible_chars.
  rewrite filter_rev. fold (visible_chars (dropwhile isspace (rev (dropwhile isspace s)))).
  rewrite visible_chars_dropwhile. unfold visible_chars.
  rewrite filter_rev, rev_involutive.
  apply visible_chars_dropwhile.
Qed.

Lemma clean_text_visible_chars (text : pystr) :
  visible_chars (clean_text text) = visible_chars text.
Proof.
  rewrite clean_text_unfold, visible_chars_strip.
  apply visible_chars_sub_ws_go.
Qed.

Lemma visible_chars_nil (s : pystr) :
  visible_chars s = [] <-> forallb isspace s = true.
Proof.
  induction s as [|c s IH]; simpl; [tauto|].
  destruct (isspace c); simpl; [exact IH|].
  split; discriminate.
Qed.

(** The cleaned text is empty exactly for blank input. *)
Lemma clean_text_nil_iff (text : pystr) :
  clean_text text = [] <-> forallb isspace text = true.
Proof.
  rewrite <- visible_chars_nil, <- clean_text_visible_chars. split.
  - now intros ->.
  - intros H. pose proof (clean_text_is_normalized text) as Hn.
    destruct (clean_text text) as [|c s]; [reflexivity|].
    unfold normalized in Hn. simpl in Hn, H.
    destruct (isspace c); simpl in *; discriminate.
Qed.

End CleaningFacts.

Module CleaningProperties.
Import TextProcessor TextProcessorFacts ExtraVocabulary CleaningFacts.

(** X1.  Whatever the input, the text [clean_text] returns is normalised:
    it neither starts nor ends with whitespace, and each whitespace character
    in it is a single space standing between two characters that are not
    whitespace. *)
Theorem clean_text_normal_form (text : pystr) :
  normalized (clean_text text) = true
  /\ head_not_space (clean_text text) = true
  /\ head_not_space (rev (clean_text text)) = true
  /\ (forall c, In c (clean_text text) -> isspace c = true -> c = SP).
Proof.
  pose proof (clean_text_is_normalized text) as Hn.
  split; [exact Hn|].
  unfold normalized in Hn. apply andb_true_iff in Hn. destruct Hn as [Hh Hs].
  split; [exact Hh|]. split.
  - pose proof (rstrip_fixed _ Hs) as Hr. unfold rstrip in Hr.
    apply (f_equal (@rev N)) in Hr. rewrite rev_involutive in Hr.
    rewrite <- Hr.
    pose proof (dropwhile_head isspace (rev (clean_text text))) as Hd.
    destruct (dropwhile isspace (rev (clean_text text))); [reflexivity|].
    simpl. now rewrite Hd.
  - clear Hh. induction (clean_text text) as [|a s IH]; intros c [].
    + subst a. intros Hc. simpl in Hs. rewrite Hc in Hs.
      apply andb_true_iff in Hs. destruct Hs as [Hs _].
      apply andb_true_iff in Hs. destruct Hs as [Hs _].
      now apply N.eqb_eq in Hs.
    + simpl in Hs. apply andb_true_iff in Hs. destruct Hs as [_ Hs].
      now apply IH.
Qed.

(** X2.  [clean_text] touches whitespace only: the characters that are not
    whitespace come out as they went in, all of them and in the same
    order. *)
Theorem clean_text_keeps_visible_chars (text : pystr) :
  visible_chars (clean_text text) = visible_chars text.
Proof. apply clean_text_visible_chars. Qed.

(** X3.  The texts [clean_text] leaves unchanged are exactly the normalised
    ones; in particular cleaning twice is cleaning once. *)
Theorem clean_text_fixed_points (text : pystr) :
  (clean_text text = text <-> normalized text = true)
  /\ clean_text (clean_text text) = clean_text text.
Proof.
  split; [split|].
  - intros H. rewrite <- H. apply clean_text_is_normalized.
  - apply normalized_fixed.
  - apply normalized_fixed, clean_text_is_normalized.
Qed.

(** X4.  [chunk_text] returns no chunk exactly when the text is blank (empty
    or made of whitespace only), whatever [max_tokens]; any other text gives
    one non-empty chunk. *)
Theorem chunk_text_empty_iff_blank (text : pystr) (max_tokens : Z) :
  (chunk_text text max_tokens = [] <-> forallb isspace text = true)
  /\ (forall chunk, In chunk (chunk_text text max_tokens) -> chunk <> []).
Proof.
  rewrite chunk_text_shape. split.
  - rewrite <- clean_text_nil_iff.
    destruct (clean_text text) as [|c s]; simpl; split; congruence.
  - destruct (clean_text text) as [|c s]; simpl; [intros ? []|].
    intros chunk [<-|[]]. discriminate.
Qed.

End CleaningProperties.

(* ====================================================================== *)
(** * The accumulation loop of [TextProcessor.chunk_text] *)
(* ====================================================================== *)

Module AccumulateFacts.
Import TextProcessor TextProcessorFacts ExtraVocabulary CleaningFacts.
Import HandlerFacts.

Lemma head_not_space_app (a b : pystr) :
  a <> [] -> head_not_space (a ++ b) = head_not_space a.
Proof. destruct a; [congruence|reflexivity]. Qed.

Lemma strip_fixed_iff (s : pystr) :
  strip s = s <->
  head_not_space s = true /\ head_not_space (rev s) = true.
Proof.
  split.
  - intros H. rewrite <- H. split.
    + pose proof (rstrip_head (lstrip s) (dropwhile_head isspace s)) as Hh.
      unfold strip. destruct (rstrip (lstrip s)); [reflexivity|].
      simpl. now rewrite Hh.
    + unfold strip, rstrip. rewrite rev_involutive.
      pose proof (dropwhile_head isspace (rev (lstrip s))) as Hh.
      destruct (dropwhile isspace (rev (lstrip s))); [reflexivity|].
      simpl. now rewrite Hh.
  - intros [Hh Hl]. unfold strip, lstrip.
    rewrite (dropwhile_fixed isspace s).
    + unfold rstrip. rewrite dropwhile_fixed; [apply rev_involutive|].
      destruct (rev s); [exact I|]. simpl in Hl. now apply negb_true_iff in Hl.
    + destruct s; [exact I|]. simpl in Hh. now apply negb_true_iff in Hh.
Qed.

Lemma join_snoc (sep : pystr) (g : list pystr) (p : pystr) :
  g <> [] -> join sep (g ++ [p]) = join sep g ++ sep ++ p.
Proof.
  induction g as [|a g IH]; intros H; [congruence|].
  destruct g as [|b g].
  - reflexivity.
  - change (join sep ((a :: b :: g) ++ [p]))
      with (a ++ sep ++ join sep ((b :: g) ++ [p])).
    rewrite IH by discriminate.
    change (join sep (a :: b :: g)) with (a ++ sep ++ join sep (b :: g)).
    now rewrite <- !app_assoc.
Qed.

Lemma join_cons (sep a : pystr) (g : list pystr) :
  g <> [] -> join sep (a :: g) = a ++ sep ++ join sep g.
Proof. destruct g; [congruence|reflexivity]. Qed.

Lemma total_chars_snoc (g : list pystr) (p : pystr) :
  total_chars (g ++ [p]) = (total_chars g + paragraph_tokens p)%Z.
Proof. induction g as [|a g IH]; simpl; [lia|]. rewrite IH. lia. Qed.

(** A group of tidy paragraphs joins to a text with no whitespace at either
    end, and to a non-empty one. *)
Lemma join_tidy (g : list pystr) :
  g <> [] -> Forall tidy g ->
  join [NL; NL] g <> [] /\ strip (join [NL; NL] g) = join [NL; NL] g.
Proof.
  intros Hne Hg. split.
  - destruct g as [|a g]; [congruence|].
    inversion Hg as [|? ? [Ha _] _]; subst.
    destruct g; simpl; [exact Ha|].
    intros H. apply app_eq_nil in H. tauto.
  - apply strip_fixed_iff. split.
    + destruct g as [|a g]; [congruence|].
      inversion Hg as [|? ? [Ha Hs] _]; subst.
      apply strip_fixed_iff in Hs. destruct g as [|b g]; [tauto|].
      rewrite join_cons by discriminate.
      rewrite head_not_space_app by exact Ha. tauto.
    + destruct (exists_last Hne) as (g' & q & ->).
      apply Forall_app in Hg. destruct Hg as [_ Hq].
      inversion Hq as [|? ? [Hq1 Hq2] _]; subst.
      apply strip_fixed_iff in Hq2.
      assert (Hrq : rev q <> []).
      { intros H. apply (f_equal (@rev N)) in H.
        rewrite rev_involutive in H. contradiction. }
      destruct g' as [|a g'].
      * simpl. tauto.
      * rewrite join_snoc by discriminate.
        rewrite !rev_app_distr, <- !app_assoc.
        rewrite head_not_space_app by exact Hrq. tauto.
Qed.

(** The loop, started with the group [cur] open, closes the groups
    [groups_from] lists. *)
Lemma fold_chunk_step_groups (max_tokens : Z) (ps : list pystr) :
  forall (done : list pystr) (cur : list pystr),
    Forall tidy cur -> Forall tidy ps ->
    finalize (fold_left (chunk_step max_tokens) ps
                (ChunkState done (join [NL; NL] cur) (total_chars cur)))
    = done ++ map (join [NL; NL]) (groups_from max_tokens cur ps).
Proof.
  induction ps as [|p rest IH]; intros done cur Hcur Hps.
  - unfold finalize. cbn [fold_left groups_from current_chunk chunks].
    destruct cur as [|a cur]; [simpl; now rewrite app_nil_r|].
    destruct (join_tidy (a :: cur) ltac:(discriminate) Hcur) as [Hne Hs].
    rewrite (truthy_nonempty _ Hne), Hs. reflexivity.
  - inversion Hps as [|? ? Hp Hrest]; subst.
    cbn [fold_left groups_from]. unfold chunk_step at 2.
    cbn [current_chunk current_token_count chunks].
    assert (Ht : truthy (join [NL; NL] cur) = negb (is_nil cur)).
    { destruct cur as [|a cur]; [reflexivity|].
      destruct (join_tidy (a :: cur) ltac:(discriminate) Hcur) as [Hne _].
      now rewrite (truthy_nonempty _ Hne). }
    rewrite Ht.
    destruct ((4 * max_tokens <? total_chars cur + paragraph_tokens p)%Z
              && negb (is_nil cur)) eqn:Ec.
    + apply andb_true_iff in Ec. destruct Ec as [_ Hn].
      destruct cur as [|a cur]; [discriminate|].
      destruct (join_tidy (a :: cur) ltac:(discriminate) Hcur) as [_ Hs].
      rewrite Hs.
      assert (Hp1 : Forall tidy [p]) by (constructor; [exact Hp|constructor]).
      pose proof (IH (done ++ [join [NL; NL] (a :: cur)]) [p] Hp1 Hrest) as H.
      change (join [NL; NL] [p]) with p in H.
      change (total_chars [p]) with (paragraph_tokens p + 0)%Z in H.
      rewrite Z.add_0_r in H. rewrite H, <- app_assoc. reflexivity.
    + rewrite <- total_chars_snoc.
      assert (Hcp : Forall tidy (cur ++ [p])).
      { apply Forall_app. split; [exact Hcur|].
        constructor; [exact Hp|constructor]. }
      pose proof (IH done (cur ++ [p]) Hcp Hrest) as H.
      destruct cur as [|a cur]; [exact H|].
      rewrite join_snoc in H by discriminate. exact H.
Qed.

Lemma groups_from_concat (max_tokens : Z) (ps : list pystr) :
  forall cur, concat (groups_from max_tokens cur ps) = cur ++ ps.
Proof.
  induction ps as [|p rest IH]; intros cur; cbn [groups_from].
  - destruct cur; simpl; now rewrite ?app_nil_r.
  - destruct (_ && _); cbn [concat]; rewrite IH; [reflexivity|].
    now rewrite <- app_assoc.
Qed.

Lemma groups_from_nonempty (max_tokens : Z) (ps : list pystr) :
  forall cur, Forall (fun g => g <> []) (groups_from max_tokens cur ps).
Proof.
  induction ps as [|p rest IH]; intros cur; cbn [groups_from].
  - destruct cur; simpl; constructor; [discriminate|constructor].
  - destruct (_ && _) eqn:E; [|apply IH].
    constructor; [|apply IH].
    apply andb_true_iff in E. destruct E as [_ E]. now destruct cur.
Qed.

Lemma groups_from_budget (max_tokens : Z) (ps : list pystr) :
  forall cur,
    (cur = [] \/ length cur = 1 \/ (total_chars cur <= 4 * max_tokens)%Z) ->
    Forall (fun g => length g = 1 \/ (total_chars g <= 4 * max_tokens)%Z)
           (groups_from max_tokens cur ps).
Proof.
  induction ps as [|p rest IH]; intros cur Hcur; cbn [groups_from].
  - destruct cur as [|a cur]; cbn [is_nil]; constructor; [|constructor].
    destruct Hcur as [H|H]; [discriminate|exact H].
  - destruct ((4 * max_tokens <? total_chars cur + paragraph_tokens p)%Z)
      eqn:Eb; destruct cur as [|a cur]; cbn [is_nil negb andb app].
    + apply IH. right. now left.
    + constructor; [|apply IH; right; now left].
      destruct Hcur as [H|H]; [discriminate|exact H].
    + apply IH. right. now left.
    + apply IH. right. right.
      change (a :: cur ++ [p]) with ((a :: cur) ++ [p]).
      rewrite total_chars_snoc. apply Z.ltb_ge in Eb. exact Eb.
Qed.

Lemma groups_from_head (max_tokens : Z) (ps : list pystr) :
  forall cur, cur <> [] ->
    exists g rest, groups_from max_tokens cur ps = g :: rest
                   /\ hd [] g = hd [] cur.
Proof.
  induction ps as [|p rest IH]; intros cur Hcur; cbn [groups_from].
  - destruct cur; [congruence|]. simpl. eauto.
  - destruct (_ && _); [eauto|].
    destruct (IH (cur ++ [p])) as (g & r & E & H).
    + destruct cur; discriminate.
    + exists g, r. split; [exact E|]. rewrite H. now destruct cur.
Qed.

Lemma groups_from_cut_late (max_tokens : Z) (ps : list pystr) :
  forall cur, cut_late max_tokens (groups_from max_tokens cur ps).
Proof.
  induction ps as [|p rest IH]; intros cur; cbn [groups_from].
  - destruct cur; cbn [is_nil cut_late]; exact I.
  - destruct ((4 * max_tokens <? total_chars cur + paragraph_tokens p)%Z
              && negb (is_nil cur)) eqn:E; [|apply IH].
    apply andb_true_iff in E. destruct E as [Eb _].
    destruct (groups_from_head max_tokens rest [p] ltac:(discriminate))
      as (g & r & Eg & Hg).
    pose proof (IH [p]) as Hc. rewrite Eg in Hc |- *.
    cbn [cut_late]. split; [|exact Hc].
    rewrite Hg. cbn [hd]. apply Z.ltb_lt in Eb. exact Eb.
Qed.

(** Joining the joined groups is joining all the paragraphs. *)
Lemma join_groups (sep : pystr) (groups : list (list pystr)) :
  Forall (fun g => g <> []) groups ->
  join sep (map (join sep) groups) = join sep (concat groups).
Proof.
  induction groups as [|g groups IH]; intros H; [reflexivity|].
  inversion H as [|? ? Hg Hgs]; subst.
  destruct groups as [|g2 groups].
  - simpl. now rewrite app_nil_r.
  - change (join sep (map (join sep) (g :: g2 :: groups)))
      with (join sep g ++ sep ++ join sep (map (join sep) (g2 :: groups))).
    rewrite (IH Hgs). clear IH.
    change (concat (g :: g2 :: groups)) with (g ++ concat (g2 :: groups)).
    assert (Hc : concat (g2 :: groups) <> []).
    { inversion Hgs; subst. simpl. destruct g2; [congruence|discriminate]. }
    revert Hc. generalize (concat (g2 :: groups)) as l. intros l Hl.
    clear - Hg Hl. induction g as [|a g IHg]; [congruence|].
    destruct g as [|b g].
    + change (join sep [a]) with a. change ([a] ++ l) with (a :: l).
      now rewrite join_cons by exact Hl.
    + change (join sep (a :: b :: g)) with (a ++ sep ++ join sep (b :: g)).
      change ((a :: b :: g) ++ l) with (a :: (b :: g) ++ l).
      rewrite (join_cons sep a) by discriminate.
      rewrite <- IHg by discriminate.
      now rewrite <- !app_assoc.
Qed.

End AccumulateFacts.

Module AccumulateProperties.
Import TextProcessor ExtraVocabulary AccumulateFacts Scenarios.

(** X5.  Given paragraphs that are not empty and carry no whitespace at
    either end, the loop and final flush of [chunk_text] cut the sequence into
    consecutive groups, none empty, and return each group joined by blank
    lines: no paragraph is lost, repeated or moved, and joining the chunks by
    blank lines gives back the joined paragraphs.  A group of more than one
    paragraph stays within the budget (the sum of its paragraph lengths is at
    most [4 * max_tokens]), and no group is closed early: with the first
    paragraph of the next group it would exceed the budget. *)
Theorem accumulate_groups_paragraphs (max_tokens : Z) (paragraphs : list pystr) :
  Forall tidy paragraphs ->
  exists groups,
    accumulate max_tokens paragraphs = map (join [NL; NL]) groups
    /\ concat groups = paragraphs
    /\ Forall (fun g => g <> []) groups
    /\ Forall (fun g => length g = 1
                        \/ (total_chars g <= 4 * max_tokens)%Z) groups
    /\ cut_late max_tokens groups
    /\ join [NL; NL] (accumulate max_tokens paragraphs)
       = join [NL; NL] paragraphs.
Proof.
  intros Hps. exists (groups_from max_tokens [] paragraphs).
  assert (Hacc : accumulate max_tokens paragraphs
                 = map (join [NL; NL]) (groups_from max_tokens [] paragraphs)).
  { exact (fold_chunk_step_groups max_tokens paragraphs [] []
             (Forall_nil _) Hps). }
  split; [exact Hacc|].
  split; [apply groups_from_concat|].
  split; [apply groups_from_nonempty|].
  split; [apply groups_from_budget; now left|].
  split; [apply groups_from_cut_late|].
  rewrite Hacc, join_groups by apply groups_from_nonempty.
  now rewrite groups_from_concat.
Qed.

(** Three paragraphs of four, four and one characters with a budget of two
    tokens. *)
Lemma accumulate_groups_paragraphs_witness :
  exists groups,
    accumulate 2 [py "aaaa"; py "bbbb"; py "c"] = map (join [NL; NL]) groups
    /\ concat groups = [py "aaaa"; py "bbbb"; py "c"].
Proof.
  destruct (accumulate_groups_paragraphs 2 [py "aaaa"; py "bbbb"; py "c"])
    as (groups & H1 & H2 & _).
  - repeat constructor; try discriminate; vm_compute; reflexivity.
  - exists groups. split; [exact H1|exact H2].
Defined.

End AccumulateProperties.

(* ====================================================================== *)
(** * [_call_with_retry] against an arbitrary capability *)
(* ====================================================================== *)

Module RetryBoundFacts.
Import Prompts GeminiHandler Scenarios Vocabulary RetryFacts.

Section AnyModel.

Variable model : Model.
Variables (prompt : pystr) (max_retries base_delay : nat).

(** The loop stops at the first call that answers or raises without the
    rate-limit signal, or at the call that uses up the budget, and returns
    what that call gave. *)
Lemma retry_loop_stops (fuel : nat) :
  forall (retries : nat) (w : World),
    retries <= max_retries -> max_retries - retries < fuel ->
    exists k,
      retries + k <= max_retries
      /\ (forall j, j < k ->
          exists e, model (length (sent w) + j) prompt = Raise e
                    /\ rate_limited e = true)
      /\ (retries + k < max_retries ->
          forall e, model (length (sent w) + k) prompt = Raise e ->
                    rate_limited e = false)
      /\ retry_loop model fuel prompt max_retries base_delay retries w
         = (model (length (sent w) + k) prompt,
            mkWorld (slept w ++ map (fun i => Jittered (base_delay ^ i) 1)
                                    (seq retries k))
                    (sent w ++ repeat prompt (S k))).
Proof.
  induction fuel as [|fuel IH]; intros retries w Hle Hfuel; [lia|].
  rewrite retry_loop_step.
  destruct (Nat.leb_spec retries max_retries) as [_|Hgt]; [|lia].
  destruct (model (length (sent w)) prompt) as [text|e] eqn:Em.
  - exists 0. rewrite (Nat.add_0_r (length (sent w))), Em.
    split; [lia|]. split; [intros j Hj; lia|].
    split; [intros _ e He; discriminate He|].
    unfold after_call. simpl. now rewrite app_nil_r.
  - destruct (rate_limited e && (retries <? max_retries)) eqn:Et.
    + apply andb_true_iff in Et. destruct Et as [He Hlt].
      apply Nat.ltb_lt in Hlt.
      destruct (IH (S retries) (after_sleep base_delay retries
                                  (after_call prompt w)))
        as (k & Hk & Hbefore & Hstop & Hrun); [lia|lia|].
      assert (Hlen : forall j,
                length (sent (after_sleep base_delay retries
                                (after_call prompt w))) + j
                = length (sent w) + S j).
      { intros j. unfold after_sleep, after_call. simpl.
        rewrite length_app. simpl. lia. }
      exists (S k). split; [lia|]. split; [|split].
      * intros [|j] Hj.
        -- exists e. rewrite Nat.add_0_r. now split.
        -- rewrite <- Hlen. apply Hbefore. lia.
      * intros Hlt' e' He'. rewrite <- Hlen in He'.
        apply (Hstop ltac:(lia) e' He').
      * rewrite Hrun, Hlen. unfold after_sleep, after_call. simpl.
        rewrite <- !app_assoc. reflexivity.
    + exists 0. rewrite (Nat.add_0_r (length (sent w))), Em. split; [lia|]. split; [|split].
      * intros j Hj. lia.
      * intros Hlt e' He'. injection He' as <-.
        apply andb_false_iff in Et. destruct Et as [Et|Et]; [exact Et|].
        apply Nat.ltb_ge in Et. lia.
      * unfold after_call. simpl. now rewrite app_nil_r.
Qed.

Lemma call_with_retry_stops (w : World) :
  exists k,
    k <= max_retries
    /\ (forall j, j < k ->
        exists e, model (length (sent w) + j) prompt = Raise e
                  /\ rate_limited e = true)
    /\ (k < max_retries ->
        forall e, model (length (sent w) + k) prompt = Raise e ->
                  rate_limited e = false)
    /\ _call_with_retry model prompt max_retries base_delay w
       = (model (length (sent w) + k) prompt,
          mkWorld (slept w ++ backoffs base_delay k)
                  (sent w ++ repeat prompt (S k))).
Proof.
  unfold _call_with_retry.
  destruct (retry_loop_stops (S max_retries) 0 w ltac:(lia) ltac:(lia))
    as (k & Hk & Hb & Hs & Hr).
  exists k. repeat split; [lia|exact Hb|exact Hs|exact Hr].
Qed.

End AnyModel.

(** The worlds [chunk_summarize] and [create_repurposed_content] leave. *)
Lemma handler_worlds
  (model : Model) (format_complex : pystr -> dict pystr -> FormatResult) :
  (forall chunk title w,
   exists s prompt k,
     k <= 5
     /\ chunk_summarize model format_complex chunk title w
        = (Ret s, mkWorld (slept w ++ backoffs 2 k)
                          (sent w ++ repeat prompt (S k))))
  /\ (forall content_type condensed title custom_instruction w,
      exists v w',
        create_repurposed_content model format_complex content_type
          condensed title custom_instruction w = (Ret v, w')
        /\ (w' = w
            \/ exists prompt k,
                 k <= 5
                 /\ w' = mkWorld (slept w ++ backoffs 2 k)
                                 (sent w ++ repeat prompt (S k)))).
Proof.
  split.
  - intros chunk title w. unfold chunk_summarize.
    set (prompt := match str_format _ _ _ with
                   | Formatted p => p
                   | FormatRaises => _
                   end).
    destruct (call_with_retry_stops model prompt default_max_retries
                default_base_delay w) as (k & Hk & _ & _ & Hr).
    unfold try_except. rewrite Hr.
    destruct (model (length (sent w) + k) prompt) as [text|e].
    + exists text, prompt, k. split; [exact Hk|reflexivity].
    + exists chunk, prompt, k. split; [exact Hk|reflexivity].
  - intros content_type condensed title custom_instruction w.
    unfold create_repurposed_content.
    destruct (build_prompt format_complex content_type condensed title
                custom_instruction) as [prompt|message].
    + destruct (call_with_retry_stops model prompt default_max_retries
                  default_base_delay w) as (k & Hk & _ & _ & Hr).
      unfold try_except. rewrite Hr.
      destruct (model (length (sent w) + k) prompt) as [text|e].
      * exists text. eexists. split; [reflexivity|]. right.
        exists prompt, k. split; [exact Hk|reflexivity].
      * exists (error_generating content_type). eexists.
        split; [reflexivity|]. right.
        exists prompt, k. split; [exact Hk|reflexivity].
    + exists message, w. split; [reflexivity|now left].
Qed.


End RetryBoundFacts.

Module RetryBoundProperties.
Import Prompts GeminiHandler Scenarios Vocabulary RetryBoundFacts.

(** X6.  Whatever the capability does, [_call_with_retry] makes [k + 1]
    calls with the same prompt for some [k <= max_retries], sleeping before
    each retry for [base_delay ^ i] plus jitter ([i = 0 .. k-1]): the first
    [k] calls raised with the rate-limit signal, and the result, value or
    exception, is exactly what call number [k] gave.  Before the budget is
    used up, that call is one that answered or raised without the signal. *)
Theorem call_with_retry_stops_at_first_answer
  (model : Model) (prompt : pystr) (max_retries base_delay : nat) (w : World) :
  exists k,
    k <= max_retries
    /\ (forall j, j < k ->
        exists e, model (length (sent w) + j) prompt = Raise e
                  /\ rate_limited e = true)
    /\ (k < max_retries ->
        forall e, model (length (sent w) + k) prompt = Raise e ->
                  rate_limited e = false)
    /\ _call_with_retry model prompt max_retries base_delay w
       = (model (length (sent w) + k) prompt,
          mkWorld (slept w ++ backoffs base_delay k)
                  (sent w ++ repeat prompt (S k))).
Proof. apply call_with_retry_stops. Qed.

(** X7.  [chunk_summarize] and [create_repurposed_content] never raise.
    Each sends one prompt, at most six times, and sleeps only between those
    sends, for at least 1, 2, 4, 8 and 16 seconds in that order;
    [create_repurposed_content] may also return without any call. *)
Theorem handler_calls_are_bounded
  (model : Model) (format_complex : pystr -> dict pystr -> FormatResult) :
  (forall chunk title w,
   exists s prompt k,
     k <= 5
     /\ chunk_summarize model format_complex chunk title w
        = (Ret s, mkWorld (slept w ++ backoffs 2 k)
                          (sent w ++ repeat prompt (S k))))
  /\ (forall content_type condensed title custom_instruction w,
      exists v w',
        create_repurposed_content model format_complex content_type
          condensed title custom_instruction w = (Ret v, w')
        /\ (w' = w
            \/ exists prompt k,
                 k <= 5
                 /\ w' = mkWorld (slept w ++ backoffs 2 k)
                                 (sent w ++ repeat prompt (S k)))).
Proof. apply handler_worlds. Qed.

End RetryBoundProperties.

(* ====================================================================== *)
(** * The prompts of [GeminiHandler] *)
(* ====================================================================== *)

Module RenderFacts.
Import Prompts GeminiHandler Scenarios Vocabulary ExtraVocabulary.
Import PromptFacts HandlerFacts.

Section Format.

Variable format_complex : pystr -> dict pystr -> FormatResult.
Variable kwargs : dict pystr.

Local Abbreviation fmt := (format_go format_complex kwargs Literal).

(** A replacement field whose name is not a key raises. *)
Lemma format_go_missing_field (name rest : pystr) :
  name <> [] -> name_chars name = true ->
  dict_get kwargs name = None ->
  fmt (LBRACE :: name ++ RBRACE :: rest) = FormatRaises.
Proof.
  intros Hne Hname Hget.
  destruct name as [|c name]; [congruence|].
  assert (Hc : (c =? LBRACE)%N = false).
  { unfold name_chars in Hname. simpl in Hname.
    apply andb_true_iff in Hname. destruct Hname as [Hc _].
    apply negb_true_iff, orb_false_iff in Hc. destruct Hc as [_ Hs].
    unfold field_special in Hs.
    repeat (apply orb_false_iff in Hs; destruct Hs as [Hs _]). exact Hs. }
  assert (Henter :
    format_go format_complex kwargs Literal
              (LBRACE :: (c :: name) ++ RBRACE :: rest)
    = format_go format_complex kwargs (Field [])
                ((c :: name) ++ RBRACE :: rest)).
  { simpl. rewrite Hc. reflexivity. }
  rewrite Henter, (format_go_field_name format_complex kwargs []
                     (c :: name) rest Hname).
  simpl app. now rewrite Hget.
Qed.

(** A closing brace that is not doubled raises. *)
Lemma format_go_lone_close (rest : pystr) :
  match rest with [] => True | c :: _ => c <> RBRACE end ->
  fmt (RBRACE :: rest) = FormatRaises.
Proof.
  intros H. destruct rest as [|c rest]; [reflexivity|].
  simpl. now rewrite (proj2 (N.eqb_neq c RBRACE) H).
Qed.

(** A template with two known fields among text free of braces. *)
Lemma format_two_fields (a b c n1 n2 v1 v2 : pystr) :
  plain a = true -> plain b = true -> plain c = true ->
  n1 <> [] -> name_chars n1 = true -> dict_get kwargs n1 = Some v1 ->
  n2 <> [] -> name_chars n2 = true -> dict_get kwargs n2 = Some v2 ->
  fmt (a ++ (LBRACE :: n1 ++ [RBRACE]) ++ b
         ++ (LBRACE :: n2 ++ [RBRACE]) ++ c)
  = Formatted (a ++ v1 ++ b ++ v2 ++ c).
Proof.
  intros Ha Hb Hc Hn1 Hc1 Hg1 Hn2 Hc2 Hg2.
  replace (a ++ (LBRACE :: n1 ++ [RBRACE]) ++ b
             ++ (LBRACE :: n2 ++ [RBRACE]) ++ c)
    with (a ++ (LBRACE :: n1 ++ RBRACE ::
                  (b ++ (LBRACE :: n2 ++ RBRACE :: (c ++ [])))))
    by (rewrite app_nil_r; simpl; now rewrite <- !app_assoc).
  rewrite (format_go_plain format_complex kwargs a _ Ha).
  rewrite (format_go_known_field format_complex kwargs n1 _ v1 Hn1 Hc1 Hg1).
  rewrite (format_go_plain format_complex kwargs b _ Hb).
  rewrite (format_go_known_field format_complex kwargs n2 _ v2 Hn2 Hc2 Hg2).
  rewrite (format_go_plain format_complex kwargs c _ Hc).
  cbn [format_go fmap_format]. now rewrite app_nil_r.
Qed.

(** A known field, then a missing one. *)
Lemma format_missing_second_field (a b rest n1 n2 v1 : pystr) :
  plain a = true -> plain b = true ->
  n1 <> [] -> name_chars n1 = true -> dict_get kwargs n1 = Some v1 ->
  n2 <> [] -> name_chars n2 = true -> dict_get kwargs n2 = None ->
  fmt (a ++ (LBRACE :: n1 ++ [RBRACE]) ++ b
         ++ (LBRACE :: n2 ++ [RBRACE]) ++ rest)
  = FormatRaises.
Proof.
  intros Ha Hb Hn1 Hc1 Hg1 Hn2 Hc2 Hg2.
  replace (a ++ (LBRACE :: n1 ++ [RBRACE]) ++ b
             ++ (LBRACE :: n2 ++ [RBRACE]) ++ rest)
    with (a ++ (LBRACE :: n1 ++ RBRACE ::
                  (b ++ (LBRACE :: n2 ++ RBRACE :: rest))))
    by (simpl; now rewrite <- !app_assoc).
  rewrite (format_go_plain format_complex kwargs a _ Ha).
  rewrite (format_go_known_field format_complex kwargs n1 _ v1 Hn1 Hc1 Hg1).
  rewrite (format_go_plain format_complex kwargs b _ Hb).
  rewrite (format_go_missing_field n2 rest Hn2 Hc2 Hg2).
  reflexivity.
Qed.

(** A known field, then a lone closing brace. *)
Lemma format_field_then_lone_close (a b rest n1 v1 : pystr) :
  plain a = true -> plain b = true ->
  n1 <> [] -> name_chars n1 = true -> dict_get kwargs n1 = Some v1 ->
  match rest with [] => True | c :: _ => c <> RBRACE end ->
  fmt (a ++ (LBRACE :: n1 ++ [RBRACE]) ++ b ++ RBRACE :: rest)
  = FormatRaises.
Proof.
  intros Ha Hb Hn1 Hc1 Hg1 Hrest.
  replace (a ++ (LBRACE :: n1 ++ [RBRACE]) ++ b ++ RBRACE :: rest)
    with (a ++ (LBRACE :: n1 ++ RBRACE :: (b ++ RBRACE :: rest)))
    by (simpl; now rewrite <- !app_assoc).
  rewrite (format_go_plain format_complex kwargs a _ Ha).
  rewrite (format_go_known_field format_complex kwargs n1 _ v1 Hn1 Hc1 Hg1).
  rewrite (format_go_plain format_complex kwargs b _ Hb).
  rewrite (format_go_lone_close rest Hrest).
  reflexivity.
Qed.

End Format.

Lemma generation_templates_shape :
  Forall (fun ct => generation_template (get_template ct)) generation_types.
Proof.
  repeat constructor; vm_compute; reflexivity.
Qed.

Lemma name_chars_title : name_chars (py "title") = true.
Proof. reflexivity. Qed.

Lemma name_chars_content : name_chars (py "content") = true.
Proof. reflexivity. Qed.

Lemma name_chars_chunk : name_chars (py "chunk") = true.
Proof. reflexivity. Qed.

Section Handler.

Variable format_complex : pystr -> dict pystr -> FormatResult.
Variables (condensed title : pystr).

Local Abbreviation kw := [(py "title", title); (py "content", condensed)].

(** No custom instruction: the two fields are replaced as they are. *)
Lemma format_generation_template (tpl : pystr) :
  generation_template tpl ->
  str_format format_complex kw tpl
  = Formatted (rendered CONTENT_FIELD tpl title condensed).
Proof.
  intros (Hshape & _ & Ha & Hb & _ & _ & Hc & _).
  unfold rendered, str_format.
  set (a := tpl_head tpl) in *. set (b := tpl_body CONTENT_FIELD tpl) in *.
  set (c := tpl_tail CONTENT_FIELD tpl) in *. clearbody a b c.
  rewrite Hshape.
  apply (format_two_fields format_complex kw a b c (py "title") (py "content")
           title condensed Ha Hb Hc);
    first [discriminate | reflexivity].
Qed.

Lemma splice_generation_template (tpl custom_instruction : pystr) :
  generation_template tpl -> custom_instruction <> [] ->
  splice_instruction tpl custom_instruction
  = (tpl_head tpl ++ TITLE_FIELD ++ tpl_rules tpl)
      ++ [NL] ++ important_prefix ++ custom_instruction
      ++ [NL; NL] ++ ARTICLE_CONTENT
      ++ (tpl_gap tpl ++ CONTENT_FIELD ++ tpl_tail CONTENT_FIELD tpl).
Proof.
  intros (_ & Hsplit & _) Hne. unfold splice_instruction.
  rewrite (truthy_nonempty _ Hne), Hsplit. reflexivity.
Qed.

(** A custom instruction without braces goes in as it is. *)
Lemma format_instructed_template (tpl custom_instruction : pystr) :
  generation_template tpl ->
  custom_instruction <> [] -> plain custom_instruction = true ->
  str_format format_complex kw (splice_instruction tpl custom_instruction)
  = Formatted (rendered_with_instruction tpl title condensed
                                         custom_instruction).
Proof.
  intros Hg Hne Hplain.
  rewrite (splice_generation_template tpl custom_instruction Hg Hne).
  destruct Hg as (_ & _ & Ha & _ & Hr & Hgap & Hc & _).
  unfold rendered_with_instruction, str_format.
  set (a := tpl_head tpl) in *. set (r := tpl_rules tpl) in *.
  set (g := tpl_gap tpl) in *. set (c := tpl_tail CONTENT_FIELD tpl) in *.
  clearbody a r g c.
  set (b := r ++ [NL] ++ important_prefix ++ custom_instruction
              ++ [NL; NL] ++ ARTICLE_CONTENT ++ g).
  assert (Hb : plain b = true).
  { unfold b. rewrite !plain_app, Hr, Hplain, Hgap. reflexivity. }
  replace ((a ++ TITLE_FIELD ++ r) ++ [NL] ++ important_prefix
             ++ custom_instruction ++ [NL; NL] ++ ARTICLE_CONTENT
             ++ g ++ CONTENT_FIELD ++ c)
    with (a ++ (LBRACE :: py "title" ++ [RBRACE]) ++ b
            ++ (LBRACE :: py "content" ++ [RBRACE]) ++ c)
    by (unfold b; change TITLE_FIELD with (LBRACE :: py "title" ++ [RBRACE]);
        change CONTENT_FIELD with (LBRACE :: py "content" ++ [RBRACE]);
        rewrite <- !app_assoc; reflexivity).
  rewrite (format_two_fields format_complex kw a b c (py "title")
             (py "content") title condensed Ha Hb Hc);
    first [discriminate | reflexivity | idtac].
  unfold b. now rewrite <- !app_assoc.
Qed.

(** A custom instruction whose first brace is a lone closing one. *)
Lemma format_lone_brace_template (tpl before after : pystr) :
  generation_template tpl -> lone_closing_brace before after ->
  str_format format_complex kw
             (splice_instruction tpl (before ++ RBRACE :: after))
  = FormatRaises.
Proof.
  intros Hg [Hplain Hafter].
  rewrite (splice_generation_template tpl _ Hg)
    by (destruct before; discriminate).
  destruct Hg as (_ & _ & Ha & _ & Hr & _).
  unfold str_format.
  set (a := tpl_head tpl) in *. set (r := tpl_rules tpl) in *.
  set (rest := after ++ [NL; NL] ++ ARTICLE_CONTENT
                 ++ tpl_gap tpl ++ CONTENT_FIELD ++ tpl_tail CONTENT_FIELD tpl).
  set (b := r ++ [NL] ++ important_prefix ++ before).
  assert (Hb : plain b = true).
  { unfold b. rewrite !plain_app, Hr, Hplain. reflexivity. }
  assert (Hrest : match rest with [] => True | c :: _ => c <> RBRACE end).
  { unfold rest. destruct after as [|c after']; [discriminate|exact Hafter]. }
  replace ((a ++ TITLE_FIELD ++ r) ++ [NL] ++ important_prefix
             ++ (before ++ RBRACE :: after) ++ [NL; NL] ++ ARTICLE_CONTENT
             ++ tpl_gap tpl ++ CONTENT_FIELD ++ tpl_tail CONTENT_FIELD tpl)
    with (a ++ (LBRACE :: py "title" ++ [RBRACE]) ++ b ++ RBRACE :: rest)
    by (unfold b, rest;
        change TITLE_FIELD with (LBRACE :: py "title" ++ [RBRACE]);
        rewrite <- !app_assoc; reflexivity).
  apply (format_field_then_lone_close format_complex kw a b rest (py "title")
           title Ha Hb);
    first [discriminate | reflexivity | exact Hrest].
Qed.

End Handler.

(** The content types fall in three classes: those with a fallback prompt,
    [chunk_summarization], and those with no template. *)
Lemma content_type_cases (content_type c t ci : pystr) :
  In content_type generation_types
  \/ content_type = py "chunk_summarization"
  \/ (get_template content_type = []
      /\ dict_get (fallback_prompts c t ci) content_type = None).
Proof.
  destruct (pystr_eqb (py "linkedin") content_type) eqn:E1;
    [apply pystr_eqb_eq in E1; left; simpl; tauto|].
  destruct (pystr_eqb (py "twitter") content_type) eqn:E2;
    [apply pystr_eqb_eq in E2; left; simpl; tauto|].
  destruct (pystr_eqb (py "email") content_type) eqn:E3;
    [apply pystr_eqb_eq in E3; left; simpl; tauto|].
  destruct (pystr_eqb (py "thought_leadership") content_type) eqn:E4;
    [apply pystr_eqb_eq in E4; left; simpl; tauto|].
  destruct (pystr_eqb (py "chunk_summarization") content_type) eqn:E5;
    [apply pystr_eqb_eq in E5; right; left; now subst|].
  right. right. unfold get_template, TEMPLATES, fallback_prompts.
  cbn [dict_get]. rewrite E1, E2, E3, E4, E5. split; reflexivity.
Qed.

Lemma generation_type_fallback (content_type c t ci : pystr) :
  In content_type generation_types ->
  exists p, dict_get (fallback_prompts c t ci) content_type = Some p
            /\ p <> [].
Proof.
  intros [<-|[<-|[<-|[<-|[]]]]]; eexists; (split; [reflexivity|discriminate]).
Qed.

End RenderFacts.

Module PromptProperties.
Import Prompts GeminiHandler Scenarios Vocabulary ExtraVocabulary.
Import PromptFacts HandlerFacts RetryBoundFacts RenderFacts.

Lemma chunk_template_shape :
  CHUNK_SUMMARIZATION_TEMPLATE
  = tpl_head CHUNK_SUMMARIZATION_TEMPLATE
      ++ (LBRACE :: py "title" ++ [RBRACE])
      ++ tpl_body CHUNK_FIELD CHUNK_SUMMARIZATION_TEMPLATE
      ++ (LBRACE :: py "chunk" ++ [RBRACE])
      ++ tpl_tail CHUNK_FIELD CHUNK_SUMMARIZATION_TEMPLATE
  /\ plain (tpl_head CHUNK_SUMMARIZATION_TEMPLATE) = true
  /\ plain (tpl_body CHUNK_FIELD CHUNK_SUMMARIZATION_TEMPLATE) = true
  /\ plain (tpl_tail CHUNK_FIELD CHUNK_SUMMARIZATION_TEMPLATE) = true
  /\ str_split ARTICLE_CONTENT CHUNK_SUMMARIZATION_TEMPLATE
     = [CHUNK_SUMMARIZATION_TEMPLATE].
Proof. repeat split; vm_compute; reflexivity. Qed.

Lemma chunk_prompt (format_complex : pystr -> dict pystr -> FormatResult)
      (chunk title : pystr) :
  str_format format_complex [(py "title", title); (py "chunk", chunk)]
             (get_template (py "chunk_summarization"))
  = Formatted (rendered CHUNK_FIELD CHUNK_SUMMARIZATION_TEMPLATE title chunk).
Proof.
  change (get_template (py "chunk_summarization"))
    with CHUNK_SUMMARIZATION_TEMPLATE.
  destruct chunk_template_shape as (Hshape & Ha & Hb & Hc & _).
  unfold rendered, str_format.
  set (a := tpl_head CHUNK_SUMMARIZATION_TEMPLATE) in *.
  set (b := tpl_body CHUNK_FIELD CHUNK_SUMMARIZATION_TEMPLATE) in *.
  set (c := tpl_tail CHUNK_FIELD CHUNK_SUMMARIZATION_TEMPLATE) in *.
  clearbody a b c. rewrite Hshape.
  apply (format_two_fields format_complex
           [(py "title", title); (py "chunk", chunk)] a b c
           (py "title") (py "chunk") title chunk Ha Hb Hc);
    first [discriminate | reflexivity].
Qed.

(** X8.  The prompt [chunk_summarize] sends is the summarisation template
    with the title and the chunk put in as they are, braces included; the
    hard-coded fallback prompt of the function is never used.  It is sent at
    most six times, and the function returns the answer to its last send or,
    when that send raised, the chunk itself. *)
Theorem chunk_summarize_sends_rendered_template
  (model : Model) (format_complex : pystr -> dict pystr -> FormatResult)
  (chunk title : pystr) (w : World) :
  let prompt := rendered CHUNK_FIELD CHUNK_SUMMARIZATION_TEMPLATE title chunk in
  exists s k,
    k <= 5
    /\ chunk_summarize model format_complex chunk title w
       = (Ret s, mkWorld (slept w ++ backoffs 2 k)
                         (sent w ++ repeat prompt (S k)))
    /\ match model (length (sent w) + k) prompt with
       | Ret text => s = text
       | Raise _ => s = chunk
       end.
Proof.
  intros prompt. unfold chunk_summarize. rewrite chunk_prompt. fold prompt.
  destruct (call_with_retry_stops model prompt default_max_retries
              default_base_delay w) as (k & Hk & _ & _ & Hr).
  unfold try_except. rewrite Hr.
  destruct (model (length (sent w) + k) prompt) as [text|e] eqn:Em.
  - exists text, k. rewrite Em. repeat split. exact Hk.
  - exists chunk, k. rewrite Em. repeat split. exact Hk.
Qed.

(** X9.  For each of [linkedin], [twitter], [email] and
    [thought_leadership], with no custom instruction, the prompt is the
    template of the type with the title and the condensed content put in as
    they are: braces in the article or its title are not read as fields, and
    the fallback prompt is not used. *)
Theorem generation_prompt_is_rendered_template :
  Forall (fun content_type =>
            forall format_complex condensed title,
              build_prompt format_complex content_type condensed title []
              = Prompt (rendered CONTENT_FIELD (get_template content_type)
                                 title condensed))
         generation_types.
Proof.
  apply Forall_forall. intros ct Hct format_complex condensed title.
  pose proof (proj1 (Forall_forall _ _) generation_templates_shape ct Hct)
    as Hg.
  unfold build_prompt.
  change (splice_instruction (get_template ct) []) with (get_template ct).
  rewrite (format_generation_template format_complex condensed title _ Hg).
  assert (Ht : truthy (rendered CONTENT_FIELD (get_template ct) title condensed)
               = true).
  { unfold rendered. apply truthy_app_l. apply Hg. }
  rewrite Ht. reflexivity.
Qed.

(** X10.  For the same four types and a custom instruction that is not empty
    and has no brace, the prompt is the template of the type with the title
    and the content put in as they are, and with the directive
    [!IMPORTANT INSTRUCTIONS (...): ] followed by the instruction as it is
    placed right before the [ARTICLE CONTENT:] marker. *)
Theorem generation_prompt_carries_instruction
  (format_complex : pystr -> dict pystr -> FormatResult)
  (condensed title custom_instruction : pystr) :
  custom_instruction <> [] ->
  plain custom_instruction = true ->
  Forall (fun content_type =>
            build_prompt format_complex content_type condensed title
                         custom_instruction
            = Prompt (rendered_with_instruction (get_template content_type)
                        title condensed custom_instruction))
         generation_types.
Proof.
  intros Hne Hplain. apply Forall_forall. intros ct Hct.
  pose proof (proj1 (Forall_forall _ _) generation_templates_shape ct Hct)
    as Hg.
  unfold build_prompt.
  rewrite (format_instructed_template format_complex condensed title _ _
             Hg Hne Hplain).
  assert (Ht : truthy (rendered_with_instruction (get_template ct) title
                         condensed custom_instruction) = true).
  { unfold rendered_with_instruction. apply truthy_app_l. apply Hg. }
  rewrite Ht. reflexivity.
Qed.

(** A Twitter thread asked for with more emojis. *)
Lemma generation_prompt_carries_instruction_witness :
  build_prompt no_complex_fields (py "twitter") (py "C") (py "T")
               (py "use more emojis")
  = Prompt (rendered_with_instruction TWITTER_THREAD_TEMPLATE (py "T")
              (py "C") (py "use more emojis")).
Proof.
  apply (proj1 (Forall_forall _ _)
           (generation_prompt_carries_instruction no_complex_fields
              (py "C") (py "T") (py "use more emojis")
              ltac:(discriminate) eq_refl)
           (py "twitter")).
  right. left. reflexivity.
Defined.

(** X11.  Asked for the content type [chunk_summarization], which is a key
    of [TEMPLATES], [create_repurposed_content] always returns
    [Invalid content type: chunk_summarization] and calls nothing: the
    template has a [{chunk}] field that [format] is given no value for, and
    the type has no fallback prompt. *)
Theorem chunk_summarization_is_not_a_content_type
  (model : Model) (format_complex : pystr -> dict pystr -> FormatResult)
  (condensed title custom_instruction : pystr) (w : World) :
  create_repurposed_content model format_complex (py "chunk_summarization")
    condensed title custom_instruction w
  = (Ret (invalid_content_type (py "chunk_summarization")), w).
Proof.
  unfold create_repurposed_content.
  assert (Hb : build_prompt format_complex (py "chunk_summarization")
                 condensed title custom_instruction
               = InvalidType (invalid_content_type (py "chunk_summarization"))).
  { unfold build_prompt.
    change (get_template (py "chunk_summarization"))
      with CHUNK_SUMMARIZATION_TEMPLATE.
    destruct chunk_template_shape as (Hshape & Ha & Hbody & _ & Hsplit).
    assert (Hspl : exists rest,
      splice_instruction CHUNK_SUMMARIZATION_TEMPLATE custom_instruction
      = tpl_head CHUNK_SUMMARIZATION_TEMPLATE
          ++ (LBRACE :: py "title" ++ [RBRACE])
          ++ tpl_body CHUNK_FIELD CHUNK_SUMMARIZATION_TEMPLATE
          ++ (LBRACE :: py "chunk" ++ [RBRACE]) ++ rest).
    { unfold splice_instruction. destruct (truthy custom_instruction).
      - rewrite Hsplit. cbn [length Nat.ltb Nat.leb nth].
        eexists. rewrite Hshape at 1. rewrite <- !app_assoc. reflexivity.
      - eexists. exact Hshape. }
    destruct Hspl as [rest ->]. unfold str_format.
    rewrite (format_missing_second_field format_complex
               [(py "title", title); (py "content", condensed)]
               _ _ rest (py "title") (py "chunk") title Ha Hbody);
      first [discriminate | reflexivity]. }
  rewrite Hb. reflexivity.
Qed.

(** X12.  When the first brace of the custom instruction is a closing brace
    standing alone, [format] raises and the handler falls back: for a type
    with a fallback prompt the prompt is that fallback, which holds the
    instruction as it is, and for any other type the handler returns the
    invalid-type message. *)
Theorem lone_closing_brace_uses_fallback
  (format_complex : pystr -> dict pystr -> FormatResult)
  (content_type condensed title before after : pystr) :
  lone_closing_brace before after ->
  build_prompt format_complex content_type condensed title
               (before ++ RBRACE :: after)
  = match dict_get (fallback_prompts condensed title
                                     (before ++ RBRACE :: after))
                   content_type with
    | Some p => Prompt p
    | None => InvalidType (invalid_content_type content_type)
    end.
Proof.
  intros Hlone.
  assert (Hraise :
    str_format format_complex
               [(py "title", title); (py "content", condensed)]
               (splice_instruction (get_template content_type)
                                   (before ++ RBRACE :: after))
    = FormatRaises).
  { destruct (content_type_cases content_type condensed title
                (before ++ RBRACE :: after)) as [Hin|[->|[Hnil _]]].
    - apply format_lone_brace_template; [|exact Hlone].
      exact (proj1 (Forall_forall _ _) generation_templates_shape _ Hin).
    - change (get_template (py "chunk_summarization"))
        with CHUNK_SUMMARIZATION_TEMPLATE.
      destruct chunk_template_shape as (Hshape & Ha & Hbody & _ & Hsplit).
      unfold splice_instruction.
      rewrite (truthy_nonempty (before ++ RBRACE :: after))
        by (destruct before; discriminate).
      rewrite Hsplit. cbn [length Nat.ltb Nat.leb].
      rewrite Hshape at 1. unfold str_format. rewrite <- !app_assoc.
      apply (format_missing_second_field format_complex
               [(py "title", title); (py "content", condensed)]
               _ _ _ (py "title") (py "chunk") title Ha Hbody);
        first [discriminate | reflexivity].
    - rewrite Hnil. unfold splice_instruction.
      rewrite (truthy_nonempty (before ++ RBRACE :: after))
        by (destruct before; discriminate).
      change (str_split ARTICLE_CONTENT []) with [@nil N].
      cbn [length Nat.ltb Nat.leb]. unfold str_format.
      destruct Hlone as [Hplain Hafter].
      change ([] ++ [NL; NL] ++ before ++ RBRACE :: after)
        with (([NL; NL] ++ before) ++ RBRACE :: after).
      rewrite format_go_plain
        by (rewrite plain_app, Hplain; reflexivity).
      rewrite (format_go_lone_close format_complex _ after Hafter).
      reflexivity. }
  unfold build_prompt. rewrite Hraise. reflexivity.
Qed.

(** An emoticon at the end of the instruction. *)
Lemma lone_closing_brace_uses_fallback_witness :
  build_prompt no_complex_fields (py "email") (py "C") (py "T")
               (py "be cheerful :-}")
  = Prompt (fallback_email (py "C") (py "T") (py "be cheerful :-}")).
Proof.
  apply (lone_closing_brace_uses_fallback no_complex_fields (py "email")
           (py "C") (py "T") (py "be cheerful :-") []).
  split; [reflexivity|exact I].
Defined.

(** X13.  For [linkedin], [twitter], [email] and [thought_leadership] the
    handler always has a prompt, and never an empty one, whatever the
    article, the title and the custom instruction: these types are never
    answered with the invalid-type message. *)
Theorem generation_types_always_have_a_prompt :
  Forall (fun content_type =>
            forall format_complex condensed title custom_instruction,
            exists prompt,
              build_prompt format_complex content_type condensed title
                           custom_instruction = Prompt prompt
              /\ prompt <> [])
         generation_types.
Proof.
  apply Forall_forall.
  intros ct Hct format_complex condensed title custom_instruction.
  destruct (generation_type_fallback ct condensed title custom_instruction Hct)
    as (p & Hp & Hne).
  unfold build_prompt, dict_mem. rewrite Hp.
  destruct (str_format _ _ _) as [prompt|].
  - destruct prompt as [|c prompt]; cbn [truthy negb andb].
    + exists p. split; [reflexivity|exact Hne].
    + exists (c :: prompt). split; [reflexivity|discriminate].
  - exists p. split; [reflexivity|exact Hne].
Qed.

End PromptProperties.

(* ====================================================================== *)
(** * Further properties of [ContentFetcher] *)
(* ====================================================================== *)

Module FetcherMoreFacts.
Import ContentFetcher Scenarios Vocabulary ExtraVocabulary.
Import CleaningFacts AccumulateFacts FetcherFacts.

Local Open Scope monad_scope.

Section Fetcher.

Variable web : Web.
Variable url : pystr.

(** Whatever an attempt gives, it leaves the world with at most its pause
    added. *)
Lemma regular_attempt_world (attempt : nat) (w : World) :
  snd (regular_attempt web url attempt w) = paused attempt w.
Proof.
  unfold regular_attempt, try_except_request, bind, lift, ret, sleep, paused.
  destruct (0 <? attempt); simpl;
    (destruct (get_random_headers web url attempt) as [h|e]; simpl;
     [ destruct (requests_get web attempt url h) as [resp|e]; simpl;
       [ destruct (status_code resp =? 200)%Z; reflexivity
       | destruct (is_request_exception e); reflexivity ]
     | destruct (is_request_exception e); reflexivity ]).
Qed.







(** The loop pauses before each attempt but the first, whatever happens. *)
Lemma regular_attempts_world (remaining : nat) :
  forall (attempt : nat) (w : World),
  exists k,
    k <= remaining
    /\ (attempt = 0 -> k <= remaining - 1)
    /\ snd (regular_attempts web remaining attempt url w)
       = mkWorld (slept w ++ pauses k) (sent w).
Proof.
  induction remaining as [|remaining IH]; intros attempt w.
  - exists 0. simpl. rewrite app_nil_r. repeat split; try lia. now destruct w.
  - simpl. unfold bind.
    pose proof (regular_attempt_world attempt w) as Hw.
    destruct (regular_attempt web url attempt w) as [[[page|]|e] w1];
      simpl in Hw; subst w1.
    + unfold paused. destruct (Nat.ltb_spec 0 attempt).
      * exists 1. simpl. repeat split; lia.
      * exists 0. simpl. rewrite app_nil_r. repeat split; try lia.
        now destruct w.
    + destruct (IH (S attempt) (paused attempt w)) as (k & Hk & _ & Hs).
      rewrite Hs. unfold paused. destruct (Nat.ltb_spec 0 attempt).
      * exists (S k). simpl. rewrite <- app_assoc. repeat split; lia.
      * exists k. repeat split; lia.
    + unfold paused. destruct (Nat.ltb_spec 0 attempt).
      * exists 1. simpl. repeat split; lia.
      * exists 0. simpl. rewrite app_nil_r. repeat split; try lia.
        now destruct w.
Qed.


Lemma title_strip_stripped (tag : TitleTag) (t : pystr) :
  title_strip tag = Ret t -> strip t = t.
Proof.
  destruct tag as [|[s|]]; simpl; intros H; inversion H; apply strip_idem.
Qed.

Lemma extract_with_trafilatura_stripped (html : pystr) (r : FetchResult) :
  extract_with_trafilatura web html = Ret (Some r) -> stripped_result r.
Proof.
  unfold extract_with_trafilatura, obind.
  destruct (trafilatura_extract web html) as [[text|]|e]; try discriminate.
  destruct (truthy text); [|discriminate].
  destruct (soup_title web html) as [tag|e]; [|discriminate].
  destruct (title_strip tag) as [t|e] eqn:Et; [|discriminate].
  intros H. inversion H. split; simpl.
  - exact (title_strip_stripped tag t Et).
  - apply strip_idem.
Qed.

Lemma empty_result_stripped : stripped_result empty_result.
Proof. split; reflexivity. Qed.

Lemma extract_content_from_html_stripped (html : pystr) :
  stripped_result (extract_content_from_html web html url).
Proof.
  unfold extract_content_from_html.
  destruct (truthy html); simpl; [|apply empty_result_stripped].
  destruct (extract_with_trafilatura web html) as [[r|]|e] eqn:Et.
  - exact (extract_with_trafilatura_stripped html r Et).
  - unfold extract_with_soup, obind.
    destruct (soup_title web html) as [tag|e];
      [|apply empty_result_stripped].
    destruct (soup_main_text web html) as [c|e];
      [|apply empty_result_stripped].
    destruct (title_strip tag) as [t|e] eqn:Ett;
      [|apply empty_result_stripped].
    split; simpl; [exact (title_strip_stripped tag t Ett)|apply strip_idem].
  - unfold extract_with_soup, obind.
    destruct (soup_title web html) as [tag|e0];
      [|apply empty_result_stripped].
    destruct (soup_main_text web html) as [c|e0];
      [|apply empty_result_stripped].
    destruct (title_strip tag) as [t|e0] eqn:Ett;
      [|apply empty_result_stripped].
    split; simpl; [exact (title_strip_stripped tag t Ett)|apply strip_idem].
Qed.

Lemma extract_fetched_cases (html : option pystr) (r : FetchResult) :
  extract_fetched web html url = Some r ->
  stripped_result r /\ content r <> [].
Proof.
  unfold extract_fetched. destruct html as [page|]; [|discriminate].
  destruct (truthy page); [|discriminate].
  destruct (truthy (content (extract_content_from_html web page url))) eqn:Et;
    [|discriminate].
  intros H. inversion H. subst r. split.
  - apply extract_content_from_html_stripped.
  - intros Hc. rewrite Hc in Et. discriminate.
Qed.

(** Where a returned result comes from. *)
Lemma fetch_content_cases (w w' : World) (r : FetchResult) :
  fetch_content web url w = (Ret r, w') ->
  direct_extraction web url = Some r
  \/ (stripped_result r /\ content r <> [])
  \/ r = empty_result.
Proof.
  unfold fetch_content.
  destruct (direct_extraction web url) as [d|].
  - intros H. inversion H. now left.
  - unfold bind.
    destruct (fetch_with_regular_requests web url 3 w) as [[html|e] w1];
      [|discriminate].
    destruct (extract_fetched web html url) as [r2|] eqn:E2.
    + intros H. inversion H. subst. right. left.
      exact (extract_fetched_cases html r E2).
    + destruct (extract_fetched web (fetch_with_cloudscraper web url) url)
        as [r3|] eqn:E3; intros H; inversion H; subst.
      * right. left. exact (extract_fetched_cases _ r E3).
      * right. now right.
Qed.

Lemma direct_extraction_cases (r : FetchResult) :
  direct_extraction web url = Some r ->
  exists page text t,
    trafilatura_fetch_url web url = Ret (Some page)
    /\ trafilatura_extract web page = Ret (Some text)
    /\ text <> []
    /\ r = mkFetchResult t (strip text)
    /\ stripped_result r.
Proof.
  unfold direct_extraction.
  destruct (trafilatura_fetch_url web url) as [[page|]|e]; try discriminate.
  destruct (truthy page); [|discriminate].
  destruct (extract_with_trafilatura web page) as [[d|]|e] eqn:Et;
    try discriminate.
  intros H. inversion H. subst d.
  pose proof (extract_with_trafilatura_stripped page r Et) as Hs.
  unfold extract_with_trafilatura, obind in Et.
  destruct (trafilatura_extract web page) as [[text|]|e] eqn:Ex;
    try discriminate.
  destruct (truthy text) eqn:Ett; [|discriminate].
  destruct (soup_title web page) as [tag|e]; [|discriminate].
  destruct (title_strip tag) as [t|e]; [|discriminate].
  inversion Et. subst r. exists page, text, t.
  split; [reflexivity|]. split; [exact Ex|].
  split; [intros ->; discriminate|]. split; [reflexivity|exact Hs].
Qed.

Lemma strip_nil_iff (s : pystr) : strip s = [] <-> forallb isspace s = true.
Proof.
  rewrite <- visible_chars_nil. split.
  - intros H. rewrite <- visible_chars_strip, H. reflexivity.
  - intros H. rewrite <- visible_chars_strip in H.
    pose proof (proj1 (proj1 (strip_fixed_iff (strip s)) (strip_idem s))) as Hh.
    destruct (strip s) as [|c t]; [reflexivity|].
    simpl in Hh, H. destruct (isspace c); simpl in *; discriminate.
Qed.

End Fetcher.

End FetcherMoreFacts.

Module FetcherProperties.
Import ContentFetcher Scenarios ExtraScenarios Vocabulary ExtraVocabulary.
Import FetcherFacts FetcherMoreFacts.



(** X15.  Every result [fetch_content] returns has a title and a content
    that neither start nor end with whitespace. *)
Theorem fetch_content_result_is_stripped
  (web : Web) (url : pystr) (w w' : World) (r : FetchResult) :
  fetch_content web url w = (Ret r, w') ->
  strip (title r) = title r /\ strip (content r) = content r.
Proof.
  intros H.
  destruct (fetch_content_cases web url w w' r H) as [Hd|[[Hs _]| ->]].
  - destruct (direct_extraction_cases web url r Hd)
      as (_ & _ & _ & _ & _ & _ & _ & Hs). exact Hs.
  - exact Hs.
  - split; reflexivity.
Qed.

(** The title of the served page comes back without its spaces. *)
Lemma fetch_content_result_is_stripped_witness :
  strip (py "News") = py "News"
  /\ strip (py "Some article text") = py "Some article text".
Proof.
  apply (fetch_content_result_is_stripped blocked_once example_url fresh
           (mkWorld [Jittered 2 3] [])
           (mkFetchResult (py "News") (py "Some article text"))).
  vm_compute. reflexivity.
Defined.

(** X16.  A result of [fetch_content] with an empty content is the empty
    result (empty title too), except when the direct strategy extracted a
    text made of whitespace only: that text is not empty, so the strategy
    returns, and stripping it leaves nothing. *)
Theorem empty_content_origin
  (web : Web) (url : pystr) (w w' : World) (r : FetchResult) :
  fetch_content web url w = (Ret r, w') ->
  content r = [] ->
  r = empty_result
  \/ exists page text,
       trafilatura_fetch_url web url = Ret (Some page)
       /\ trafilatura_extract web page = Ret (Some text)
       /\ text <> [] /\ forallb isspace text = true.
Proof.
  intros H Hc.
  destruct (fetch_content_cases web url w w' r H) as [Hd|[[_ Hne]| ->]].
  - right.
    destruct (direct_extraction_cases web url r Hd)
      as (page & text & t & Hf & He & Hne & -> & _).
    exists page, text. repeat split; try assumption.
    simpl in Hc. now apply strip_nil_iff.
  - contradiction.
  - now left.
Qed.

(** With every strategy failing the result is the empty one. *)
Lemma empty_content_origin_witness :
  empty_result = empty_result
  \/ exists page text,
       trafilatura_fetch_url offline example_url = Ret (Some page)
       /\ trafilatura_extract offline page = Ret (Some text)
       /\ text <> [] /\ forallb isspace text = true.
Proof.
  apply (empty_content_origin offline example_url fresh
           (mkWorld [Jittered 2 3; Jittered 2 3] []) empty_result).
  - vm_compute. reflexivity.
  - reflexivity.
Defined.

(** X17.  Whatever the network does, and whether it returns or raises,
    [fetch_content] sleeps at most twice, each time for two seconds plus up
    to three of jitter, and sends no prompt. *)
Theorem fetch_content_pauses_at_most_twice
  (web : Web) (url : pystr) (w : World) :
  exists k,
    k <= 2
    /\ snd (fetch_content web url w) = mkWorld (slept w ++ pauses k) (sent w).
Proof.
  unfold fetch_content.
  destruct (direct_extraction web url) as [d|].
  - exists 0. simpl. rewrite app_nil_r. split; [lia|now destruct w].
  - unfold bind, fetch_with_regular_requests.
    destruct (regular_attempts_world web url 3 0 w) as (k & _ & Hk & Hs).
    exists k. split; [specialize (Hk eq_refl); lia|].
    destruct (regular_attempts web 3 0 url w) as [[html|e] w1]; simpl in Hs.
    + destruct (extract_fetched web html url); [exact Hs|].
      destruct (extract_fetched web (fetch_with_cloudscraper web url) url);
        exact Hs.
    + exact Hs.
Qed.

End FetcherProperties.

(* ====================================================================== *)
(** * Further properties of [ContentRepurposer] *)
(* ====================================================================== *)

Module RepurposerMoreFacts.
Import TextProcessor Prompts GeminiHandler ContentFetcher ContentRepurposer.
Import Scenarios Vocabulary ExtraVocabulary.
Import TextProcessorFacts RetryFacts HandlerFacts FetcherFacts RepurposerFacts.
Import CleaningFacts RetryBoundFacts FetcherMoreFacts PromptProperties.

Local Open Scope monad_scope.

Lemma inter_call_sleeps_app (a b : list Delay) :
  inter_call_sleeps (a ++ b) = inter_call_sleeps a ++ inter_call_sleeps b.
Proof. apply filter_app. Qed.

Lemma inter_call_sleeps_backoffs (base_delay k : nat) :
  inter_call_sleeps (backoffs base_delay k) = [].
Proof.
  unfold backoffs. generalize (seq 0 k) as l.
  induction l as [|a l IH]; simpl; [reflexivity|exact IH].
Qed.

Section Repurposer.

Variable model : Model.
Variable format_complex : pystr -> dict pystr -> FormatResult.

(** A summarising or generating call adds no delay between calls and at
    most six prompts. *)
Lemma chunk_summarize_counts (chunk title : pystr) (w : World) :
  exists s w',
    chunk_summarize model format_complex chunk title w = (Ret s, w')
    /\ inter_call_sleeps (slept w') = inter_call_sleeps (slept w)
    /\ length (sent w') <= length (sent w) + 6.
Proof.
  destruct (proj1 (handler_worlds model format_complex) chunk title w)
    as (s & prompt & k & Hk & E).
  exists s. eexists. split; [exact E|]. cbn [slept sent].
  rewrite inter_call_sleeps_app, inter_call_sleeps_backoffs, app_nil_r.
  split; [reflexivity|]. rewrite length_app, repeat_length. lia.
Qed.

Lemma create_counts (content_type condensed title ci : pystr) (w : World) :
  exists v w',
    create_repurposed_content model format_complex content_type condensed
      title ci w = (Ret v, w')
    /\ inter_call_sleeps (slept w') = inter_call_sleeps (slept w)
    /\ length (sent w') <= length (sent w) + 6.
Proof.
  destruct (proj2 (handler_worlds model format_complex) content_type condensed
              title ci w) as (v & w' & E & [->|(prompt & k & Hk & ->)]).
  - exists v, w. split; [exact E|]. split; [reflexivity|lia].
  - exists v. eexists. split; [exact E|]. cbn [slept sent].
    rewrite inter_call_sleeps_app, inter_call_sleeps_backoffs, app_nil_r.
    split; [reflexivity|]. rewrite length_app, repeat_length. lia.
Qed.

Lemma generate_loop_counts (condensed title : pystr) (delay : nat)
      (custom : dict pystr) (rest : list pystr) :
  forall (n i : nat) (results : dict pystr) (w : World),
    i + length rest = n ->
    exists results' w',
      generate_loop model format_complex n i rest condensed title delay
                    custom results w = (Ret results', w')
      /\ inter_call_sleeps (slept w')
         = inter_call_sleeps (slept w) ++ repeat (Fixed delay) (length rest - 1)
      /\ length (sent w') <= length (sent w) + 6 * length rest.
Proof.
  induction rest as [|ct rest IH]; intros n i results w Hn.
  - exists results, w. simpl. rewrite app_nil_r. repeat split. lia.
  - cbn [generate_loop].
    destruct (create_counts ct condensed title (custom_for custom ct) w)
      as (v & w1 & E & Hs1 & Hp1).
    fold (custom_for custom ct). rewrite (bind_ret _ _ _ _ _ E).
    simpl in Hn.
    destruct rest as [|ct2 rest].
    + destruct (Nat.ltb_spec i (n - 1)) as [Hlt|_]; [simpl in Hn; lia|].
      rewrite (bind_ret (ret tt) _ w1 w1 tt eq_refl). cbn [generate_loop].
      exists (dict_set results ct v), w1. split; [reflexivity|].
      simpl. rewrite app_nil_r. split; [exact Hs1|lia].
    + destruct (Nat.ltb_spec i (n - 1)) as [_|Hge]; [|simpl in Hn; lia].
      rewrite (bind_ret (sleep (Fixed delay)) _ w1
                 (mkWorld (slept w1 ++ [Fixed delay]) (sent w1)) tt eq_refl).
      destruct (IH n (S i) (dict_set results ct v)
                  (mkWorld (slept w1 ++ [Fixed delay]) (sent w1)))
        as (results' & w' & E2 & Hs2 & Hp2); [simpl in *; lia|].
      exists results', w'. split; [exact E2|]. split.
      * rewrite Hs2. simpl slept. rewrite inter_call_sleeps_app, Hs1.
        simpl. rewrite <- app_assoc, ?Nat.sub_0_r. reflexivity.
      * simpl sent in Hp2. simpl length in *. lia.
Qed.

(** With at most one chunk the loop has no delay to observe. *)
Lemma summarize_loop_counts (title : pystr) (delay : nat) (rest : list pystr) :
  forall (n i : nat) (acc : list pystr) (w : World),
    n <= 1 ->
    exists results w',
      summarize_loop model format_complex n i rest title delay acc w
      = (Ret results, w')
      /\ inter_call_sleeps (slept w') = inter_call_sleeps (slept w)
      /\ length (sent w') <= length (sent w) + 6 * length rest.
Proof.
  induction rest as [|chunk rest IH]; intros n i acc w Hn.
  - exists acc, w. repeat split. simpl. lia.
  - cbn [summarize_loop].
    destruct (chunk_summarize_counts chunk title w) as (s & w1 & E & Hs & Hp).
    rewrite (bind_ret _ _ _ _ _ E).
    destruct (Nat.ltb_spec i (n - 1)) as [Hlt|_]; [lia|].
    rewrite (bind_ret (ret tt) _ w1 w1 tt eq_refl).
    destruct (IH n (S i) (acc ++ [s]) w1 Hn) as (results & w' & E2 & Hs2 & Hp2).
    exists results, w'. split; [exact E2|]. split; [congruence|].
    simpl length. lia.
Qed.

(** The summarising steps on what [chunk_text] returns: at most one chunk,
    so no delay between chunks. *)
Lemma condense_chunk_text_counts (content title : pystr) (delay : nat)
      (w : World) :
  exists condensed w',
    condense model format_complex (chunk_text content default_max_tokens)
             title delay w = (Ret condensed, w')
    /\ inter_call_sleeps (slept w') = inter_call_sleeps (slept w)
    /\ length (sent w') <= length (sent w) + 6.
Proof.
  unfold condense.
  assert (Hlen : length (chunk_text content default_max_tokens) <= 1).
  { rewrite chunk_text_shape. destruct (truthy _); simpl; lia. }
  destruct (summarize_loop_counts title delay
              (chunk_text content default_max_tokens)
              (length (chunk_text content default_max_tokens)) 0 [] w Hlen)
    as (results & w' & E & Hs & Hp).
  rewrite (bind_ret _ _ _ _ _ E). eexists. exists w'.
  split; [reflexivity|]. split; [exact Hs|lia].
Qed.

Lemma repurpose_from_text_counts (title content : pystr)
      (content_types : list pystr) (delay : nat)
      (custom : option (dict pystr)) (w : World) :
  exists results w',
    repurpose_from_text model format_complex title content content_types
                        delay custom w = (Ret results, w')
    /\ inter_call_sleeps (slept w')
       = inter_call_sleeps (slept w)
           ++ repeat (Fixed delay) (length content_types - 1)
    /\ length (sent w') <= length (sent w) + 6 * S (length content_types).
Proof.
  unfold repurpose_from_text.
  destruct (condense_chunk_text_counts content title delay w)
    as (condensed & w1 & E & Hs & Hp).
  rewrite (bind_ret _ _ _ _ _ E).
  destruct (generate_loop_counts condensed title delay (or_empty_dict custom)
              content_types (length content_types) 0 [] w1 eq_refl)
    as (results & w' & E2 & Hs2 & Hp2).
  exists results, w'. split; [exact E2|]. split.
  - now rewrite Hs2, Hs.
  - lia.
Qed.

(** What [chunk_summarize] returns and leaves behind. *)
Lemma chunk_summarize_result (chunk title : pystr) (w : World) :
  exists k,
    k <= 5
    /\ chunk_summarize model format_complex chunk title w
       = (Ret match model (length (sent w) + k)
                          (rendered CHUNK_FIELD CHUNK_SUMMARIZATION_TEMPLATE
                                    title chunk) with
              | Ret text => text
              | Raise _ => chunk
              end,
          mkWorld (slept w ++ backoffs 2 k)
                  (sent w ++ repeat (rendered CHUNK_FIELD
                                       CHUNK_SUMMARIZATION_TEMPLATE title chunk)
                                    (S k))).
Proof.
  unfold chunk_summarize. rewrite chunk_prompt.
  destruct (call_with_retry_stops model
              (rendered CHUNK_FIELD CHUNK_SUMMARIZATION_TEMPLATE title chunk)
              default_max_retries default_base_delay w)
    as (k & Hk & _ & _ & Hr).
  exists k. split; [exact Hk|]. unfold try_except. rewrite Hr.
  destruct (model (length (sent w) + k) _); reflexivity.
Qed.

(** A text that is not blank is summarised as one chunk. *)
Lemma condense_one_chunk (content title : pystr) (delay : nat) (w : World) :
  clean_text content <> [] ->
  exists k,
    k <= 5
    /\ condense model format_complex (chunk_text content default_max_tokens)
                title delay w
       = (Ret match model (length (sent w) + k)
                          (summary_prompt title content) with
              | Ret text => text
              | Raise _ => clean_text content
              end,
          mkWorld (slept w ++ backoffs 2 k)
                  (sent w ++ repeat (summary_prompt title content) (S k))).
Proof.
  intros Hne. rewrite chunk_text_shape.
  destruct (clean_text content) as [|c rest] eqn:Ec; [congruence|].
  cbn [truthy negb is_nil]. unfold condense. cbn [length summarize_loop].
  destruct (chunk_summarize_result (c :: rest) title w) as (k & Hk & E).
  exists k. split; [exact Hk|].
  unfold summary_prompt. rewrite Ec.
  unfold bind at 1. unfold bind at 1. rewrite E.
  cbn [Nat.sub Nat.ltb Nat.leb]. unfold bind, ret.
  cbn [summarize_loop app]. unfold ret. unfold summarize_chunks.
  cbn [join]. rewrite ?app_nil_r. reflexivity.
Qed.

(** A blank text is not summarised at all. *)
Lemma condense_blank (content title : pystr) (delay : nat) (w : World) :
  forallb isspace content = true ->
  condense model format_complex (chunk_text content default_max_tokens)
           title delay w = (Ret [], w).
Proof.
  intros Hb. rewrite chunk_text_shape.
  rewrite (proj2 (clean_text_nil_iff content) Hb). reflexivity.
Qed.

Section WithWeb.

Variable web : Web.

Lemma fetch_content_inter_call_sleeps (url : pystr) (w : World) :
  inter_call_sleeps (slept (snd (fetch_content web url w)))
  = inter_call_sleeps (slept w)
  /\ sent (snd (fetch_content web url w)) = sent w.
Proof.
  assert (Hp : forall k, inter_call_sleeps (pauses k) = []).
  { induction k as [|k IH]; [reflexivity|exact IH]. }
  assert (H : exists k, snd (fetch_content web url w)
                        = mkWorld (slept w ++ pauses k) (sent w)).
  { unfold fetch_content.
    destruct (direct_extraction web url) as [d|].
    - exists 0. simpl. rewrite app_nil_r. now destruct w.
    - unfold bind, fetch_with_regular_requests.
      destruct (regular_attempts_world web url 3 0 w) as (k & _ & _ & Hs).
      exists k.
      destruct (regular_attempts web 3 0 url w) as [[html|e] w1]; simpl in Hs.
      + destruct (extract_fetched web html url); [exact Hs|].
        destruct (extract_fetched web (fetch_with_cloudscraper web url) url);
          exact Hs.
      + exact Hs. }
  destruct H as (k & ->). cbn [slept sent].
  rewrite inter_call_sleeps_app, Hp, app_nil_r. split; reflexivity.
Qed.


(** After a fetch with a content, [repurpose] goes on as
    [repurpose_from_text] does on the fetched title and content. *)
Lemma repurpose_after_fetch (url : pystr) (content_types : list pystr)
      (delay : nat) (custom : option (dict pystr)) (w w1 : World)
      (data : FetchResult) :
  fetch_content web url w = (Ret data, w1) ->
  content data <> [] ->
  repurpose web model format_complex url content_types delay custom w
  = repurpose_from_text model format_complex (title data) (content data)
                        content_types delay custom w1.
Proof.
  intros Hf Hne. unfold repurpose. rewrite (bind_ret _ _ _ _ _ Hf).
  destruct (content data) as [|c rest] eqn:Ec; [congruence|]. reflexivity.
Qed.


Lemma repurpose_counts (url : pystr) (content_types : list pystr)
      (delay : nat) (custom : option (dict pystr)) (w : World) :
  length (sent (snd (repurpose web model format_complex url content_types
                               delay custom w)))
  <= length (sent w) + 6 * S (length content_types)
  /\ exists n,
       n <= length content_types - 1
       /\ inter_call_sleeps
            (slept (snd (repurpose web model format_complex url content_types
                                   delay custom w)))
          = inter_call_sleeps (slept w) ++ repeat (Fixed delay) n.
Proof.
  destruct (fetch_content_inter_call_sleeps url w) as [Hs Hp].
  destruct (fetch_content web url w) as [[data|e0] w1] eqn:Ef;
    cbn [snd] in Hs, Hp.
  - destruct (content data) as [|c rest] eqn:Ec.
    + unfold repurpose. rewrite (bind_ret _ _ _ _ _ Ef), Ec.
      cbn [snd truthy negb is_nil ret].
      split; [rewrite Hp; lia|]. exists 0. split; [lia|].
      simpl. now rewrite app_nil_r.
    + rewrite (repurpose_after_fetch url content_types delay custom w w1 data Ef)
        by congruence.
      destruct (repurpose_from_text_counts (title data) (content data)
                  content_types delay custom w1) as (r & w2 & E & Hs2 & Hp2).
      rewrite E. cbn [snd]. split; [rewrite Hp in Hp2; lia|].
      exists (length content_types - 1). split; [lia|]. now rewrite Hs2, Hs.
  - unfold repurpose, bind. rewrite Ef. cbn [snd].
    split; [rewrite Hp; lia|]. exists 0. split; [lia|].
    simpl. now rewrite app_nil_r.
Qed.

End WithWeb.

End Repurposer.

End RepurposerMoreFacts.

(* ====================================================================== *)
(** * Properties of the orchestration *)
(* ====================================================================== *)

Module RepurposerProperties.
Import TextProcessor Prompts GeminiHandler ContentFetcher ContentRepurposer.
Import Scenarios Vocabulary ExtraVocabulary ExtraScenarios.
Import RepurposerFacts RepurposerMoreFacts CleaningFacts.



(** X19.  When the fetch returns a content that is not empty, [repurpose]
    goes on exactly as [repurpose_from_text] does on the fetched title and
    content, from the state the fetch left: the two entry points share
    their summarising and generating steps. *)
Theorem repurpose_is_fetch_then_repurpose_from_text
  (web : Web) (model : Model)
  (format_complex : pystr -> dict pystr -> FormatResult)
  (url : pystr) (content_types : list pystr) (delay_between_calls : nat)
  (custom_instructions : option (dict pystr)) (w w1 : World)
  (content_data : FetchResult) :
  fetch_content web url w = (Ret content_data, w1) ->
  content content_data <> [] ->
  repurpose web model format_complex url content_types delay_between_calls
            custom_instructions w
  = repurpose_from_text model format_complex (title content_data)
                        (content content_data) content_types
                        delay_between_calls custom_instructions w1.
Proof.
  intros Hf Hne.
  exact (repurpose_after_fetch model format_complex web url content_types
           delay_between_calls custom_instructions w w1 content_data Hf Hne).
Qed.

Lemma repurpose_is_fetch_then_repurpose_from_text_witness :
  repurpose one_article no_linkedin_quota no_complex_fields
            (py "https://example.com/tea") [py "linkedin"; py "twitter"]
            2 None fresh
  = repurpose_from_text no_linkedin_quota no_complex_fields (py "Tea")
                        (py "An article about tea.")
                        [py "linkedin"; py "twitter"] 2 None fresh.
Proof.
  apply (repurpose_is_fetch_then_repurpose_from_text one_article
           no_linkedin_quota no_complex_fields (py "https://example.com/tea")
           [py "linkedin"; py "twitter"] 2 None fresh fresh
           (mkFetchResult (py "Tea") (py "An article about tea."))).
  - vm_compute. reflexivity.
  - vm_compute. discriminate.
Defined.

(** X20.  [repurpose_from_text] always returns.  Its delays between calls
    are exactly one [delay_between_calls] after each content type but the
    last: the delay between chunks never happens, because [chunk_text]
    gives at most one chunk.  It sends at most six prompts for the summary
    and six for each content type. *)
Theorem repurpose_from_text_delays
  (model : Model) (format_complex : pystr -> dict pystr -> FormatResult)
  (title content : pystr) (content_types : list pystr)
  (delay_between_calls : nat) (custom_instructions : option (dict pystr))
  (w : World) :
  exists results w',
    repurpose_from_text model format_complex title content content_types
                        delay_between_calls custom_instructions w
    = (Ret results, w')
    /\ inter_call_sleeps (slept w')
       = inter_call_sleeps (slept w)
           ++ repeat (Fixed delay_between_calls) (length content_types - 1)
    /\ length (sent w') <= length (sent w) + 6 * S (length content_types).
Proof.
  exact (repurpose_from_text_counts model format_complex title content
           content_types delay_between_calls custom_instructions w).
Qed.

(** X21.  On a text made of whitespace only, [repurpose_from_text] reports
    no error: it sends no summarising prompt and generates every content
    type from an empty condensed content. *)
Theorem blank_text_is_generated_from_nothing
  (model : Model) (format_complex : pystr -> dict pystr -> FormatResult)
  (title content : pystr) (content_types : list pystr)
  (delay_between_calls : nat) (custom_instructions : option (dict pystr))
  (w : World) :
  forallb isspace content = true ->
  repurpose_from_text model format_complex title content content_types
                      delay_between_calls custom_instructions w
  = generate_loop model format_complex (length content_types) 0 content_types
                  [] title delay_between_calls
                  (or_empty_dict custom_instructions) [] w.
Proof.
  intros Hb. unfold repurpose_from_text.
  rewrite (bind_ret _ _ _ _ _
             (condense_blank model format_complex content title
                             delay_between_calls w Hb)).
  reflexivity.
Qed.

Lemma blank_text_is_generated_from_nothing_witness :
  repurpose_from_text (always_answers (py "a post")) no_complex_fields
                      (py "Tea") blank_text [py "twitter"] 2 None fresh
  = generate_loop (always_answers (py "a post")) no_complex_fields 1 0
                  [py "twitter"] [] (py "Tea") 2 [] [] fresh.
Proof.
  apply (blank_text_is_generated_from_nothing (always_answers (py "a post"))
           no_complex_fields (py "Tea") blank_text [py "twitter"] 2 None
           fresh).
  vm_compute. reflexivity.
Defined.

(** X22.  A text that is not blank is summarised in one piece: the only
    prompt is the summarisation template filled with the title and the whole
    cleaned text, sent at most six times, and the condensed content is the
    answer to the last send or, when that send raised, the cleaned text
    itself. *)
Theorem text_is_summarised_in_one_piece
  (model : Model) (format_complex : pystr -> dict pystr -> FormatResult)
  (content title : pystr) (delay_between_calls : nat) (w : World) :
  clean_text content <> [] ->
  exists k,
    k <= 5
    /\ condense model format_complex (chunk_text content default_max_tokens)
                title delay_between_calls w
       = (Ret match model (length (sent w) + k)
                          (summary_prompt title content) with
              | Ret text => text
              | Raise _ => clean_text content
              end,
          mkWorld (slept w ++ backoffs 2 k)
                  (sent w ++ repeat (summary_prompt title content) (S k))).
Proof.
  intros Hne.
  exact (condense_one_chunk model format_complex content title
           delay_between_calls w Hne).
Qed.

Lemma text_is_summarised_in_one_piece_witness :
  exists k,
    k <= 5
    /\ condense (always_raises invalid_api_key) no_complex_fields
                (chunk_text (py " tea  time ") default_max_tokens)
                (py "Tea") 2 fresh
       = (Ret match always_raises invalid_api_key (length (sent fresh) + k)
                     (summary_prompt (py "Tea") (py " tea  time ")) with
              | Ret text => text
              | Raise _ => clean_text (py " tea  time ")
              end,
          mkWorld (slept fresh ++ backoffs 2 k)
                  (sent fresh
                     ++ repeat (summary_prompt (py "Tea") (py " tea  time "))
                               (S k))).
Proof.
  apply (text_is_summarised_in_one_piece (always_raises invalid_api_key)
           no_complex_fields (py " tea  time ") (py "Tea") 2 fresh).
  vm_compute. discriminate.
Defined.

(** X23.  Whether it returns or raises, [repurpose] sends at most six
    prompts for the summary and six for each content type, and its delays
    between calls are at most one [delay_between_calls] after each content
    type but the last. *)
Theorem repurpose_calls_are_bounded
  (web : Web) (model : Model)
  (format_complex : pystr -> dict pystr -> FormatResult)
  (url : pystr) (content_types : list pystr) (delay_between_calls : nat)
  (custom_instructions : option (dict pystr)) (w : World) :
  length (sent (snd (repurpose web model format_complex url content_types
                               delay_between_calls custom_instructions w)))
  <= length (sent w) + 6 * S (length content_types)
  /\ exists n,
       n <= length content_types - 1
       /\ inter_call_sleeps
            (slept (snd (repurpose web model format_complex url content_types
                                   delay_between_calls custom_instructions w)))
          = inter_call_sleeps (slept w)
              ++ repeat (Fixed delay_between_calls) n.
Proof.
  exact (repurpose_counts model format_complex web url content_types
           delay_between_calls custom_instructions w).
Qed.

End RepurposerProperties.

(* ====================================================================== *)
(** * The generating loop, call by call *)
(* ====================================================================== *)

Module GenerationFacts.
Import TextProcessor Prompts GeminiHandler ContentFetcher ContentRepurposer.
Import Scenarios Vocabulary ExtraVocabulary.
Import HandlerFacts RepurposerFacts RetryBoundFacts RenderFacts.
Import RepurposerMoreFacts.

Local Open Scope monad_scope.

Lemma dict_set_fresh {V} (d : dict V) (k : pystr) (v : V) :
  ~ In k (dict_keys d) -> dict_set d k v = d ++ [(k, v)].
Proof.
  induction d as [|[k' v'] d IH]; intros Hk; [reflexivity|].
  cbn [dict_set]. rewrite pystr_eqb_neq.
  - cbn [app]. f_equal. apply IH. intros H. apply Hk. now right.
  - intros ->. apply Hk. now left.
Qed.

Lemma assign_all_distinct (entries : list (pystr * pystr)) :
  forall results,
    NoDup (map fst entries) ->
    (forall k, In k (map fst entries) -> ~ In k (dict_keys results)) ->
    assign_all entries results = results ++ entries.
Proof.
  unfold assign_all.
  induction entries as [|[k v] entries IH]; intros results Hnd Hfresh.
  - now rewrite app_nil_r.
  - cbn [fold_left fst snd]. cbn [map fst] in Hnd, Hfresh.
    inversion Hnd as [|? ? Hk Hnd']; subst.
    rewrite (dict_set_fresh results k v) by (apply Hfresh; now left).
    rewrite IH.
    + now rewrite <- app_assoc.
    + exact Hnd'.
    + intros k' Hk'. unfold dict_keys. rewrite map_app, in_app_iff.
      intros [H|[H|[]]].
      * apply (Hfresh k'); [now right|exact H].
      * cbn [fst] in H. subst k'. contradiction.
Qed.

Lemma assign_all_get (entries : list (pystr * pystr)) :
  forall (results : dict pystr) (k v : pystr),
    dict_get (assign_all entries results) k = Some v ->
    In (k, v) entries \/ dict_get results k = Some v.
Proof.
  unfold assign_all.
  induction entries as [|[k0 v0] entries IH]; intros results k v H.
  - now right.
  - cbn [fold_left fst snd] in H. destruct (IH _ _ _ H) as [Hin|Hg].
    + left. now right.
    + destruct (pystr_eqb k0 k) eqn:Ek.
      * apply pystr_eqb_eq in Ek. subst k0.
        rewrite dict_get_set_same in Hg. injection Hg as ->.
        left. now left.
      * right. rewrite dict_get_set_other in Hg; [exact Hg|].
        intros ->. now rewrite pystr_eqb_refl in Ek.
Qed.

Lemma generation_type_has_prompt
      (format_complex : pystr -> dict pystr -> FormatResult)
      (content_type condensed title custom_instruction : pystr) :
  In content_type generation_types ->
  exists prompt,
    build_prompt format_complex content_type condensed title
                 custom_instruction = Prompt prompt
    /\ prompt <> [].
Proof.
  intros Hct.
  destruct (generation_type_fallback content_type condensed title
              custom_instruction Hct) as (p & Hp & Hne).
  unfold build_prompt, dict_mem. rewrite Hp.
  destruct (str_format _ _ _) as [prompt|].
  - destruct prompt as [|c prompt]; cbn [truthy negb andb].
    + exists p. split; [reflexivity|exact Hne].
    + exists (c :: prompt). split; [reflexivity|discriminate].
  - exists p. split; [reflexivity|exact Hne].
Qed.

(** The prompt of a generation type with an instruction free of braces. *)
Lemma build_prompt_generation
      (format_complex : pystr -> dict pystr -> FormatResult)
      (content_type condensed title custom_instruction : pystr) :
  In content_type generation_types ->
  plain custom_instruction = true ->
  build_prompt format_complex content_type condensed title custom_instruction
  = Prompt (generation_prompt content_type title condensed custom_instruction).
Proof.
  intros Hct Hplain.
  pose proof (proj1 (Forall_forall _ _) generation_templates_shape
                content_type Hct) as Hg.
  unfold generation_prompt, build_prompt.
  destruct custom_instruction as [|c ci].
  - change (splice_instruction (get_template content_type) [])
      with (get_template content_type).
    rewrite (format_generation_template format_complex condensed title _ Hg).
    assert (Ht : truthy (rendered CONTENT_FIELD (get_template content_type)
                                  title condensed) = true).
    { unfold rendered. apply truthy_app_l. apply Hg. }
    rewrite Ht. reflexivity.
  - assert (Hne : c :: ci <> []) by discriminate.
    rewrite (format_instructed_template format_complex condensed title _ _
               Hg Hne Hplain).
    assert (Ht : truthy (rendered_with_instruction (get_template content_type)
                           title condensed (c :: ci)) = true).
    { unfold rendered_with_instruction. apply truthy_app_l. apply Hg. }
    rewrite Ht. reflexivity.
Qed.

Section Generation.

Variable model : Model.
Variable format_complex : pystr -> dict pystr -> FormatResult.

(** One call of [create_repurposed_content], as the capability sees it. *)
Lemma create_decides (content_type condensed title ci : pystr) (w : World) :
  match build_prompt format_complex content_type condensed title ci with
  | InvalidType message =>
      create_repurposed_content model format_complex content_type condensed
                                title ci w = (Ret message, w)
  | Prompt prompt =>
      exists k v,
        decides model (length (sent w)) prompt content_type k v
        /\ create_repurposed_content model format_complex content_type
                                    condensed title ci w
           = (Ret v, mkWorld (slept w ++ backoffs 2 k)
                             (sent w ++ repeat prompt (S k)))
  end.
Proof.
  unfold create_repurposed_content.
  destruct (build_prompt format_complex content_type condensed title ci)
    as [prompt|message]; [|reflexivity].
  destruct (call_with_retry_stops model prompt default_max_retries
              default_base_delay w) as (k & Hk & Hfirst & Hlast & Hr).
  unfold try_except. rewrite Hr. unfold decides.
  destruct (model (length (sent w) + k) prompt) as [text|e] eqn:Em.
  - exists k, text. rewrite Em. repeat split; assumption.
  - exists k, (error_generating content_type). rewrite Em.
    split; [|reflexivity]. split; [exact Hk|]. split; [exact Hfirst|].
    split; [reflexivity|]. intros Hlt. exact (Hlast Hlt e eq_refl).
Qed.

(** The loop of the content types: what it assigns and the calls it makes. *)
Lemma generate_loop_trace (condensed title : pystr) (delay : nat)
      (custom : dict pystr) (rest : list pystr) :
  forall (n i : nat) (results : dict pystr) (w : World),
  exists entries w',
    generate_loop model format_complex n i rest condensed title delay custom
                  results w
    = (Ret (assign_all entries results), w')
    /\ map fst entries = rest
    /\ generations model
         (fun ct => build_prompt format_complex ct condensed title
                                 (custom_for custom ct))
         (length (sent w)) rest entries (length (sent w')).
Proof.
  induction rest as [|ct rest IH]; intros n i results w.
  - exists [], w. repeat split. constructor.
  - cbn [generate_loop]. fold (custom_for custom ct).
    pose proof (create_decides ct condensed title (custom_for custom ct) w)
      as Hc.
    destruct (build_prompt format_complex ct condensed title
                           (custom_for custom ct)) as [prompt|message] eqn:Eb.
    + destruct Hc as (k & v & Hd & E).
      rewrite (bind_ret _ _ _ _ _ E).
      set (w1 := mkWorld (slept w ++ backoffs 2 k)
                         (sent w ++ repeat prompt (S k))).
      assert (Hs : exists w2,
                 (if i <? n - 1 then sleep (Fixed delay) else ret tt) w1
                 = (Ret tt, w2) /\ sent w2 = sent w1).
      { destruct (i <? n - 1); eexists; (split; [reflexivity|reflexivity]). }
      destruct Hs as (w2 & Es & Hs2).
      rewrite (bind_ret _ _ _ _ _ Es).
      destruct (IH n (S i) (dict_set results ct v) w2)
        as (entries & w' & E2 & Hm & Hg).
      exists ((ct, v) :: entries), w'.
      split; [exact E2|]. split; [cbn [map fst]; now rewrite Hm|].
      eapply generations_call; [exact Eb|exact Hd|].
      rewrite Hs2 in Hg. unfold w1 in Hg. cbn [sent] in Hg.
      rewrite length_app, repeat_length in Hg. exact Hg.
    + rewrite (bind_ret _ _ _ _ _ Hc).
      assert (Hs : exists w2,
                 (if i <? n - 1 then sleep (Fixed delay) else ret tt) w
                 = (Ret tt, w2) /\ sent w2 = sent w).
      { destruct (i <? n - 1); eexists; (split; [reflexivity|reflexivity]). }
      destruct Hs as (w2 & Es & Hs2).
      rewrite (bind_ret _ _ _ _ _ Es).
      destruct (IH n (S i) (dict_set results ct message) w2)
        as (entries & w' & E2 & Hm & Hg).
      exists ((ct, message) :: entries), w'.
      split; [exact E2|]. split; [cbn [map fst]; now rewrite Hm|].
      eapply generations_invalid; [exact Eb|].
      rewrite Hs2 in Hg. exact Hg.
Qed.

(** The steps after the chunking, from the world [w]. *)
Lemma condense_then_generate (chunks : list pystr) (title : pystr)
      (content_types : list pystr) (delay : nat) (custom : dict pystr)
      (w : World) :
  exists condensed w1 entries w',
    condense model format_complex chunks title delay w = (Ret condensed, w1)
    /\ generate_loop model format_complex (length content_types) 0
                    content_types condensed title delay custom [] w1
       = (Ret (assign_all entries []), w')
    /\ dict_keys (assign_all entries []) = first_occurrences content_types
    /\ map fst entries = content_types
    /\ (NoDup content_types -> assign_all entries [] = entries)
    /\ (forall ct, In ct content_types ->
        exists v, dict_get (assign_all entries []) ct = Some v
                  /\ In (ct, v) entries)
    /\ generations model
         (fun ct => build_prompt format_complex ct condensed title
                                 (custom_for custom ct))
         (length (sent w1)) content_types entries (length (sent w')).
Proof.
  destruct (condense_spec model format_complex chunks title delay w)
    as (summaries & w1 & Ec & _).
  destruct (generate_loop_trace (join [NL; NL] summaries) title delay custom
              content_types (length content_types) 0 [] w1)
    as (entries & w' & Eg & Hm & Hg).
  destruct (generate_loop_spec model format_complex (join [NL; NL] summaries)
              title delay custom content_types (length content_types) 0 [] w1)
    as (results & w'' & Eg' & Hkeys & Hin & _).
  rewrite Eg in Eg'. injection Eg' as <- <-.
  exists (join [NL; NL] summaries), w1, entries, w'.
  split; [exact Ec|]. split; [exact Eg|]. split; [exact Hkeys|].
  split; [exact Hm|]. split; [|split; [|exact Hg]].
  - intros Hnd. rewrite (assign_all_distinct entries []).
    + reflexivity.
    + now rewrite Hm.
    + intros k _ [].
  - intros ct Hct. destruct (Hin ct Hct) as (v & Hv & _).
    exists v. split; [exact Hv|].
    destruct (assign_all_get entries [] ct v Hv) as [H|H];
      [exact H|discriminate H].
Qed.

(** The entries are kept for every requested type. *)
Lemma generated_every_type (chunks : list pystr) (title : pystr)
      (content_types : list pystr) (delay : nat) (custom : dict pystr)
      (w : World) :
  exists condensed w1 entries w',
    condense model format_complex chunks title delay w = (Ret condensed, w1)
    /\ generate_loop model format_complex (length content_types) 0
                    content_types condensed title delay custom [] w1
       = (Ret (assign_all entries []), w')
    /\ every_type_kept model condensed title custom content_types
                       (length (sent w1)) entries (length (sent w')).
Proof.
  destruct (condense_then_generate chunks title content_types delay custom w)
    as (condensed & w1 & entries & w' & Ec & Eg & Hk & Hm & Hnd & Hin & Hg).
  exists condensed, w1, entries, w'.
  split; [exact Ec|]. split; [exact Eg|].
  split; [exact Hm|]. split; [exact Hk|]. split; [exact Hnd|].
  split; [exact Hin|].
  exists (fun ct => build_prompt format_complex ct condensed title
                                 (custom_for custom ct)).
  split; [exact Hg|].
  intros ct Hct.
  destruct (generation_type_has_prompt format_complex ct condensed title
              (custom_for custom ct) Hct) as (prompt & Hp & Hne).
  exists prompt. split; [exact Hp|]. split; [exact Hne|].
  intros Hplain.
  rewrite (build_prompt_generation format_complex ct condensed title
             (custom_for custom ct) Hct Hplain) in Hp.
  now injection Hp.
Qed.

End Generation.

End GenerationFacts.

(* ====================================================================== *)
(** * The entries of the result *)
(* ====================================================================== *)

Module GenerationClaims.
Import TextProcessor Prompts GeminiHandler ContentFetcher ContentRepurposer.
Import Scenarios Vocabulary ExtraVocabulary.
Import HandlerFacts RepurposerFacts GenerationFacts.

(** C7.  [repurpose_from_text], and [repurpose] once the fetch has given a
    non-empty content, always return, and the mapping they return is the
    one that assigning one entry for each requested content type, in the
    order of the request, gives: its keys are the requested types in that
    order, each at its first occurrence.  The entry of a type is decided by
    the calls made for the prompt of that type alone, counted from where the
    calls for the types before it ended: calls answered with the rate-limit
    signal are retried, up to five times, and the call that ends the
    retries gives the entry, its answer or, when it raised, the marker
    [Error generating <type> content. Please try again later.].  So a type
    whose generation uses up its retries maps to its marker, and the types
    after it are still generated.  For [linkedin], [twitter], [email] and
    [thought_leadership] a prompt is always sent: the template of the type
    with the title and the condensed content, when the custom instruction
    has no brace. *)
Theorem repurpose_keeps_every_type
  (web : Web) (model : Model)
  (format_complex : pystr -> dict pystr -> FormatResult)
  (content_types : list pystr) (delay_between_calls : nat)
  (custom_instructions : option (dict pystr)) (w : World) :
  (forall title content : pystr,
   exists condensed w1 entries w',
     condense model format_complex (chunk_text content default_max_tokens)
              title delay_between_calls w = (Ret condensed, w1)
     /\ repurpose_from_text model format_complex title content content_types
                            delay_between_calls custom_instructions w
        = (Ret (assign_all entries []), w')
     /\ every_type_kept model condensed title
                        (or_empty_dict custom_instructions) content_types
                        (length (sent w1)) entries (length (sent w')))
  /\ (forall (url : pystr) (content_data : FetchResult) (w0 : World),
      fetch_content web url w = (Ret content_data, w0) ->
      content content_data <> [] ->
      exists condensed w1 entries w',
        condense model format_complex
                 (chunk_text (content content_data) default_max_tokens)
                 (title content_data) delay_between_calls w0
        = (Ret condensed, w1)
        /\ repurpose web model format_complex url content_types
                     delay_between_calls custom_instructions w
           = (Ret (assign_all entries []), w')
        /\ every_type_kept model condensed (title content_data)
                           (or_empty_dict custom_instructions) content_types
                           (length (sent w1)) entries (length (sent w'))).
Proof.
  split.
  - intros title content.
    destruct (generated_every_type model format_complex
                (chunk_text content default_max_tokens) title content_types
                delay_between_calls (or_empty_dict custom_instructions) w)
      as (condensed & w1 & entries & w' & Ec & Eg & Hkept).
    exists condensed, w1, entries, w'.
    split; [exact Ec|]. split; [|exact Hkept].
    unfold repurpose_from_text. rewrite (bind_ret _ _ _ _ _ Ec). exact Eg.
  - intros url content_data w0 Hfetch Hcontent.
    destruct (generated_every_type model format_complex
                (chunk_text (content content_data) default_max_tokens)
                (title content_data) content_types delay_between_calls
                (or_empty_dict custom_instructions) w0)
      as (condensed & w1 & entries & w' & Ec & Eg & Hkept).
    exists condensed, w1, entries, w'.
    split; [exact Ec|]. split; [|exact Hkept].
    unfold repurpose. rewrite (bind_ret _ _ _ _ _ Hfetch).
    rewrite (truthy_nonempty _ Hcontent). cbn [negb].
    rewrite (bind_ret _ _ _ _ _ Ec). exact Eg.
Qed.

(** A fetched article, [linkedin] and [twitter] requested, no quota for the
    LinkedIn prompt. *)
Lemma repurpose_keeps_every_type_witness :
  exists entries w',
    repurpose one_article no_linkedin_quota no_complex_fields
              (py "https://example.com/tea") [py "linkedin"; py "twitter"]
              2 None fresh
    = (Ret (assign_all entries []), w')
    /\ map fst entries = [py "linkedin"; py "twitter"]
    /\ assign_all entries [] = entries.
Proof.
  destruct (repurpose_keeps_every_type one_article no_linkedin_quota
              no_complex_fields [py "linkedin"; py "twitter"] 2 None fresh)
    as [_ H].
  destruct (H (py "https://example.com/tea")
              (mkFetchResult (py "Tea") (py "An article about tea."))
              fresh)
    as (condensed & w1 & entries & w' & _ & E & Hm & _ & Hnd & _ & _).
  - vm_compute. reflexivity.
  - discriminate.
  - exists entries, w'. split; [exact E|]. split; [exact Hm|].
    apply Hnd. repeat constructor; cbn [In]; intros F;
      repeat (destruct F as [F|F]; try discriminate F); exact F.
Defined.

End GenerationClaims.

(* ====================================================================== *)
(** * Facts about the interfaces *)
(* ====================================================================== *)

Module InterfaceFacts.
Import TextProcessor Prompts GeminiHandler ContentFetcher ContentRepurposer.
Import Construction Main Index.
Import Scenarios Vocabulary ExtraVocabulary.
Import HandlerFacts RepurposerFacts RenderFacts RepurposerMoreFacts.
Import GenerationFacts.

Local Open Scope monad_scope.

(** ** The key pattern *)

Lemma class_times_spec (n : nat) :
  forall (s rest : pystr),
    class_times n s = Some rest
    <-> exists key, s = key ++ rest /\ length key = n
                    /\ forallb key_char key = true.
Proof.
  induction n as [|n IH]; intros s rest; cbn [class_times].
  - split.
    + intros H. injection H as <-. exists []. repeat split.
    + intros (key & -> & Hl & _). destruct key; [reflexivity|discriminate].
  - destruct s as [|c s].
    + split; [discriminate|].
      intros (key & He & Hl & _). destruct key; discriminate.
    + destruct (key_char c) eqn:Ec.
      * rewrite IH. split.
        -- intros (key & -> & Hl & Hk). exists (c :: key).
           cbn [length forallb app]. rewrite Ec, Hk, Hl. repeat split.
        -- intros (key & He & Hl & Hk). destruct key as [|c' key];
             [discriminate|].
           cbn [app] in He. injection He as <- ->.
           cbn [forallb] in Hk. apply andb_true_iff in Hk as [_ Hk].
           exists key. split; [reflexivity|]. split; [|exact Hk].
           cbn [length] in Hl. lia.
      * split; [discriminate|].
        intros (key & He & Hl & Hk). destruct key as [|c' key];
          [discriminate|].
        cbn [app] in He. injection He as <- ->.
        cbn [forallb] in Hk. rewrite Ec in Hk. discriminate.
Qed.

Lemma at_dollar_spec (rest : pystr) :
  at_dollar rest = true <-> rest = [] \/ rest = [NL].
Proof.
  destruct rest as [|c [|c2 rest]]; cbn [at_dollar].
  - split; [now left|reflexivity].
  - rewrite N.eqb_eq. split.
    + intros ->. now right.
    + intros [H|H]; [discriminate|]. now injection H.
  - split; [discriminate|]. intros [H|H]; discriminate.
Qed.

Lemma matches_key_pattern_spec (s : pystr) :
  matches_key_pattern s = true
  <-> exists key, length key = 39 /\ forallb key_char key = true
                  /\ (s = key \/ s = key ++ [NL]).
Proof.
  unfold matches_key_pattern. split.
  - destruct (class_times 39 s) as [rest|] eqn:E; [|discriminate].
    intros Hd. apply at_dollar_spec in Hd.
    apply class_times_spec in E as (key & -> & Hl & Hk).
    exists key. split; [exact Hl|]. split; [exact Hk|].
    destruct Hd as [-> | ->]; [left; apply app_nil_r|now right].
  - intros (key & Hl & Hk & Hs).
    assert (E : exists rest, class_times 39 s = Some rest
                             /\ (rest = [] \/ rest = [NL])).
    { destruct Hs as [-> | ->].
      - exists []. split; [|now left].
        apply class_times_spec. exists key. rewrite app_nil_r. repeat split;
          assumption.
      - exists [NL]. split; [|now right].
        apply class_times_spec. exists key. repeat split; assumption. }
    destruct E as (rest & -> & Hr). now apply at_dollar_spec.
Qed.

Lemma valid_key_truthy (key : pystr) :
  is_valid_api_key (PyStr key) = true -> truthy key = true.
Proof.
  cbn [is_valid_api_key]. destruct (truthy key); [reflexivity|discriminate].
Qed.

(** ** Construction *)

Lemma content_repurposer_init_truthy (getenv : option pystr)
      (genai_setup : pystr -> Outcome unit) (key : pystr) :
  truthy key = true ->
  content_repurposer_init getenv genai_setup (Some key)
  = obind (genai_setup key) (fun _ => Ret key).
Proof.
  intros Ht. unfold content_repurposer_init, gemini_handler_init.
  cbn [truthy_opt]. rewrite Ht. cbn [negb]. rewrite Ht. reflexivity.
Qed.

(** ** The page *)

Lemma selected_types_cases (f : Widgets) :
  dict_keys (custom_instructions f) = selected_types f
  /\ NoDup (selected_types f)
  /\ incl (selected_types f) generation_types.
Proof.
  unfold custom_instructions, selected_types.
  destruct (linkedin f), (twitter f), (email f), (thought_leadership f);
    (split; [vm_compute; reflexivity|]);
    (split;
     [ repeat (constructor; [cbn [In]; intros H; intuition discriminate|]);
       constructor
     | intros ct H; cbn [app In] in H; cbn [generation_types In]; tauto ]).
Qed.

(** ** The drawing calls *)

Lemma never_raises_drawing (page : Page) (e : Exn) :
  never_raises page -> drawing_raises page e -> False.
Proof.
  intros (H1 & H2 & H3 & H4 & H5 & H6 & H7 & H8) H.
  destruct H as [H|[(p & m & H)|[H|[H|[(t & H)|[(i & c & H)|[(i & c & x & H)
                |(m & g & H)]]]]]]].
  - rewrite H1 in H. discriminate.
  - rewrite H2 in H. discriminate.
  - rewrite H3 in H. discriminate.
  - rewrite H4 in H. discriminate.
  - rewrite H5 in H. discriminate.
  - rewrite H6 in H. discriminate.
  - rewrite H7 in H. discriminate.
  - rewrite H8 in H. discriminate.
Qed.

Lemma bind_lift_ret {A B} (a : A) (k : A -> M B) (w : World) :
  bind (lift (Ret a)) k w = k a w.
Proof. reflexivity. Qed.

Lemma bind_lift_raise {A B} (e : Exn) (k : A -> M B) (w : World) :
  bind (lift (Raise e)) k w = (Raise e, w).
Proof. reflexivity. Qed.

(** The look-ups in the fetch-failure result fail for every type of the
    page, with an exception that gets the advice for unknown errors. *)
Lemma lookup_fetch_failure (content_type : pystr) :
  In content_type generation_types ->
  lookup fetch_failure content_type = Raise (key_error content_type)
  /\ error_guidance (exn_message (key_error content_type)) = UnknownError.
Proof.
  intros [<-|[<-|[<-|[<-|[]]]]]; split; vm_compute; reflexivity.
Qed.

Section Tabs.

Variable page : Page.

(** The tabs of results that hold every content type asked for: all of
    them are filled, unless a drawing call raises. *)
Lemma show_tabs_outcome (results : dict pystr) (rest : list pystr) :
  forall (i : nat) (shown : list (pystr * pystr)),
    (forall ct, In ct rest -> exists v, dict_get results ct = Some v) ->
    match show_tabs page results i rest shown with
    | Ret tabs =>
        exists more,
          tabs = shown ++ more
          /\ map fst more = rest
          /\ Forall (fun tab => dict_get results (fst tab) = Some (snd tab))
                    more
    | Raise e => drawing_raises page e
    end.
Proof.
  induction rest as [|ct rest IH]; intros i shown H.
  - cbn [show_tabs]. exists []. rewrite app_nil_r. repeat split. constructor.
  - cbn [show_tabs].
    destruct (draw_tab_header page i ct) as [[]|e] eqn:Eh; cbn [obind].
    + destruct (H ct (or_introl eq_refl)) as (v & Hv).
      unfold lookup. rewrite Hv. cbn [obind].
      destruct (draw_tab_body page i ct v) as [[]|e] eqn:Eb; cbn [obind].
      * assert (H' : forall ct', In ct' rest ->
                                 exists v', dict_get results ct' = Some v').
        { intros ct' Hin. apply H. now right. }
        specialize (IH (S i) (shown ++ [(ct, v)]) H').
        destruct (show_tabs page results (S i) rest (shown ++ [(ct, v)]))
          as [tabs|e]; [|exact IH].
        destruct IH as (more & -> & Hm & Hf).
        exists ((ct, v) :: more). rewrite <- app_assoc.
        split; [reflexivity|]. split.
        -- cbn [map fst]. now rewrite Hm.
        -- constructor; [exact Hv|exact Hf].
      * right. right. right. right. right. right. left.
        now exists i, ct, v.
    + right. right. right. right. right. left. now exists i, ct.
Qed.

Section Attempt.

Variables first_fetch second_fetch : Web.
Variable model : Model.
Variable format_complex : pystr -> dict pystr -> FormatResult.
Variable getenv : option pystr.
Variable genai_setup : pystr -> Outcome unit.

(** What the handler ends with. *)
Lemma handler_outcome (e : Exn) (w : World) :
  match handler page e w with
  | (Ret screen, w') =>
      screen = ErrorShown (exn_message e) (error_guidance (exn_message e))
      /\ w' = w
  | (Raise e', _) => drawing_raises page e'
  end.
Proof.
  unfold handler.
  destruct (draw_error page (exn_message e) (error_guidance (exn_message e)))
    as [[]|e'] eqn:Ed.
  - rewrite bind_lift_ret. split; reflexivity.
  - rewrite bind_lift_raise. do 7 right. do 2 eexists; eassumption.
Qed.

(** The steps after the results, when they hold every selected type. *)
Lemma after_results (f : Widgets) (results : dict pystr) (w : World) :
  (forall ct, In ct (selected_types f) ->
              exists v, dict_get results ct = Some v) ->
  match (lift (draw_progress page 100
                 (py "All content generated successfully!")) ;;
         sleep (Fixed 1) ;;
         lift (draw_done page) ;;
         lift (draw_tabs page (selected_types f)) ;;
         shown <- lift (show_tabs page results 0 (selected_types f) []) ;;
         ret (Tabs shown)) w with
  | (Ret (Tabs shown), w') =>
      map fst shown = selected_types f
      /\ Forall (fun tab => dict_get results (fst tab) = Some (snd tab)) shown
      /\ w' = mkWorld (slept w ++ [Fixed 1]) (sent w)
  | (Ret _, _) => False
  | (Raise e, _) => drawing_raises page e
  end.
Proof.
  intros H.
  destruct (draw_progress page 100 _) as [[]|e] eqn:E1;
    [rewrite bind_lift_ret
    |rewrite bind_lift_raise; right; left; do 2 eexists; eassumption].
  rewrite (bind_ret (sleep (Fixed 1)) _ w
             (mkWorld (slept w ++ [Fixed 1]) (sent w)) tt eq_refl).
  destruct (draw_done page) as [[]|e] eqn:E2;
    [rewrite bind_lift_ret
    |rewrite bind_lift_raise; do 3 right; left; assumption].
  destruct (draw_tabs page (selected_types f)) as [[]|e] eqn:E3;
    [rewrite bind_lift_ret
    |rewrite bind_lift_raise; do 4 right; left; eexists; eassumption].
  pose proof (show_tabs_outcome results (selected_types f) 0 [] H) as Ht.
  destruct (show_tabs page results 0 (selected_types f) []) as [tabs|e].
  - rewrite bind_lift_ret. destruct Ht as (more & -> & Hm & Hf).
    cbn [ret app]. split; [exact Hm|]. split; [exact Hf|reflexivity].
  - rewrite bind_lift_raise. exact Ht.
Qed.

(** The [try] block on pasted content. *)
Lemma attempt_pasted (f : Widgets) (api_key : pystr) (w w1 : World)
      (results : dict pystr) :
  is_valid_api_key (PyStr api_key) = true ->
  genai_setup api_key = Ret tt ->
  input_method f <> py "URL" ->
  repurpose_from_text model format_complex (article_title f)
                      (pasted_content f) (selected_types f) (delay_seconds f)
                      (Some (custom_instructions f)) w = (Ret results, w1) ->
  (forall ct, In ct (selected_types f) ->
              exists v, dict_get results ct = Some v) ->
  match attempt page first_fetch second_fetch model format_complex getenv
                genai_setup f api_key w with
  | (Ret (Tabs shown), w') =>
      map fst shown = selected_types f
      /\ Forall (fun tab => dict_get results (fst tab) = Some (snd tab)) shown
      /\ w' = mkWorld (slept w1 ++ [Fixed 1]) (sent w1)
  | (Ret _, _) => False
  | (Raise e, _) => drawing_raises page e
  end.
Proof.
  intros Hkey Hsetup Hm E Hall.
  unfold attempt, obtain_results.
  rewrite (content_repurposer_init_truthy getenv genai_setup api_key
             (valid_key_truthy api_key Hkey)), Hsetup.
  cbn [obind]. rewrite (pystr_eqb_neq _ _ Hm).
  unfold bind at 1. unfold bind at 1. cbn [lift].
  destruct (draw_progress page 10 _) as [[]|e] eqn:E1.
  - rewrite bind_lift_ret. unfold bind at 1. rewrite E. cbn [ret].
    exact (after_results f results w1 Hall).
  - rewrite bind_lift_raise. right. left. do 2 eexists; eassumption.
Qed.

(** The [try] block on a URL, from the results of [repurpose] on. *)
Lemma attempt_url (f : Widgets) (api_key : pystr) (w w1 : World)
      (d1 : FetchResult) :
  is_valid_api_key (PyStr api_key) = true ->
  genai_setup api_key = Ret tt ->
  never_raises page ->
  input_method f = py "URL" ->
  fetch_content first_fetch (url f) w = (Ret d1, w1) ->
  content d1 <> [] ->
  attempt page first_fetch second_fetch model format_complex getenv
          genai_setup f api_key w
  = (results <- repurpose second_fetch model format_complex (url f)
                          (selected_types f) (delay_seconds f)
                          (Some (custom_instructions f)) ;;
     sleep (Fixed 1) ;;
     shown <- lift (show_tabs page results 0 (selected_types f) []) ;;
     ret (Tabs shown)) w1.
Proof.
  intros Hkey Hsetup Hq Hm H1 Hne.
  destruct Hq as (_ & Hp & _ & Hd & Ht & _).
  unfold attempt, obtain_results.
  rewrite (content_repurposer_init_truthy getenv genai_setup api_key
             (valid_key_truthy api_key Hkey)), Hsetup.
  cbn [obind]. rewrite Hm, pystr_eqb_refl.
  unfold bind, lift, ret, sleep. cbv beta iota.
  rewrite Hp. cbv beta iota. rewrite H1. cbv beta iota.
  destruct (content d1) as [|c rest] eqn:Ec; [congruence|].
  cbn [truthy negb is_nil]. cbv beta iota. rewrite Hp. cbv beta iota.
  destruct (repurpose second_fetch model format_complex (url f)
              (selected_types f) (delay_seconds f)
              (Some (custom_instructions f)) w1) as [[results|e] w2];
    cbv beta iota; [|reflexivity].
  rewrite Hp. cbv beta iota. rewrite Hd. cbv beta iota.
  rewrite Ht. cbv beta iota. reflexivity.
Qed.

End Attempt.

End Tabs.


Section Results.

Variable model : Model.
Variable format_complex : pystr -> dict pystr -> FormatResult.

(** What [repurpose_from_text] returns. *)
Lemma repurpose_from_text_results (title content : pystr)
      (content_types : list pystr) (delay : nat)
      (custom : option (dict pystr)) (w : World) :
  exists condensed results w',
    repurpose_from_text model format_complex title content content_types
                        delay custom w = (Ret results, w')
    /\ dict_keys results = first_occurrences content_types
    /\ forall ct, In ct content_types ->
       exists v, dict_get results ct = Some v
                 /\ artifact_of model format_complex condensed title
                                (or_empty_dict custom) ct v.
Proof.
  unfold repurpose_from_text.
  destruct (condense_spec model format_complex
              (chunk_text content default_max_tokens) title delay w)
    as (summaries & w1 & E & _).
  rewrite (bind_ret _ _ _ _ _ E).
  destruct (generate_loop_spec model format_complex (join [NL; NL] summaries)
              title delay (or_empty_dict custom) content_types
              (length content_types) 0 [] w1)
    as (results & w' & E2 & Hk & Hv & _).
  exists (join [NL; NL] summaries), results, w'.
  split; [exact E2|]. split; [exact Hk|exact Hv].
Qed.


Lemma repurpose_empty_fetch (web : Web) (url : pystr)
      (content_types : list pystr) (delay : nat)
      (custom : option (dict pystr)) (w w1 : World) (data : FetchResult) :
  fetch_content web url w = (Ret data, w1) ->
  content data = [] ->
  repurpose web model format_complex url content_types delay custom w
  = (Ret fetch_failure, w1).
Proof.
  intros Hf He. unfold repurpose.
  rewrite (bind_ret _ _ _ _ _ Hf), He. reflexivity.
Qed.

End Results.

End InterfaceFacts.

(* ====================================================================== *)
(** * Properties of the interfaces *)
(* ====================================================================== *)

Module InterfaceProperties.
Import TextProcessor Prompts GeminiHandler ContentFetcher ContentRepurposer.
Import Construction Main Index.
Import Scenarios Vocabulary ExtraVocabulary ExtraScenarios.
Import HandlerFacts FetcherFacts FetcherMoreFacts RepurposerFacts.
Import RepurposerMoreFacts GenerationFacts InterfaceFacts.

Local Open Scope monad_scope.

(** X24.  [is_valid_api_key] accepts exactly the texts made of 39 letters,
    digits, underscores and hyphens, and those texts followed by one
    newline: the dollar of the pattern also matches before a final
    newline.  [None], the empty text and objects that are not texts are
    refused. *)
Theorem valid_api_key_shape (api_key : PyValue) :
  is_valid_api_key api_key = true
  <-> exists key,
        length key = 39 /\ forallb key_char key = true
        /\ (api_key = PyStr key \/ api_key = PyStr (key ++ [NL])).
Proof.
  split.
  - destruct api_key as [|s|t]; cbn [is_valid_api_key]; try discriminate.
    destruct (truthy s); cbn [negb]; [|discriminate].
    intros H. apply matches_key_pattern_spec in H as (key & Hl & Hk & Hs).
    exists key. split; [exact Hl|]. split; [exact Hk|].
    destruct Hs as [-> | ->]; [now left|now right].
  - intros (key & Hl & Hk & Hs).
    assert (E : exists s, api_key = PyStr s /\ (s = key \/ s = key ++ [NL])).
    { destruct Hs as [-> | ->]; eexists; (split; [reflexivity|]);
        [now left|now right]. }
    destruct E as (s & -> & Hs'). cbn [is_valid_api_key].
    assert (Ht : truthy s = true).
    { destruct key as [|c key]; [discriminate|].
      destruct Hs' as [-> | ->]; reflexivity. }
    rewrite Ht. cbn [negb]. apply matches_key_pattern_spec.
    exists key. split; [exact Hl|]. split; [exact Hk|exact Hs'].
Qed.

(** X25.  The button is enabled exactly when none of the four checks under
    it fails, whatever the input method holds: behind an enabled button the
    four validation errors are never shown. *)
Theorem enabled_button_passes_validation (f : Widgets) :
  button_disabled f = false <-> validation_error f = None.
Proof.
  unfold button_disabled, validation_error.
  destruct (pystr_eqb (input_method f) (py "URL")),
           (pystr_eqb (input_method f) (py "Paste Content")),
           (truthy (url f)), (truthy (pasted_content f)),
           (truthy (article_title f)), (nonempty (selected_types f));
    cbn [andb orb negb]; split; intros H; try reflexivity; discriminate H.
Qed.

(** X26.  The dictionary of custom instructions has the selected content
    types as its keys, in the same order; the selected types are distinct,
    and the handler has a prompt, never an empty one, for each of them with
    the instruction of the page: the page never gets the invalid-type
    message. *)
Theorem selected_types_have_prompts (f : Widgets) :
  dict_keys (custom_instructions f) = selected_types f
  /\ NoDup (selected_types f)
  /\ Forall (fun content_type =>
               forall format_complex condensed title,
               exists prompt,
                 build_prompt format_complex content_type condensed title
                              (custom_for (custom_instructions f) content_type)
                 = Prompt prompt
                 /\ prompt <> [])
            (selected_types f).
Proof.
  destruct (selected_types_cases f) as (Hk & Hn & Hi).
  split; [exact Hk|]. split; [exact Hn|].
  apply Forall_forall. intros ct Hct format_complex condensed title.
  apply generation_type_has_prompt. apply Hi. exact Hct.
Qed.

(** X27.  With pasted content, a key in the valid format and a library that
    accepts it, nothing but a drawing call of the page can make the work
    under the button fail: [repurpose_from_text] returns its results, and
    the work ends with the tabs, one for each selected type in the order of
    the page, each holding the entry of the results for its type, after a
    last sleep of one second; or with the message of an exception that a
    drawing call raised, caught by the handler; or with such an exception
    raised by the handler itself or before the [try].  The access-denied
    error is never shown.  On a page whose drawing calls never raise the
    work always ends with the tabs. *)
Theorem pasted_content_fails_only_when_drawing_fails
  (page : Page) (first_fetch second_fetch : Web) (model : Model)
  (format_complex : pystr -> dict pystr -> FormatResult)
  (getenv : option pystr) (genai_setup : pystr -> Outcome unit)
  (f : Widgets) (api_key : pystr) (w : World) :
  is_valid_api_key (PyStr api_key) = true ->
  genai_setup api_key = Ret tt ->
  input_method f <> py "URL" ->
  exists results w1,
    repurpose_from_text model format_complex (article_title f)
                        (pasted_content f) (selected_types f)
                        (delay_seconds f) (Some (custom_instructions f)) w
    = (Ret results, w1)
    /\ match process page first_fetch second_fetch model format_complex
                     getenv genai_setup f api_key w with
       | (Ret (Tabs shown), w') =>
           map fst shown = selected_types f
           /\ Forall (fun tab => dict_get results (fst tab) = Some (snd tab))
                     shown
           /\ w' = mkWorld (slept w1 ++ [Fixed 1]) (sent w1)
       | (Ret AccessDenied, _) => False
       | (Ret (ErrorShown message guidance), _) =>
           exists e, drawing_raises page e
                     /\ message = exn_message e
                     /\ guidance = error_guidance message
       | (Raise e, _) => drawing_raises page e
       end
    /\ (never_raises page ->
        exists shown,
          process page first_fetch second_fetch model format_complex
                  getenv genai_setup f api_key w
          = (Ret (Tabs shown), mkWorld (slept w1 ++ [Fixed 1]) (sent w1))).
Proof.
  intros Hkey Hsetup Hm.
  destruct (repurpose_from_text_results model format_complex (article_title f)
              (pasted_content f) (selected_types f) (delay_seconds f)
              (Some (custom_instructions f)) w)
    as (condensed & results & w1 & E & _ & Hv).
  assert (Hall : forall ct, In ct (selected_types f) ->
                            exists v, dict_get results ct = Some v).
  { intros ct Hct. destruct (Hv ct Hct) as (v & Hg & _). now exists v. }
  exists results, w1. split; [exact E|].
  assert (Hout :
    match process page first_fetch second_fetch model format_complex
                  getenv genai_setup f api_key w with
    | (Ret (Tabs shown), w') =>
        map fst shown = selected_types f
        /\ Forall (fun tab => dict_get results (fst tab) = Some (snd tab))
                  shown
        /\ w' = mkWorld (slept w1 ++ [Fixed 1]) (sent w1)
    | (Ret AccessDenied, _) => False
    | (Ret (ErrorShown message guidance), _) =>
        exists e, drawing_raises page e
                  /\ message = exn_message e
                  /\ guidance = error_guidance message
    | (Raise e, _) => drawing_raises page e
    end).
  { unfold process.
    destruct (draw_start page) as [[]|e] eqn:Es.
    - rewrite bind_lift_ret. unfold try_except.
      pose proof (attempt_pasted page first_fetch second_fetch model
                    format_complex getenv genai_setup f api_key w w1 results
                    Hkey Hsetup Hm E Hall) as Ha.
      destruct (attempt page first_fetch second_fetch model format_complex
                        getenv genai_setup f api_key w)
        as [[[ |shown|m g]|e] w'].
      + exact Ha.
      + exact Ha.
      + destruct Ha.
      + pose proof (handler_outcome page e w') as Hh.
        destruct (handler page e w') as [[s|e'] w''].
        * destruct Hh as [-> _]. exists e.
          split; [exact Ha|split; reflexivity].
        * exact Hh.
    - rewrite bind_lift_raise. left. exact Es. }
  split; [exact Hout|].
  intros Hq.
  destruct (process page first_fetch second_fetch model format_complex
                    getenv genai_setup f api_key w)
    as [[[ |shown|m g]|e] w'].
  - destruct Hout.
  - destruct Hout as (_ & _ & ->). now exists shown.
  - destruct Hout as (e & He & _).
    destruct (never_raises_drawing page e Hq He).
  - destruct (never_raises_drawing page e Hq Hout).
Qed.

(** A page that refuses the text area of the second tab: the handler shows
    the message of that refusal. *)
Lemma pasted_content_fails_only_when_drawing_fails_witness :
  exists e,
    drawing_raises strict_page e
    /\ fst (process strict_page offline offline no_linkedin_quota
                    no_complex_fields None setup_accepts paste_page
                    well_formed_key fresh)
       = Ret (ErrorShown (exn_message e) (error_guidance (exn_message e))).
Proof.
  destruct (pasted_content_fails_only_when_drawing_fails strict_page offline
              offline no_linkedin_quota no_complex_fields None setup_accepts
              paste_page well_formed_key fresh)
    as (results & w1 & _ & Hout & _).
  - vm_compute. reflexivity.
  - reflexivity.
  - vm_compute. discriminate.
  - destruct (process strict_page offline offline no_linkedin_quota
                      no_complex_fields None setup_accepts paste_page
                      well_formed_key fresh)
      as [[[ |shown|m g]|e] w'] eqn:Ep.
    + destruct Hout.
    + vm_compute in Ep. discriminate Ep.
    + destruct Hout as (e & He & -> & ->). exists e.
      split; [exact He|reflexivity].
    + vm_compute in Ep. discriminate Ep.
Defined.

(** X28.  With a URL the page is fetched twice, once by the page and once
    inside [repurpose], and only the second fetch feeds the prompts.  On a
    page whose drawing calls never raise: when the first fetch has a content
    and the second has none, [repurpose] returns its fetch-failure
    dictionary, the look-up of the first selected type in it fails, and the
    handler shows the name of that type between quotes, with the advice for
    unknown errors; when the second fetch has a content, the work ends with
    the tabs of [repurpose_from_text] on what the second fetch returned. *)
Theorem url_is_fetched_twice
  (page : Page) (first_fetch second_fetch : Web) (model : Model)
  (format_complex : pystr -> dict pystr -> FormatResult)
  (getenv : option pystr) (genai_setup : pystr -> Outcome unit)
  (f : Widgets) (api_key : pystr) (w w1 w2 : World) (d1 d2 : FetchResult) :
  is_valid_api_key (PyStr api_key) = true ->
  genai_setup api_key = Ret tt ->
  never_raises page ->
  input_method f = py "URL" ->
  selected_types f <> [] ->
  fetch_content first_fetch (url f) w = (Ret d1, w1) ->
  content d1 <> [] ->
  fetch_content second_fetch (url f) w1 = (Ret d2, w2) ->
  match content d2 with
  | [] =>
      process page first_fetch second_fetch model format_complex getenv
              genai_setup f api_key w
      = (Ret (ErrorShown ([QUOTE] ++ hd [] (selected_types f) ++ [QUOTE])
                         UnknownError),
         mkWorld (slept w2 ++ [Fixed 1]) (sent w2))
  | _ :: _ =>
      exists results shown w3,
        repurpose_from_text model format_complex (title d2) (content d2)
                            (selected_types f) (delay_seconds f)
                            (Some (custom_instructions f)) w2
        = (Ret results, w3)
        /\ process page first_fetch second_fetch model format_complex getenv
                   genai_setup f api_key w
           = (Ret (Tabs shown), mkWorld (slept w3 ++ [Fixed 1]) (sent w3))
        /\ map fst shown = selected_types f
        /\ Forall (fun tab => dict_get results (fst tab) = Some (snd tab))
                  shown
  end.
Proof.
  intros Hkey Hsetup Hq Hm Hsel H1 Hne H2.
  assert (Hstart :
    process page first_fetch second_fetch model format_complex getenv
            genai_setup f api_key w
    = try_except
        (fun w1 =>
           (results <- repurpose second_fetch model format_complex (url f)
                                 (selected_types f) (delay_seconds f)
                                 (Some (custom_instructions f)) ;;
            sleep (Fixed 1) ;;
            shown <- lift (show_tabs page results 0 (selected_types f) []) ;;
            ret (Tabs shown)) w1)
        (handler page) w1).
  { unfold process. rewrite (proj1 Hq), bind_lift_ret. unfold try_except.
    rewrite (attempt_url page first_fetch second_fetch model format_complex
               getenv genai_setup f api_key w w1 d1 Hkey Hsetup Hq Hm H1 Hne).
    reflexivity. }
  rewrite Hstart. clear Hstart. unfold try_except.
  destruct (content d2) as [|c rest] eqn:Ec.
  - rewrite (bind_ret _ _ _ _ _
               (repurpose_empty_fetch model format_complex second_fetch (url f)
                  (selected_types f) (delay_seconds f)
                  (Some (custom_instructions f)) w1 w2 d2 H2 Ec)).
    rewrite (bind_ret (sleep (Fixed 1)) _ w2
               (mkWorld (slept w2 ++ [Fixed 1]) (sent w2)) tt eq_refl).
    destruct (selected_types_cases f) as (_ & _ & Hincl).
    destruct (selected_types f) as [|ct types]; [congruence|].
    destruct (lookup_fetch_failure ct (Hincl ct (or_introl eq_refl)))
      as [Hl Hg].
    cbn [show_tabs hd].
    rewrite (proj1 (proj2 (proj2 (proj2 (proj2 (proj2 Hq)))))).
    cbn [obind]. rewrite Hl. cbn [obind]. rewrite bind_lift_raise.
    unfold handler.
    rewrite (proj2 (proj2 (proj2 (proj2 (proj2 (proj2 (proj2 Hq))))))).
    rewrite bind_lift_ret, Hg. reflexivity.
  - assert (Hne2 : content d2 <> []) by congruence.
    destruct (repurpose_from_text_results model format_complex (title d2)
                (content d2) (selected_types f) (delay_seconds f)
                (Some (custom_instructions f)) w2)
      as (condensed & results & w3 & E & _ & Hv).
    assert (Hall : forall ct, In ct (selected_types f) ->
                              exists v, dict_get results ct = Some v).
    { intros ct Hct. destruct (Hv ct Hct) as (v & Hg & _). now exists v. }
    pose proof (show_tabs_outcome page results (selected_types f) 0 [] Hall)
      as Ht.
    destruct (show_tabs page results 0 (selected_types f) [])
      as [tabs|e] eqn:Es;
      [|destruct (never_raises_drawing page e Hq Ht)].
    destruct Ht as (more & -> & Hmap & Hf). cbn [app] in Es.
    exists results, more, w3. rewrite <- Ec.
    split; [exact E|]. split; [|split; assumption].
    rewrite (bind_ret _ _ _ _ _
               (eq_trans
                  (repurpose_after_fetch model format_complex second_fetch
                     (url f) (selected_types f) (delay_seconds f)
                     (Some (custom_instructions f)) w1 w2 d2 H2 Hne2) E)).
    rewrite (bind_ret (sleep (Fixed 1)) _ w3
               (mkWorld (slept w3 ++ [Fixed 1]) (sent w3)) tt eq_refl).
    rewrite Es. reflexivity.
Qed.

Lemma url_is_fetched_twice_witness :
  process quiet_page one_article offline no_linkedin_quota no_complex_fields
          None setup_accepts url_page well_formed_key fresh
  = (Ret (ErrorShown (QUOTE :: py "linkedin" ++ [QUOTE]) UnknownError),
     mkWorld [Jittered 2 3; Jittered 2 3; Fixed 1] []).
Proof.
  apply (url_is_fetched_twice quiet_page one_article offline
           no_linkedin_quota no_complex_fields None setup_accepts url_page
           well_formed_key fresh fresh
           (mkWorld [Jittered 2 3; Jittered 2 3] [])
           (mkFetchResult (py "Tea") (py "An article about tea."))
           empty_result).
  - vm_compute. reflexivity.
  - reflexivity.
  - repeat split.
  - reflexivity.
  - vm_compute. discriminate.
  - vm_compute. reflexivity.
  - vm_compute. discriminate.
  - vm_compute. reflexivity.
Defined.



End InterfaceProperties.
